(** * Elasticsearch vs OpenSearch benchmark: harness, aggregator and report

    A shallow embedding of [scripts/benchmark_combined.py] and
    [scripts/generate_report.py], and the properties of the load worker,
    the statistics aggregator and the report emitter proved over it.

    Conventions of the embedding.
    - Python [float] values that carry measured quantities (latencies, rates)
      are rationals [Q], the value of the float; Python's numeric [==], [<]
      are [Qeq], [Qlt].
    - Where binary64 rounding decides what is selected or shown, it is not
      abstracted away: the list index [int(len(latencies) * 0.95)] is
      modelled bit-exactly (module [PyFloat]), and the float sums of the
      report's summary, which are compared with each other, are computed
      with float operations that the embedding leaves open, over the
      entries in the order of the dict (module [Report]).
    - Python exceptions are values of [PyExc]; code that can raise lives in
      the [result] monad.
    - [time.time()] and [client.search] are oracles indexed by the number of
      earlier calls, threaded through an explicit [World]. *)

From Stdlib Require Import ZArith QArith Qround Lia Lqa List Bool Sorting.Sorted.
From stdpp Require Import gmap strings list fin_maps.

Set Warnings "-register-all".

(** ** Binary64 arithmetic used by the percentile index *)

Module PyFloat.
Local Open Scope Z_scope.

(** [round53 P] rounds the positive integer [P] to 53 significant bits,
    ties to even: the IEEE 754 binary64 rounding of any value [P * 2^e]
    in the normal range, expressed on its integer numerator. *)
Definition round53 (P : Z) : Z :=
  if P <=? 0 then 0
  else
    let s := Z.log2 P - 52 in
    if s <=? 0 then P
    else
      let q := P / 2 ^ s in
      let rem := P mod 2 ^ s in
      let half := 2 ^ (s - 1) in
      let q' := if (half <? rem) || ((rem =? half) && Z.odd q)
                then q + 1 else q in
      q' * 2 ^ s.

(** [float(n)] for a non-negative Python int. *)
Definition float_of_int (n : Z) : Z := round53 n.

(** Significands of the literals [0.95] and [0.99]:
    [0.95 = 0x1.e666666666666p-1] and [0.99 = 0x1.fae147ae147aep-1],
    written as [m * 2^-53]. *)
Definition m_0_95 : Z := 8556839292003942.
Definition m_0_99 : Z := 8917127262193582.

(** [int(n * c)] for an int [n >= 0] and a float literal [c = m * 2^-53]:
    convert, multiply with one rounding, truncate. *)
Definition int_mul (n : Z) (m : Z) : Z :=
  round53 (float_of_int n * m) / 2 ^ 53.

Definition int_mul_0_95 (n : nat) : nat := Z.to_nat (int_mul (Z.of_nat n) m_0_95).
Definition int_mul_0_99 (n : nat) : nat := Z.to_nat (int_mul (Z.of_nat n) m_0_99).

End PyFloat.

(** ** Python values, exceptions and checked primitives *)

Module Py.

(** JSON-shaped values: query bodies and search responses. *)
Inductive json : Type :=
| JNull
| JBool (b : bool)
| JNum (n : Z)
| JStr (s : string)
| JArr (items : list json)
| JObj (fields : list (string * json)).

(** The exceptions the two scripts can meet.  [OtherException] stands for
    any other subclass of [Exception] (transport and protocol errors of the
    client libraries) together with its [str()]. *)
Inductive PyExc : Type :=
| ZeroDivisionError
| IndexError
| ValueError (msg : string)
| KeyError (key : string)
| TypeError (msg : string)
| OtherException (msg : string).

(** [str(e)]. *)
Definition str_exc (e : PyExc) : string :=
  match e with
  | ZeroDivisionError => "division by zero"
  | IndexError => "list index out of range"
  | ValueError msg => msg
  | KeyError key => "'" +:+ key +:+ "'"
  | TypeError msg => msg
  | OtherException msg => msg
  end.

Inductive result (A : Type) : Type :=
| Ok (a : A)
| Raise (e : PyExc).
Arguments Ok {A} a.
Arguments Raise {A} e.

Definition bind {A B : Type} (c : result A) (k : A -> result B) : result B :=
  match c with
  | Ok a => k a
  | Raise e => Raise e
  end.

Notation "x <~ c ; k" := (bind c (fun x => k))
  (at level 20, c at level 100, k at level 200, only parsing).

(** [d[key]] on a dict, and [key in d]. *)
Fixpoint dict_get (fields : list (string * json)) (key : string) : option json :=
  match fields with
  | [] => None
  | (k, v) :: rest => if String.eqb k key then Some v else dict_get rest key
  end.

Definition dict_contains (fields : list (string * json)) (key : string) : bool :=
  match dict_get fields key with Some _ => true | None => false end.

(** [v[key]] for a string key: only a dict can be subscripted that way. *)
Definition json_getitem (v : json) (key : string) : result json :=
  match v with
  | JObj fields =>
      match dict_get fields key with
      | Some x => Ok x
      | None => Raise (KeyError key)
      end
  | JNull => Raise (TypeError "'NoneType' object is not subscriptable")
  | JBool _ => Raise (TypeError "'bool' object is not subscriptable")
  | JNum _ => Raise (TypeError "'int' object is not subscriptable")
  | JStr _ => Raise (TypeError "string indices must be integers")
  | JArr _ => Raise (TypeError "list indices must be integers or slices, not str")
  end.

(** [a / b] (true division). *)
Definition py_truediv (a b : Q) : result Q :=
  if Qeq_bool b 0 then Raise ZeroDivisionError else Ok (a / b)%Q.

(** [l[i]] for a non-negative index. *)
Definition py_getitem {A : Type} (l : list A) (i : nat) : result A :=
  match nth_error l i with
  | Some x => Ok x
  | None => Raise IndexError
  end.

(** [x < y] on numbers. *)
Definition py_lt (x y : Q) : bool := negb (Qle_bool y x).

(** [min(l)] and [max(l)]: the first smallest, the first largest item. *)
Definition py_min (l : list Q) : result Q :=
  match l with
  | [] => Raise (ValueError "min() arg is an empty sequence")
  | x :: rest => Ok (fold_left (fun m y => if py_lt y m then y else m) rest x)
  end.

Definition py_max (l : list Q) : result Q :=
  match l with
  | [] => Raise (ValueError "max() arg is an empty sequence")
  | x :: rest => Ok (fold_left (fun m y => if py_lt m y then y else m) rest x)
  end.

(** [sum(l)]: starts from 0 and adds from the left. *)
Definition py_sum (l : list Q) : Q := fold_left Qplus l 0%Q.

Definition py_sum_int (l : list Z) : Z := fold_left Z.add l 0%Z.

(** [sorted(l)]: a stable ascending sort. *)
Fixpoint insert_sorted (x : Q) (l : list Q) : list Q :=
  match l with
  | [] => [x]
  | y :: rest => if Qle_bool x y then x :: l else y :: insert_sorted x rest
  end.

Definition sorted (l : list Q) : list Q := foldr insert_sorted [] l.

End Py.

(** ** benchmark_combined.py *)

Module Benchmark.
Import Py.

(** The query catalog: the items of the global dict [queries], in order. *)
Definition catalog : list (string * json) :=
  [ ("company-name-search",
     JObj [("query", JObj [("match", JObj [("company_name", JStr "consulting")])])]);
    ("country-filter-search",
     JObj [("query", JObj [("bool", JObj
       [("must", JArr [JObj [("match_all", JObj [])]]);
        ("filter", JArr [JObj [("term", JObj [("country", JStr "United States")])]])])])]);
    ("industry-search",
     JObj [("query", JObj [("term", JObj
       [("rics_100", JStr "Management Consulting Services")])])]);
    ("complex-search",
     JObj [("query", JObj [("bool", JObj
       [("must", JArr [JObj [("match", JObj [("company_name", JStr "consulting")])]]);
        ("filter", JArr
          [JObj [("term", JObj [("country", JStr "United States")])];
           JObj [("range", JObj [("employee_count", JObj [("gte", JNum 2)])])]])])])]);
    ("industry-aggregation",
     JObj [("size", JNum 0);
           ("aggs", JObj [("industries", JObj
             [("terms", JObj [("field", JStr "rics_100"); ("size", JNum 20)]);
              ("aggs", JObj
                [("avg_employees", JObj [("avg", JObj [("field", JStr "employee_count")])]);
                 ("countries", JObj [("terms", JObj
                   [("field", JStr "country"); ("size", JNum 10)])])])])])]) ].

(** The dict returned by [run_query]: a success carries [latency] (ms) and
    [hits] ([JNull] for [None]); a failure carries [error]. *)
Inductive OutcomeRecord : Type :=
| Success (cluster query : string) (latency : Q) (hits : json)
| Failure (cluster query : string) (error : string).

Definition rec_cluster (r : OutcomeRecord) : string :=
  match r with Success c _ _ _ => c | Failure c _ _ => c end.

Definition rec_query (r : OutcomeRecord) : string :=
  match r with Success _ q _ _ => q | Failure _ q _ => q end.

Definition rec_success (r : OutcomeRecord) : bool :=
  match r with Success _ _ _ _ => true | Failure _ _ _ => false end.

(** [r["latency"]]. *)
Definition rec_latency (r : OutcomeRecord) : result Q :=
  match r with
  | Success _ _ l _ => Ok l
  | Failure _ _ _ => Raise (KeyError "latency")
  end.

(** What the process has done so far: how often it has read the clock and
    called [client.search], and what it has printed. *)
Record World : Type := {
  clock_reads : nat;
  search_calls : nat;
  stdout : list string
}.

Definition world0 : World :=
  {| clock_reads := 0; search_calls := 0; stdout := [] |}.

(** A client: the outcome of its [k]-th [search(index, body)] call, a
    dict-like response or an exception. *)
Definition Client : Type :=
  nat -> string -> json -> result (list (string * json)).

(** The per-query entry of the dict built by [calculate_stats]. *)
Record QueryStats : Type := {
  total_requests : nat;
  successful_requests : nat;
  error_rate : Q;
  avg_latency : Q;
  min_latency : Q;
  max_latency : Q;
  p95_latency : Q;
  p99_latency : Q;
  requests_per_second : Q
}.

Fixpoint result_map {A B : Type} (f : A -> result B) (l : list A) : result (list B) :=
  match l with
  | [] => Ok []
  | x :: rest => y <~ f x; ys <~ result_map f rest; Ok (y :: ys)
  end.

(** The latencies of the successful records, in order. *)
Definition latencies_of (rs : list OutcomeRecord) : list Q :=
  flat_map (fun r => match r with
                     | Success _ _ l _ => [l]
                     | Failure _ _ _ => []
                     end) rs.

Section Harness.

(** Module-level configuration and the environment. *)
Variable INDEX_NAME : string.
Variable TEST_DURATION : Z.
Variable queries : list (string * json).
(** [time_at k]: the value of the [k]-th call of [time.time()], in seconds. *)
Variable time_at : nat -> Q.

Definition time_time (w : World) : Q * World :=
  (time_at (clock_reads w),
   {| clock_reads := S (clock_reads w);
      search_calls := search_calls w;
      stdout := stdout w |}).

Definition search (client : Client) (body : json) (w : World)
  : result (list (string * json)) * World :=
  (client (search_calls w) INDEX_NAME body,
   {| clock_reads := clock_reads w;
      search_calls := S (search_calls w);
      stdout := stdout w |}).

Definition print (line : string) (w : World) : World :=
  {| clock_reads := clock_reads w;
     search_calls := search_calls w;
     stdout := stdout w ++ [line] |}.

(** [response["hits"]["total"]["value"] if "hits" in response else None] *)
Definition hits_of (response : list (string * json)) : result json :=
  if dict_contains response "hits" then
    h <~ json_getitem (JObj response) "hits";
    t <~ json_getitem h "total";
    json_getitem t "value"
  else Ok JNull.

Definition run_query (client : Client) (query_name : string) (query_body : json)
    (cluster_name : string) (w : World) : OutcomeRecord * World :=
  let '(start_time, w) := time_time w in
  let '(tried, w) :=
    match search client query_body w with
    | (Ok response, w) =>
        let '(end_time, w) := time_time w in
        (hits <~ hits_of response;
         Ok (Success cluster_name query_name
               ((end_time - start_time) * 1000)%Q hits), w)
    | (Raise e, w) => (Raise e, w)
    end in
  match tried with
  | Ok record => (record, w)
  | Raise e =>
      let w := print ("Error running query " +:+ query_name +:+ " on "
                      +:+ cluster_name +:+ ": " +:+ str_exc e) w in
      (Failure cluster_name query_name (str_exc e), w)
  end.

(** The body of the [while]: one pass over [queries.items()]. *)
Fixpoint for_queries (client : Client) (cluster_name : string)
    (items : list (string * json)) (results : list OutcomeRecord) (w : World)
  : list OutcomeRecord * World :=
  match items with
  | [] => (results, w)
  | (query_name, query_body) :: rest =>
      let '(result, w) := run_query client query_name query_body cluster_name w in
      for_queries client cluster_name rest (results ++ [result]) w
  end.

(** [while time.time() - start_time < TEST_DURATION: ...], with fuel: [None]
    when the fuel runs out before the deadline is seen.  The elapsed time is
    taken as the exact difference of the two readings.  Python rounds it to
    binary64; rounding is monotone and keeps an int such as [TEST_DURATION],
    so the rounded difference is below [TEST_DURATION] only if the exact one
    is, and is not negative when the exact one is not. *)
Fixpoint while_loop (fuel : nat) (client : Client) (cluster_name : string)
    (start_time : Q) (results : list OutcomeRecord) (w : World)
  : option (list OutcomeRecord * World) :=
  match fuel with
  | O => None
  | S fuel' =>
      let '(now, w) := time_time w in
      if py_lt (now - start_time)%Q (inject_Z TEST_DURATION) then
        let '(results, w) := for_queries client cluster_name queries results w in
        while_loop fuel' client cluster_name start_time results w
      else Some (results, w)
  end.

Definition run_benchmark_worker (fuel : nat) (client : Client)
    (cluster_name : string) (w : World) : option (list OutcomeRecord * World) :=
  let results := [] in
  let '(start_time, w) := time_time w in
  while_loop fuel client cluster_name start_time results w.

(** The runner's merge: [results.extend(future.result())] over the futures
    in completion order. *)
Definition extend_all (completed : list (list OutcomeRecord)) : list OutcomeRecord :=
  fold_left (fun results r => results ++ r) completed [].

(** The entry [calculate_stats] computes for one query from its records:
    [None] when the guard [if successful_results:] is false. *)
Definition query_stats (query_results : list OutcomeRecord) : result (option QueryStats) :=
  let successful_results := List.filter rec_success query_results in
  match successful_results with
  | [] => Ok None
  | _ :: _ =>
      latencies <~ result_map rec_latency successful_results;
      ratio <~ py_truediv
                 (inject_Z (Z.of_nat (length query_results)
                            - Z.of_nat (length successful_results)))
                 (inject_Z (Z.of_nat (length query_results)));
      avg <~ py_truediv (py_sum latencies) (inject_Z (Z.of_nat (length latencies)));
      lo <~ py_min latencies;
      hi <~ py_max latencies;
      p95 <~ py_getitem (sorted latencies) (PyFloat.int_mul_0_95 (length latencies));
      p99 <~ py_getitem (sorted latencies) (PyFloat.int_mul_0_99 (length latencies));
      rps <~ py_truediv (inject_Z (Z.of_nat (length successful_results)))
                        (inject_Z TEST_DURATION);
      Ok (Some {| total_requests := length query_results;
                  successful_requests := length successful_results;
                  error_rate := (ratio * 100)%Q;
                  avg_latency := avg;
                  min_latency := lo;
                  max_latency := hi;
                  p95_latency := p95;
                  p99_latency := p99;
                  requests_per_second := rps |})
  end.

Definition records_of_cluster (results : list OutcomeRecord) (cluster_name : string)
  : list OutcomeRecord :=
  List.filter (fun r => String.eqb (rec_cluster r) cluster_name) results.

Definition records_of_query (cluster_results : list OutcomeRecord) (query_name : string)
  : list OutcomeRecord :=
  List.filter (fun r => String.eqb (rec_query r) query_name) cluster_results.

(** [for query_name in queries.keys(): ...] *)
Fixpoint for_query_names (names : list string) (cluster_results : list OutcomeRecord)
    (stats : gmap string QueryStats) : result (gmap string QueryStats) :=
  match names with
  | [] => Ok stats
  | query_name :: rest =>
      entry <~ query_stats (records_of_query cluster_results query_name);
      for_query_names rest cluster_results
        (match entry with
         | Some s => <[query_name := s]> stats
         | None => stats
         end)
  end.

Definition calculate_stats (results : list OutcomeRecord) (cluster_name : string)
  : result (gmap string QueryStats) :=
  let stats := ∅ in
  let cluster_results := records_of_cluster results cluster_name in
  for_query_names (map fst queries) cluster_results stats.

(** The records [calculate_stats] reduces for one query of one cluster. *)
Definition records_for (results : list OutcomeRecord) (cluster_name query_name : string)
  : list OutcomeRecord :=
  records_of_query (records_of_cluster results cluster_name) query_name.

(** What one iteration of [for_query_names] leaves under [query_name]. *)
Definition entry_or (cluster_results : list OutcomeRecord) (query_name : string)
    (old : option QueryStats) : option QueryStats :=
  match query_stats (records_of_query cluster_results query_name) with
  | Ok (Some s) => Some s
  | _ => old
  end.

End Harness.

End Benchmark.

(** ** generate_report.py *)

Module Report.
Import Py Benchmark.

(** The persisted artifact, as far as the report reads it.  Each statistics
    entry was written by [calculate_stats], so it carries all nine fields.
    A loaded object is a dict, which keeps the order of its keys in the file:
    [elasticsearch_keys] and [opensearch_keys] are the keys of the two
    statistics objects in that order. *)
Record Artifact : Type := {
  elasticsearch_stats : option (gmap string QueryStats);
  elasticsearch_keys : list string;
  opensearch_stats : option (gmap string QueryStats);
  opensearch_keys : list string;
  test_duration : Z;
  num_clients : Z
}.

Inductive Status : Type := GREEN | RED | NEUTRAL.

Definition get_color_code (elasticsearch_value opensearch_value : Q)
    (lower_is_better : bool) : Status :=
  if py_lt elasticsearch_value opensearch_value then
    if lower_is_better then GREEN else RED
  else if py_lt opensearch_value elasticsearch_value then
    if lower_is_better then RED else GREEN
  else NEUTRAL.

(** The first column of a row: a per-query metric or a summary line. *)
Inductive Metric : Type :=
| AverageLatency | MinimumLatency | MaximumLatency
| P95Latency | P99Latency | RequestsPerSecond | ErrorRate.

Inductive SummaryMetric : Type :=
| TotalRequests | SuccessfulRequests | OverallErrorRate
| AverageRequestsPerSecond | TestDuration | NumberOfClients.

Inductive RowKey : Type :=
| PerQuery (query_name : string) (m : Metric)
| Summary (m : SummaryMetric).

Definition metric_text (m : Metric) : string :=
  match m with
  | AverageLatency => "Average Latency"
  | MinimumLatency => "Minimum Latency"
  | MaximumLatency => "Maximum Latency"
  | P95Latency => "95th Percentile Latency"
  | P99Latency => "99th Percentile Latency"
  | RequestsPerSecond => "Requests per Second"
  | ErrorRate => "Error Rate"
  end.

Definition summary_text (m : SummaryMetric) : string :=
  match m with
  | TotalRequests => "Total Requests"
  | SuccessfulRequests => "Successful Requests"
  | OverallErrorRate => "Overall Error Rate"
  | AverageRequestsPerSecond => "Average Requests per Second"
  | TestDuration => "Test Duration"
  | NumberOfClients => "Number of Clients"
  end.

(** The text of the first column. *)
Definition label (k : RowKey) : string :=
  match k with
  | PerQuery query_name m => query_name +:+ " - " +:+ metric_text m
  | Summary m => summary_text m
  end.

(** The third column before formatting: [f"{x:.2f}"] or [str(n)]. *)
Inductive Value : Type :=
| Fixed2 (x : Q)
| Str (n : Z).

Record Row : Type := {
  metric : RowKey;
  cluster : string;
  value : Value;
  unit : string;
  status : Status
}.

(** The legend of the report: what a status says about the row's cluster. *)
Definition legend (s : Status) : string :=
  match s with
  | GREEN => "Better performance than the other cluster"
  | RED => "Worse performance than the other cluster"
  | NEUTRAL => "Neutral (no direct comparison or equal performance)"
  end.

Definition ess_rows (query_name : string) (ess_metrics : QueryStats) : list Row :=
  let row m x u :=
    {| metric := PerQuery query_name m; cluster := "Elasticsearch";
       value := Fixed2 x; unit := u; status := NEUTRAL |} in
  [ row AverageLatency (avg_latency ess_metrics) "ms";
    row MinimumLatency (min_latency ess_metrics) "ms";
    row MaximumLatency (max_latency ess_metrics) "ms";
    row P95Latency (p95_latency ess_metrics) "ms";
    row P99Latency (p99_latency ess_metrics) "ms";
    row RequestsPerSecond (requests_per_second ess_metrics) "ops/sec";
    row ErrorRate (error_rate ess_metrics) "%" ].

Definition aws_rows (query_name : string) (ess_metrics aws_metrics : QueryStats)
  : list Row :=
  let row m x u s :=
    {| metric := PerQuery query_name m; cluster := "OpenSearch";
       value := Fixed2 x; unit := u; status := s |} in
  [ row AverageLatency (avg_latency aws_metrics) "ms"
      (get_color_code (avg_latency ess_metrics) (avg_latency aws_metrics) true);
    row MinimumLatency (min_latency aws_metrics) "ms"
      (get_color_code (min_latency ess_metrics) (min_latency aws_metrics) true);
    row MaximumLatency (max_latency aws_metrics) "ms"
      (get_color_code (max_latency ess_metrics) (max_latency aws_metrics) true);
    row P95Latency (p95_latency aws_metrics) "ms"
      (get_color_code (p95_latency ess_metrics) (p95_latency aws_metrics) true);
    row P99Latency (p99_latency aws_metrics) "ms"
      (get_color_code (p99_latency ess_metrics) (p99_latency aws_metrics) true);
    row RequestsPerSecond (requests_per_second aws_metrics) "ops/sec"
      (get_color_code (requests_per_second ess_metrics)
                      (requests_per_second aws_metrics) false);
    row ErrorRate (error_rate aws_metrics) "%"
      (get_color_code (error_rate ess_metrics) (error_rate aws_metrics) true) ].

(** The body of the loop over the query names.  [stats.get(query_name, {})]
    is truthy exactly when the query has an entry. *)
Definition query_rows (es os : gmap string QueryStats) (query_name : string)
  : list Row :=
  let ess_metrics := es !! query_name in
  let aws_metrics := os !! query_name in
  (match ess_metrics with
   | Some e => ess_rows query_name e
   | None => []
   end)
  ++
  (match aws_metrics, ess_metrics with
   | Some a, Some e => aws_rows query_name e a
   | _, _ => []
   end).

(** [for query_name in set(es.keys()) | set(os.keys())]: the order of a set
    is not specified; [elements] fixes one. *)
Definition per_query_rows (es os : gmap string QueryStats) : list Row :=
  flat_map (query_rows es os) (elements (dom es ∪ dom os)).

(** [stats.values()] under a sum of ints: such a sum is exact and does not
    depend on the order of its terms, so the entries are taken in the order
    of the map. *)
Definition values (stats : gmap string QueryStats) : list QueryStats :=
  map snd (map_to_list stats).

(** [stats.values()] under a sum of floats: the entries in the order of the
    dict, that is of its keys. *)
Definition values_in (keys : list string) (stats : gmap string QueryStats)
  : list QueryStats :=
  omap (fun k => stats !! k) keys.

Definition sum_total_requests (stats : gmap string QueryStats) : Z :=
  py_sum_int (map (fun m => Z.of_nat (total_requests m)) (values stats)).

Definition sum_successful_requests (stats : gmap string QueryStats) : Z :=
  py_sum_int (map (fun m => Z.of_nat (successful_requests m)) (values stats)).

Section Arithmetic.

(** [+] and [/] on floats are binary64 operations: their results are
    rounded, so a sum of floats depends on the order of its terms.  The
    summary is modelled over any pair of operations on the (finite) values
    of an artifact. *)
Variable float_add float_div : Q -> Q -> Q.

(** [sum(xs)] of floats: it starts from the int 0, and [0 + x] is [x]; the
    other additions are made from left to right. *)
Definition float_sum (xs : list Q) : Q :=
  match xs with
  | [] => 0
  | x :: rest => fold_left float_add rest x
  end.

(** [x / n] for an int [n] *)
Definition float_truediv (x : Q) (n : Z) : result Q :=
  if (n =? 0)%Z then Raise ZeroDivisionError
  else Ok (float_div x (inject_Z n)).

Definition overall_error_rate (keys : list string)
    (stats : gmap string QueryStats) : result Q :=
  float_truediv (float_sum (map error_rate (values_in keys stats)))
                (Z.of_nat (size stats)).

Definition avg_requests_per_second (keys : list string)
    (stats : gmap string QueryStats) : Q :=
  float_sum (map requests_per_second (values_in keys stats)).

Definition summary_rows (results : Artifact) (es os : gmap string QueryStats)
  : result (list Row) :=
  let ess_total_requests := sum_total_requests es in
  let ess_successful_requests := sum_successful_requests es in
  ess_overall_error_rate <~ overall_error_rate (elasticsearch_keys results) es;
  let ess_avg_requests_per_second :=
    avg_requests_per_second (elasticsearch_keys results) es in
  let aws_total_requests := sum_total_requests os in
  let aws_successful_requests := sum_successful_requests os in
  aws_overall_error_rate <~ overall_error_rate (opensearch_keys results) os;
  let aws_avg_requests_per_second :=
    avg_requests_per_second (opensearch_keys results) os in
  let row m c v u s :=
    {| metric := Summary m; cluster := c; value := v; unit := u; status := s |} in
  Ok [ row TotalRequests "Elasticsearch" (Str ess_total_requests) "requests" NEUTRAL;
       row SuccessfulRequests "Elasticsearch" (Str ess_successful_requests)
           "requests" NEUTRAL;
       row OverallErrorRate "Elasticsearch" (Fixed2 ess_overall_error_rate) "%" NEUTRAL;
       row AverageRequestsPerSecond "Elasticsearch"
           (Fixed2 ess_avg_requests_per_second) "ops/sec" NEUTRAL;
       row TotalRequests "OpenSearch" (Str aws_total_requests) "requests" NEUTRAL;
       row SuccessfulRequests "OpenSearch" (Str aws_successful_requests)
           "requests" NEUTRAL;
       row OverallErrorRate "OpenSearch" (Fixed2 aws_overall_error_rate) "%"
           (get_color_code ess_overall_error_rate aws_overall_error_rate true);
       row AverageRequestsPerSecond "OpenSearch"
           (Fixed2 aws_avg_requests_per_second) "ops/sec"
           (get_color_code ess_avg_requests_per_second
                           aws_avg_requests_per_second false);
       row TestDuration "Both" (Str (test_duration results)) "seconds" NEUTRAL;
       row NumberOfClients "Both" (Str (num_clients results)) "clients" NEUTRAL ].

(** The table [metrics] handed to [tabulate]; an exception aborts the script
    before any report is written. *)
Definition report_metrics (results : Artifact) : result (list Row) :=
  let es := default ∅ (elasticsearch_stats results) in
  let os := default ∅ (opensearch_stats results) in
  let metrics := per_query_rows es os in
  summary <~ summary_rows results es os;
  Ok (metrics ++ summary).

End Arithmetic.

End Report.

(** ** The specification's vocabulary *)

Module Spec.

(** [floor(p * n)] *)
Definition floor_index (p : Q) (n : nat) : nat :=
  Z.to_nat (Qfloor (p * inject_Z (Z.of_nat n))).

(** An index clamped to the last valid index of a sequence of length [n]. *)
Definition clamp (n i : nat) : nat := Nat.min i (n - 1).

End Spec.

(** ** The specification's view of the report *)

Module ReportSpec.
Import Py Benchmark Report.

Definition all_metrics : list Metric :=
  [AverageLatency; MinimumLatency; MaximumLatency; P95Latency; P99Latency;
   RequestsPerSecond; ErrorRate].

(** The statistic a per-query row shows. *)
Definition metric_value (m : Metric) (s : QueryStats) : Q :=
  match m with
  | AverageLatency => avg_latency s
  | MinimumLatency => min_latency s
  | MaximumLatency => max_latency s
  | P95Latency => p95_latency s
  | P99Latency => p99_latency s
  | RequestsPerSecond => requests_per_second s
  | ErrorRate => error_rate s
  end.

Definition metric_unit (m : Metric) : string :=
  match m with
  | RequestsPerSecond => "ops/sec"
  | ErrorRate => "%"
  | _ => "ms"
  end.

(** Latencies and the error rate are "lower is better", throughput is
    "higher is better". *)
Definition lower_is_better (m : Metric) : bool :=
  match m with
  | RequestsPerSecond => false
  | _ => true
  end.

(** The Elasticsearch row of a query and metric: no indicator. *)
Definition elasticsearch_row (q : string) (m : Metric) (e : QueryStats) : Row :=
  {| metric := PerQuery q m; cluster := "Elasticsearch";
     value := Fixed2 (metric_value m e); unit := metric_unit m;
     status := NEUTRAL |}.

(** The comparison row of a query and metric: the OpenSearch value with the
    indicator computed from both backends' values. *)
Definition comparison_row (q : string) (m : Metric) (e a : QueryStats) : Row :=
  {| metric := PerQuery q m; cluster := "OpenSearch";
     value := Fixed2 (metric_value m a); unit := metric_unit m;
     status := get_color_code (metric_value m e) (metric_value m a)
                              (lower_is_better m) |}.

(** Equality of metrics, as a test. *)
Definition metric_eqb (m1 m2 : Metric) : bool :=
  match m1, m2 with
  | AverageLatency, AverageLatency
  | MinimumLatency, MinimumLatency
  | MaximumLatency, MaximumLatency
  | P95Latency, P95Latency
  | P99Latency, P99Latency
  | RequestsPerSecond, RequestsPerSecond
  | ErrorRate, ErrorRate => true
  | _, _ => false
  end.

(** The rows of a table for one query, metric and cluster, in the order of
    the table and with their multiplicity. *)
Definition is_row_of (q : string) (m : Metric) (c : string) (r : Row) : bool :=
  match metric r with
  | PerQuery q' m' => String.eqb q' q && metric_eqb m' m && String.eqb (cluster r) c
  | Summary _ => false
  end.

Definition rows_of (q : string) (m : Metric) (c : string) (rows : list Row)
  : list Row :=
  List.filter (is_row_of q m c) rows.

(** The sum of an integer field over the per-query statistics. *)
Definition sum_Z (f : QueryStats -> Z) (stats : gmap string QueryStats) : Z :=
  map_fold (fun _ s acc => (f s + acc)%Z) 0%Z stats.

(** A list of keys is the order of a dict when it has each key of the dict
    once, and nothing else. *)
Definition key_order (keys : list string) (stats : gmap string QueryStats)
  : Prop :=
  NoDup keys /\ forall k, k ∈ keys <-> is_Some (stats !! k).





(** The ten summary rows, given the four float summary values. *)
Definition summary_table (results : Artifact) (es os : gmap string QueryStats)
    (ess_error aws_error ess_rps aws_rps : Q) : list Row :=
  let row m c v u s :=
    {| metric := Summary m; cluster := c; value := v; unit := u; status := s |} in
  [ row TotalRequests "Elasticsearch"
        (Str (sum_Z (fun s => Z.of_nat (total_requests s)) es)) "requests" NEUTRAL;
    row SuccessfulRequests "Elasticsearch"
        (Str (sum_Z (fun s => Z.of_nat (successful_requests s)) es)) "requests" NEUTRAL;
    row OverallErrorRate "Elasticsearch" (Fixed2 ess_error) "%" NEUTRAL;
    row AverageRequestsPerSecond "Elasticsearch" (Fixed2 ess_rps) "ops/sec" NEUTRAL;
    row TotalRequests "OpenSearch"
        (Str (sum_Z (fun s => Z.of_nat (total_requests s)) os)) "requests" NEUTRAL;
    row SuccessfulRequests "OpenSearch"
        (Str (sum_Z (fun s => Z.of_nat (successful_requests s)) os)) "requests" NEUTRAL;
    row OverallErrorRate "OpenSearch" (Fixed2 aws_error) "%"
        (get_color_code ess_error aws_error true);
    row AverageRequestsPerSecond "OpenSearch" (Fixed2 aws_rps) "ops/sec"
        (get_color_code ess_rps aws_rps false);
    row TestDuration "Both" (Str (test_duration results)) "seconds" NEUTRAL;
    row NumberOfClients "Both" (Str (num_clients results)) "clients" NEUTRAL ].

End ReportSpec.

(** ** Environments used in examples *)

Module Fixtures.
Import Py Benchmark.

(** A clock that advances by one millisecond per reading. *)
Definition steady_clock (k : nat) : Q := inject_Z (Z.of_nat k) / 1000.

(** A backend that always answers with seven hits. *)
Definition ok_client : Client :=
  fun _ _ _ => Ok [("hits", JObj [("total", JObj [("value", JNum 7)])])].

(** A backend that is down. *)
Definition failing_client : Client :=
  fun _ _ _ => Raise (OtherException "ConnectionTimeout").


(** Statistics of a query answered ten times in 20 seconds, once with an
    error, and of one answered eight times without error. *)
Definition stats_one_error : QueryStats :=
  {| total_requests := 10; successful_requests := 9; error_rate := 10;
     avg_latency := 12; min_latency := 7; max_latency := 30;
     p95_latency := 30; p99_latency := 30; requests_per_second := 9 # 20 |}.

Definition stats_no_error : QueryStats :=
  {| total_requests := 8; successful_requests := 8; error_rate := 0;
     avg_latency := 15; min_latency := 9; max_latency := 21;
     p95_latency := 21; p99_latency := 21; requests_per_second := 8 # 20 |}.

(** An artifact in which the backends have statistics for different
    queries. *)
Definition disjoint_artifact : Report.Artifact :=
  {| Report.elasticsearch_stats := Some {[ "industry-search" := stats_one_error ]};
     Report.elasticsearch_keys := ["industry-search"];
     Report.opensearch_stats := Some {[ "complex-search" := stats_no_error ]};
     Report.opensearch_keys := ["complex-search"];
     Report.test_duration := 20;
     Report.num_clients := 10 |}.

(** An artifact in which both backends have statistics for one query. *)
Definition common_artifact : Report.Artifact :=
  {| Report.elasticsearch_stats := Some {[ "industry-search" := stats_one_error ]};
     Report.elasticsearch_keys := ["industry-search"];
     Report.opensearch_stats := Some {[ "industry-search" := stats_no_error ]};
     Report.opensearch_keys := ["industry-search"];
     Report.test_duration := 20;
     Report.num_clients := 10 |}.

(** An artifact whose Elasticsearch statistics are missing. *)
Definition opensearch_only_artifact : Report.Artifact :=
  {| Report.elasticsearch_stats := None;
     Report.elasticsearch_keys := [];
     Report.opensearch_stats := Some {[ "industry-search" := stats_no_error ]};
     Report.opensearch_keys := ["industry-search"];
     Report.test_duration := 20;
     Report.num_clients := 10 |}.

(** Exact addition and division, to run the report on examples. *)
Definition exact_add : Q -> Q -> Q := Qplus.
Definition exact_div : Q -> Q -> Q := Qdiv.





End Fixtures.

(** ** The rest of the two scripts *)

Module Setup.
Import Py Benchmark.

(** [s.replace(old, new)] for a non-empty [old]: every non-overlapping
    occurrence, found from the left; [skip] counts the characters of an
    occurrence still to be dropped. *)
Fixpoint replace_from (old new : string) (skip : nat) (s : string) : string :=
  match s with
  | EmptyString => EmptyString
  | String c rest =>
      match skip with
      | S k => replace_from old new k rest
      | O =>
          if String.prefix old s
          then new +:+ replace_from old new (String.length old - 1) rest
          else String c (replace_from old new 0 rest)
      end
  end.

(** With an empty [old], [new] goes before every character and at the end. *)
Fixpoint interleave (new s : string) : string :=
  match s with
  | EmptyString => new
  | String c rest => new +:+ String c (interleave new rest)
  end.

Definition str_replace (s old new : string) : string :=
  match old with
  | EmptyString => interleave new s
  | String _ _ => replace_from old new 0 s
  end.

(** [OPENSEARCH_HOSTS.replace("https://", "").replace("/", "")] *)
Definition opensearch_host (OPENSEARCH_HOSTS : string) : string :=
  str_replace (str_replace OPENSEARCH_HOSTS "https://" "") "/" "".

(** The keys of the dict [calculate_stats] returns, in its order: the
    entries are inserted while the catalog is traversed. *)
Definition stats_keys (queries : list (string * json))
    (stats : gmap string QueryStats) : list string :=
  List.filter (fun query_name => bool_decide (is_Some (stats !! query_name)))
              (map fst queries).

(** The end of the script: both statistics are calculated, then written to
    the results file, which the report script loads.  Only the fields the
    report reads are kept; strings, ints and floats survive [json.dump] and
    [json.load] unchanged, and so does the order of the keys. *)
Definition combined_benchmark_results (TEST_DURATION NUM_CLIENTS : Z)
    (queries : list (string * json))
    (elasticsearch_results opensearch_results : list OutcomeRecord)
  : result Report.Artifact :=
  elasticsearch_stats <~
    calculate_stats TEST_DURATION queries elasticsearch_results "Elasticsearch";
  opensearch_stats <~
    calculate_stats TEST_DURATION queries opensearch_results "OpenSearch";
  Ok {| Report.elasticsearch_stats := Some elasticsearch_stats;
        Report.elasticsearch_keys := stats_keys queries elasticsearch_stats;
        Report.opensearch_stats := Some opensearch_stats;
        Report.opensearch_keys := stats_keys queries opensearch_stats;
        Report.test_duration := TEST_DURATION;
        Report.num_clients := NUM_CLIENTS |}.

End Setup.

(** ** Vocabulary of the further properties *)

Module Vocabulary.
Import Py Benchmark Report.

(** The line [run_query] prints for a failed record. *)
Definition diagnostic (r : OutcomeRecord) : list string :=
  match r with
  | Success _ _ _ _ => []
  | Failure c q e => ["Error running query " +:+ q +:+ " on " +:+ c +:+ ": " +:+ e]
  end.

Definition diagnostics (rs : list OutcomeRecord) : list string :=
  flat_map diagnostic rs.

Definition latency_nonneg (r : OutcomeRecord) : Prop :=
  match r with
  | Success _ _ l _ => (0 <= l)%Q
  | Failure _ _ _ => True
  end.

(** Two entries that agree on every field but the mean: counts are equal,
    the other numbers compare equal. *)
Definition same_but_avg (s s' : QueryStats) : Prop :=
  total_requests s = total_requests s' /\
  successful_requests s = successful_requests s' /\
  (error_rate s == error_rate s')%Q /\
  (min_latency s == min_latency s')%Q /\
  (max_latency s == max_latency s')%Q /\
  (p95_latency s == p95_latency s')%Q /\
  (p99_latency s == p99_latency s')%Q /\
  (requests_per_second s == requests_per_second s')%Q.

(** [res] is what some worker of the run returned: any clock, any backend,
    any starting state. *)
Definition produced_by_worker (INDEX_NAME : string) (TEST_DURATION : Z)
    (queries : list (string * json)) (cluster_name : string)
    (res : list OutcomeRecord) : Prop :=
  exists (time_at : nat -> Q) (fuel : nat) (client : Client) (w w' : World),
    run_benchmark_worker INDEX_NAME TEST_DURATION queries time_at fuel
      client cluster_name w = Some (res, w').

(** The opposite indicator. *)
Definition opposite (s : Status) : Status :=
  match s with
  | GREEN => RED
  | RED => GREEN
  | NEUTRAL => NEUTRAL
  end.

(** No ['/'] in a string. *)
Definition slash : Ascii.ascii :=
  match "/" with
  | String c _ => c
  | EmptyString => Ascii.zero
  end.

Fixpoint slash_free (s : string) : Prop :=
  match s with
  | EmptyString => True
  | String c rest => c <> slash /\ slash_free rest
  end.

(** Three records of one query: two answers and a time-out. *)
Definition sample_results : list OutcomeRecord :=
  [ Success "Elasticsearch" "industry-search" 12 JNull;
    Failure "Elasticsearch" "industry-search" "ConnectionTimeout";
    Success "Elasticsearch" "industry-search" 7 JNull ].

(** A clock that advances by a tenth of a second per reading. *)
Definition coarse_clock (k : nat) : Q := inject_Z (Z.of_nat k) / 10.

End Vocabulary.

(** * Properties *)

(** ** Binary64 rounding and the percentile index *)

Module PyFloatFacts.
Import PyFloat.
Local Open Scope Z_scope.

Lemma round53_nonpos P : P <= 0 -> round53 P = 0.
Proof. intros H. unfold round53. destruct (Z.leb_spec P 0); [reflexivity | lia]. Qed.

Lemma round53_small P : 0 <= P < 2 ^ 53 -> round53 P = P.
Proof.
  intros [H0 H1]. unfold round53.
  destruct (Z.leb_spec P 0) as [Hle | Hgt]; [lia |].
  assert (Z.log2 P < 53) by (apply Z.log2_lt_pow2; lia).
  destruct (Z.leb_spec (Z.log2 P - 52) 0); [reflexivity | lia].
Qed.

(** The shape of a rounding that is not exact: [P = q * 2h + r] with
    [h] half a unit in the last place, rounded down when [r <= h] and up
    when [h <= r]. *)
Lemma round53_cases P :
  2 ^ 53 <= P ->
  exists h q r,
    0 < h /\ P = q * (2 * h) + r /\ 0 <= r < 2 * h /\
    2 ^ 53 * h <= P < 2 ^ 54 * h /\
    (P < 2 ^ 106 -> exists c, 0 < c /\ 2 ^ 53 = c * (2 * h)) /\
    ((round53 P = q * (2 * h) /\ r <= h) \/
     (round53 P = (q + 1) * (2 * h) /\ h <= r)).
Proof.
  intros HP.
  assert (Hpos : 0 < P) by lia.
  assert (Hlog : 53 <= Z.log2 P) by (apply Z.log2_le_pow2; lia).
  destruct (Z.log2_spec P Hpos) as [Hlo Hhi].
  set (s := Z.log2 P - 52) in *.
  assert (Hs : 0 < s) by lia.
  assert (Hpow : 2 ^ s = 2 * 2 ^ (s - 1)).
  { replace s with (Z.succ (s - 1)) at 1 by lia. rewrite Z.pow_succ_r; lia. }
  assert (Hh : 0 < 2 ^ (s - 1)) by (apply Z.pow_pos_nonneg; lia).
  assert (Hsplit : 2 ^ Z.log2 P = 2 ^ 53 * 2 ^ (s - 1)).
  { rewrite <- Z.pow_add_r by lia. f_equal. lia. }
  assert (Hsplit' : 2 ^ Z.succ (Z.log2 P) = 2 ^ 54 * 2 ^ (s - 1)).
  { rewrite <- Z.pow_add_r by lia. f_equal. lia. }
  exists (2 ^ (s - 1)), (P / 2 ^ s), (P mod 2 ^ s).
  rewrite <- Hpow.
  split; [exact Hh |].
  split; [rewrite Z.mul_comm; apply Z.div_mod; lia |].
  split; [apply Z.mod_pos_bound; lia |].
  split; [lia |].
  split.
  { intros Hlt. assert (Z.log2 P < 106) by (apply Z.log2_lt_pow2; lia).
    exists (2 ^ (53 - s)). split; [apply Z.pow_pos_nonneg; lia |].
    rewrite <- Z.pow_add_r by lia. f_equal. lia. }
  unfold round53. fold s.
  destruct (Z.leb_spec P 0); [lia |].
  destruct (Z.leb_spec s 0); [lia |].
  cbv zeta.
  destruct (Z.ltb_spec (2 ^ (s - 1)) (P mod 2 ^ s)) as [Hlt | Hge]; cbn [orb].
  - right. split; [reflexivity | lia].
  - destruct (Z.eqb_spec (P mod 2 ^ s) (2 ^ (s - 1))) as [Heq | Hne]; cbn [andb].
    + destruct (Z.odd (P / 2 ^ s)).
      * right. split; [reflexivity | lia].
      * left. split; [reflexivity | lia].
    + left. split; [reflexivity | lia].
Qed.

(** Relative error of one rounding: at most [2^-53]. *)
Lemma round53_error P :
  0 <= P ->
  2 ^ 53 * (round53 P - P) <= P /\ 2 ^ 53 * (P - round53 P) <= P.
Proof.
  intros HP.
  destruct (Z.lt_ge_cases P (2 ^ 53)) as [Hsmall | Hbig].
  - rewrite round53_small by lia. lia.
  - destruct (round53_cases P Hbig)
      as (h & q & r & Hh & HPq & Hr & Hb & _ & [[-> Hd] | [-> Hu]]); lia.
Qed.

(** Rounding never crosses a multiple of [2^53] from above. *)
Lemma round53_ge_multiple P m :
  0 <= P < 2 ^ 106 -> m * 2 ^ 53 <= P -> m * 2 ^ 53 <= round53 P.
Proof.
  intros HP Hm.
  destruct (Z.lt_ge_cases P (2 ^ 53)) as [Hsmall | Hbig].
  - rewrite round53_small by lia. lia.
  - destruct (round53_cases P Hbig)
      as (h & q & r & Hh & HPq & Hr & Hb & Hc & Hround).
    destruct Hc as (c & Hc & Hc2); [lia |].
    rewrite Hc2 in *.
    assert (m * c <= q) by nia.
    destruct Hround as [[-> _] | [-> _]]; nia.
Qed.

(** A multiple of [2^53] closer than half a unit in the last place is the
    rounding. *)
Lemma round53_near_multiple P m :
  0 < P < 2 ^ 106 ->
  2 ^ 54 * Z.abs (P - m * 2 ^ 53) < P ->
  round53 P = m * 2 ^ 53.
Proof.
  intros HP Hnear.
  destruct (Z.lt_ge_cases P (2 ^ 53)) as [Hsmall | Hbig].
  - rewrite round53_small by lia. lia.
  - destruct (round53_cases P Hbig)
      as (h & q & r & Hh & HPq & Hr & Hb & Hc & Hround).
    destruct Hc as (c & Hc & Hc2); [lia |].
    rewrite Hc2 in *.
    assert (Hd : Z.abs (P - m * (c * (2 * h))) < h) by lia.
    assert (Hq : m * c = q \/ m * c = q + 1) by nia.
    destruct Hq as [Hq | Hq], Hround as [[-> Hd'] | [-> Hu]]; nia.
Qed.

(** *** The percentile index *)

Lemma float_of_int_error n :
  0 <= n ->
  2 ^ 53 * (float_of_int n - n) <= n /\ 2 ^ 53 * (n - float_of_int n) <= n.
Proof. apply round53_error. Qed.

Lemma float_of_int_nonneg n : 0 <= n -> 0 <= float_of_int n.
Proof. intros H. pose proof (float_of_int_error n H). lia. Qed.

Lemma int_mul_nonneg n m : 0 <= n -> 0 <= m -> 0 <= int_mul n m.
Proof.
  intros Hn Hm. unfold int_mul.
  pose proof (float_of_int_nonneg n Hn) as HF.
  assert (HP : 0 <= float_of_int n * m) by nia.
  pose proof (round53_error _ HP).
  apply Z.div_pos; lia.
Qed.

(** Both literals are below one by more than two roundings can add, so the
    index is in range whatever the length. *)
Lemma int_mul_lt n m :
  0 < n -> 0 <= m <= m_0_99 -> int_mul n m < n.
Proof.
  intros Hn Hm. unfold int_mul, m_0_99 in *.
  pose proof (float_of_int_error n ltac:(lia)) as [HF1 HF2].
  assert (HP : 0 <= float_of_int n * m) by nia.
  pose proof (round53_error _ HP) as [HX1 _].
  apply Z.div_lt_upper_bound; [lia |].
  assert (float_of_int n * m <= float_of_int n * 8917127262193582) by nia.
  lia.
Qed.

Lemma int_mul_0_95_le_0_99_Z n :
  0 <= n -> int_mul n m_0_95 <= int_mul n m_0_99.
Proof.
  intros Hn. unfold int_mul, m_0_95, m_0_99.
  pose proof (float_of_int_nonneg n Hn) as HF.
  pose proof (round53_error (float_of_int n * 8556839292003942) ltac:(lia)) as [H1 _].
  pose proof (round53_error (float_of_int n * 8917127262193582) ltac:(lia)) as [_ H2].
  apply Z.div_le_mono; lia.
Qed.

Lemma half_le_int_mul_0_95_Z n :
  0 <= n -> n / 2 <= int_mul n m_0_95.
Proof.
  intros Hn. unfold int_mul, m_0_95.
  pose proof (float_of_int_error n Hn) as [_ HF].
  pose proof (float_of_int_nonneg n Hn) as HF0.
  pose proof (round53_error (float_of_int n * 8556839292003942) ltac:(lia)) as [_ H2].
  pose proof (Z.mul_div_le n 2 ltac:(lia)).
  apply Z.div_le_lower_bound; lia.
Qed.

(** For every length a list can have, the binary64 product truncates to the
    exact [floor(0.95 * n)], resp. [floor(0.99 * n)]. *)
Lemma int_mul_0_95_exact n :
  0 <= n < 2 ^ 46 -> int_mul n m_0_95 = 19 * n / 20.
Proof.
  intros Hn. unfold int_mul, float_of_int. rewrite (round53_small n) by lia.
  unfold m_0_95.
  pose proof (Z.div_mod (19 * n) 20 ltac:(lia)) as Hdm.
  pose proof (Z.mod_pos_bound (19 * n) 20 ltac:(lia)) as Hr.
  set (k := 19 * n / 20) in *. set (r := (19 * n) mod 20) in *.
  set (P := n * 8556839292003942).
  assert (HP : 20 * P = (20 * k + r) * 2 ^ 53 - 8 * n) by (unfold P; lia).
  destruct (Z.eq_dec n 0) as [-> | Hn0].
  { subst P k. reflexivity. }
  assert (HP0 : 0 < P < 2 ^ 106) by (unfold P; lia).
  destruct (Z.eq_dec r 0) as [Hr0 | Hr0].
  - rewrite (round53_near_multiple P k) by lia.
    apply Z.div_mul; lia.
  - pose proof (round53_ge_multiple P k ltac:(lia) ltac:(lia)) as Hlo.
    pose proof (round53_error P ltac:(lia)) as [Hhi _].
    symmetry. apply (Z.div_unique _ _ k (round53 P - k * 2 ^ 53)); lia.
Qed.

Lemma int_mul_0_99_exact n :
  0 <= n < 2 ^ 46 -> int_mul n m_0_99 = 99 * n / 100.
Proof.
  intros Hn. unfold int_mul, float_of_int. rewrite (round53_small n) by lia.
  unfold m_0_99.
  pose proof (Z.div_mod (99 * n) 100 ltac:(lia)) as Hdm.
  pose proof (Z.mod_pos_bound (99 * n) 100 ltac:(lia)) as Hr.
  set (k := 99 * n / 100) in *. set (r := (99 * n) mod 100) in *.
  set (P := n * 8917127262193582).
  assert (HP : 100 * P = (100 * k + r) * 2 ^ 53 - 8 * n) by (unfold P; lia).
  destruct (Z.eq_dec n 0) as [-> | Hn0].
  { subst P k. reflexivity. }
  assert (HP0 : 0 < P < 2 ^ 106) by (unfold P; lia).
  destruct (Z.eq_dec r 0) as [Hr0 | Hr0].
  - rewrite (round53_near_multiple P k) by lia.
    apply Z.div_mul; lia.
  - pose proof (round53_ge_multiple P k ltac:(lia) ltac:(lia)) as Hlo.
    pose proof (round53_error P ltac:(lia)) as [Hhi _].
    symmetry. apply (Z.div_unique _ _ k (round53 P - k * 2 ^ 53)); lia.
Qed.

Lemma int_mul_0_95_lt (n : nat) : (0 < n)%nat -> (int_mul_0_95 n < n)%nat.
Proof.
  intros Hn. unfold int_mul_0_95.
  pose proof (int_mul_lt (Z.of_nat n) m_0_95 ltac:(lia) ltac:(unfold m_0_95, m_0_99; lia)).
  pose proof (int_mul_nonneg (Z.of_nat n) m_0_95 ltac:(lia) ltac:(unfold m_0_95; lia)).
  lia.
Qed.

Lemma int_mul_0_99_lt (n : nat) : (0 < n)%nat -> (int_mul_0_99 n < n)%nat.
Proof.
  intros Hn. unfold int_mul_0_99.
  pose proof (int_mul_lt (Z.of_nat n) m_0_99 ltac:(lia) ltac:(unfold m_0_99; lia)).
  pose proof (int_mul_nonneg (Z.of_nat n) m_0_99 ltac:(lia) ltac:(unfold m_0_99; lia)).
  lia.
Qed.

Lemma int_mul_0_95_le_0_99 (n : nat) : (int_mul_0_95 n <= int_mul_0_99 n)%nat.
Proof.
  unfold int_mul_0_95, int_mul_0_99.
  pose proof (int_mul_0_95_le_0_99_Z (Z.of_nat n) ltac:(lia)). lia.
Qed.

Lemma half_le_int_mul_0_95 (n : nat) : (n / 2 <= int_mul_0_95 n)%nat.
Proof.
  unfold int_mul_0_95.
  pose proof (half_le_int_mul_0_95_Z (Z.of_nat n) ltac:(lia)) as H.
  replace (Z.of_nat n / 2) with (Z.of_nat (n / 2)) in H
    by (rewrite Nat2Z.inj_div; reflexivity).
  lia.
Qed.

Lemma int_mul_0_95_floor (n : nat) :
  Z.of_nat n < 2 ^ 46 -> int_mul_0_95 n = (19 * n / 20)%nat.
Proof.
  intros Hn. unfold int_mul_0_95.
  rewrite int_mul_0_95_exact by lia.
  apply Nat2Z.inj. rewrite Z2Nat.id by (apply Z.div_pos; lia).
  rewrite Nat2Z.inj_div. f_equal. lia.
Qed.

Lemma int_mul_0_99_floor (n : nat) :
  Z.of_nat n < 2 ^ 46 -> int_mul_0_99 n = (99 * n / 100)%nat.
Proof.
  intros Hn. unfold int_mul_0_99.
  rewrite int_mul_0_99_exact by lia.
  apply Nat2Z.inj. rewrite Z2Nat.id by (apply Z.div_pos; lia).
  rewrite Nat2Z.inj_div. f_equal. lia.
Qed.

(** Up to a hundred samples the 99th percentile index is the last one. *)
Lemma int_mul_0_99_last (n : nat) :
  (1 <= n <= 100)%nat -> int_mul_0_99 n = (n - 1)%nat.
Proof.
  intros Hn. rewrite int_mul_0_99_floor by lia.
  assert (H : (99 * n = (n - 1) * 100 + (100 - n))%nat) by lia.
  rewrite H. rewrite Nat.div_add_l by lia.
  rewrite Nat.div_small by lia. lia.
Qed.

End PyFloatFacts.

(** ** Python primitives *)

Module PyFacts.
Import Py.

Lemma py_lt_true x y : py_lt x y = true <-> (x < y)%Q.
Proof.
  unfold py_lt. rewrite negb_true_iff, <- not_true_iff_false, Qle_bool_iff.
  split; [apply Qnot_le_lt | apply Qlt_not_le].
Qed.

Lemma py_lt_false x y : py_lt x y = false <-> (y <= x)%Q.
Proof.
  unfold py_lt. rewrite negb_false_iff. apply Qle_bool_iff.
Qed.

Lemma insert_sorted_perm x l : insert_sorted x l ≡ₚ x :: l.
Proof.
  induction l as [| y l IH]; simpl; [reflexivity |].
  destruct (Qle_bool x y); [reflexivity |].
  rewrite IH. apply perm_swap.
Qed.

Lemma sorted_perm l : sorted l ≡ₚ l.
Proof.
  induction l as [| x l IH]; simpl; [reflexivity |].
  rewrite insert_sorted_perm. by rewrite IH.
Qed.

Lemma sorted_length l : length (sorted l) = length l.
Proof. apply Permutation_length, sorted_perm. Qed.

Lemma insert_sorted_StronglySorted x l :
  StronglySorted Qle l -> StronglySorted Qle (insert_sorted x l).
Proof.
  induction 1 as [| y l Hl IH Hy]; simpl.
  - repeat constructor.
  - destruct (Qle_bool x y) eqn:Hxy.
    + apply Qle_bool_iff in Hxy. constructor; [by constructor |].
      constructor; [exact Hxy |].
      eapply Forall_impl; [exact Hy |]. intros z Hz. simpl in Hz.
      eapply Qle_trans; eassumption.
    + constructor; [exact IH |].
      rewrite insert_sorted_perm. constructor; [| exact Hy].
      apply Qlt_le_weak, Qnot_le_lt. intros Hle.
      apply Qle_bool_iff in Hle. congruence.
Qed.

Lemma sorted_StronglySorted l : StronglySorted Qle (sorted l).
Proof.
  induction l as [| x l IH]; simpl; [constructor |].
  by apply insert_sorted_StronglySorted.
Qed.

(** In a sorted list, a later position holds a value at least as large. *)
Lemma StronglySorted_nth_error_le (l : list Q) i j x y :
  StronglySorted Qle l -> (i <= j)%nat ->
  nth_error l i = Some x -> nth_error l j = Some y -> (x <= y)%Q.
Proof.
  intros Hs. revert i j. induction Hs as [| z l Hl IH Hz]; intros i j Hij Hi Hj.
  - destruct i; discriminate.
  - destruct i as [| i], j as [| j]; simpl in *; try lia.
    + injection Hi as <-. injection Hj as <-. apply Qle_refl.
    + injection Hi as <-.
      rewrite Forall_forall in Hz. apply Hz.
      apply list_elem_of_In. eapply nth_error_In; eassumption.
    + eapply IH; [| eassumption | eassumption]. lia.
Qed.

Lemma sorted_nth_error_le l i j x y :
  (i <= j)%nat ->
  nth_error (sorted l) i = Some x -> nth_error (sorted l) j = Some y -> (x <= y)%Q.
Proof. apply StronglySorted_nth_error_le, sorted_StronglySorted. Qed.

Lemma fold_min_spec rest x :
  let m := fold_left (fun m y => if py_lt y m then y else m) rest x in
  In m (x :: rest) /\ (m <= x)%Q /\ Forall (Qle m) rest.
Proof.
  revert x. induction rest as [| y rest IH]; intros x; simpl.
  - split; [by left |]. split; [apply Qle_refl | constructor].
  - destruct (py_lt y x) eqn:Hlt.
    + apply py_lt_true in Hlt.
      destruct (IH y) as (Hin & Hle & Hall). simpl in *.
      split; [tauto |]. split; [| by constructor].
      eapply Qle_trans; [exact Hle | by apply Qlt_le_weak].
    + apply py_lt_false in Hlt.
      destruct (IH x) as (Hin & Hle & Hall). simpl in *.
      split; [tauto |]. split; [exact Hle |]. constructor; [| exact Hall].
      eapply Qle_trans; eassumption.
Qed.

Lemma fold_max_spec rest x :
  let m := fold_left (fun m y => if py_lt m y then y else m) rest x in
  In m (x :: rest) /\ (x <= m)%Q /\ Forall (fun y => (y <= m)%Q) rest.
Proof.
  revert x. induction rest as [| y rest IH]; intros x; simpl.
  - split; [by left |]. split; [apply Qle_refl | constructor].
  - destruct (py_lt x y) eqn:Hlt.
    + apply py_lt_true in Hlt.
      destruct (IH y) as (Hin & Hle & Hall). simpl in *.
      split; [tauto |]. split; [| by constructor].
      eapply Qle_trans; [by apply Qlt_le_weak | exact Hle].
    + apply py_lt_false in Hlt.
      destruct (IH x) as (Hin & Hle & Hall). simpl in *.
      split; [tauto |]. split; [exact Hle |]. constructor; [| exact Hall].
      eapply Qle_trans; eassumption.
Qed.

Lemma py_min_spec l m :
  py_min l = Ok m -> In m l /\ Forall (Qle m) l.
Proof.
  destruct l as [| x rest]; simpl; [discriminate |].
  intros [= <-]. destruct (fold_min_spec rest x) as (Hin & Hle & Hall).
  split; [exact Hin | by constructor].
Qed.

Lemma py_max_spec l m :
  py_max l = Ok m -> In m l /\ Forall (fun y => (y <= m)%Q) l.
Proof.
  destruct l as [| x rest]; simpl; [discriminate |].
  intros [= <-]. destruct (fold_max_spec rest x) as (Hin & Hle & Hall).
  split; [exact Hin | by constructor].
Qed.

Lemma py_min_total l : l <> [] -> exists m, py_min l = Ok m.
Proof. destruct l; [congruence | eauto]. Qed.

Lemma py_max_total l : l <> [] -> exists m, py_max l = Ok m.
Proof. destruct l; [congruence | eauto]. Qed.

Lemma In_sorted x l : In x (sorted l) <-> In x l.
Proof.
  rewrite <- !list_elem_of_In. by rewrite sorted_perm.
Qed.

(** [min(l)] is the first and [max(l)] the last element of [sorted(l)]. *)
Lemma py_min_sorted l m x :
  py_min l = Ok m -> nth_error (sorted l) 0 = Some x -> (m == x)%Q.
Proof.
  intros Hm Hx. apply py_min_spec in Hm as [Hin Hall].
  apply Qle_antisym.
  - rewrite Forall_forall in Hall. apply Hall.
    apply list_elem_of_In, In_sorted. eapply nth_error_In; eassumption.
  - apply In_sorted in Hin. apply In_nth_error in Hin as [j Hj].
    eapply sorted_nth_error_le; [| exact Hx | exact Hj]. lia.
Qed.

Lemma py_max_sorted l m x :
  py_max l = Ok m -> nth_error (sorted l) (length l - 1) = Some x -> (m == x)%Q.
Proof.
  intros Hm Hx. apply py_max_spec in Hm as [Hin Hall].
  apply Qle_antisym.
  - apply In_sorted in Hin. apply In_nth_error in Hin as [j Hj].
    eapply sorted_nth_error_le; [| exact Hj | exact Hx].
    assert (j < length (sorted l))%nat by (apply nth_error_Some; congruence).
    rewrite sorted_length in *. lia.
  - rewrite Forall_forall in Hall. apply Hall.
    apply list_elem_of_In, In_sorted. eapply nth_error_In; eassumption.
Qed.

Lemma py_truediv_ok a b : ~ (b == 0)%Q -> py_truediv a b = Ok (a / b)%Q.
Proof.
  intros Hb. unfold py_truediv.
  destruct (Qeq_bool b 0) eqn:E; [| reflexivity].
  apply Qeq_bool_iff in E. contradiction.
Qed.

Lemma py_truediv_zero a b : (b == 0)%Q -> py_truediv a b = Raise ZeroDivisionError.
Proof.
  intros Hb. unfold py_truediv. apply Qeq_bool_iff in Hb. by rewrite Hb.
Qed.

Lemma inject_Z_eq0 z : (inject_Z z == 0)%Q <-> z = 0%Z.
Proof.
  unfold Qeq. simpl. lia.
Qed.

Lemma py_getitem_ok {A} (l : list A) i :
  (i < length l)%nat -> exists x, py_getitem l i = Ok x /\ nth_error l i = Some x.
Proof.
  intros Hi. unfold py_getitem.
  destruct (nth_error l i) as [x |] eqn:E; [eauto |].
  apply nth_error_None in E. lia.
Qed.

End PyFacts.

(** ** The statistics aggregator *)

Module AggregatorFacts.
Import Py PyFloat Benchmark PyFloatFacts PyFacts.

Lemma result_map_latency rs :
  result_map rec_latency (List.filter rec_success rs) = Ok (latencies_of rs).
Proof.
  induction rs as [| [c q l h | c q e] rs IH]; simpl; [reflexivity | | exact IH].
  by rewrite IH.
Qed.

Lemma length_latencies_of rs :
  length (latencies_of rs) = length (List.filter rec_success rs).
Proof.
  induction rs as [| [c q l h | c q e] rs IH]; simpl; [reflexivity | | exact IH].
  by rewrite IH.
Qed.

Lemma length_filter_le {A} (f : A -> bool) l :
  (length (List.filter f l) <= length l)%nat.
Proof.
  induction l as [| x l IH]; simpl; [lia |]. destruct (f x); simpl; lia.
Qed.

Section Reduction.
Variable TEST_DURATION : Z.

(** With at least one success, every step before the throughput is
    defined: what is left of [query_stats] is the division by
    [TEST_DURATION]. *)
Lemma query_stats_reduce qr :
  let sr := List.filter rec_success qr in
  let lat := latencies_of qr in
  sr <> [] ->
  exists lo hi p95 p99,
    py_min lat = Ok lo /\ py_max lat = Ok hi /\
    nth_error (sorted lat) (int_mul_0_95 (length lat)) = Some p95 /\
    nth_error (sorted lat) (int_mul_0_99 (length lat)) = Some p99 /\
    query_stats TEST_DURATION qr =
      (rps <~ py_truediv (inject_Z (Z.of_nat (length sr))) (inject_Z TEST_DURATION);
       Ok (Some {| total_requests := length qr;
                   successful_requests := length sr;
                   error_rate :=
                     (inject_Z (Z.of_nat (length qr) - Z.of_nat (length sr))
                      / inject_Z (Z.of_nat (length qr)) * 100)%Q;
                   avg_latency := (py_sum lat / inject_Z (Z.of_nat (length lat)))%Q;
                   min_latency := lo;
                   max_latency := hi;
                   p95_latency := p95;
                   p99_latency := p99;
                   requests_per_second := rps |})).
Proof.
  intros sr lat Hsr.
  assert (Hlen : (0 < length sr)%nat) by (destruct sr; [congruence | simpl; lia]).
  assert (Hlat : length lat = length sr) by apply length_latencies_of.
  assert (Hqr : (length sr <= length qr)%nat) by apply length_filter_le.
  assert (Hne : lat <> []) by (destruct lat; [simpl in Hlat; lia | congruence]).
  destruct (py_min_total lat Hne) as [lo Hlo].
  destruct (py_max_total lat Hne) as [hi Hhi].
  destruct (py_getitem_ok (sorted lat) (int_mul_0_95 (length lat)))
    as (p95 & Hp95 & Hn95).
  { rewrite sorted_length. apply int_mul_0_95_lt. lia. }
  destruct (py_getitem_ok (sorted lat) (int_mul_0_99 (length lat)))
    as (p99 & Hp99 & Hn99).
  { rewrite sorted_length. apply int_mul_0_99_lt. lia. }
  exists lo, hi, p95, p99. repeat (split; [assumption |]).
  unfold query_stats. fold sr.
  destruct sr as [| r0 sr0] eqn:Esr; [congruence |].
  rewrite <- Esr. subst sr. rewrite result_map_latency. fold lat. cbn [bind].
  rewrite py_truediv_ok by (rewrite inject_Z_eq0; lia). cbn [bind].
  rewrite py_truediv_ok by (rewrite inject_Z_eq0; lia). cbn [bind].
  rewrite Hlo, Hhi, Hp95, Hp99. cbn [bind]. rewrite Esr. reflexivity.
Qed.

End Reduction.

Section Entries.
Variable TEST_DURATION : Z.
Variable queries : list (string * json).

Lemma query_stats_none qr :
  List.filter rec_success qr = [] <-> query_stats TEST_DURATION qr = Ok None.
Proof.
  split.
  - intros H. unfold query_stats. by rewrite H.
  - intros H. destruct (List.filter rec_success qr) as [| r0 sr0] eqn:E; [reflexivity |].
    destruct (query_stats_reduce TEST_DURATION qr) as (lo & hi & p95 & p99 & _ & _ & _ & _ & Hq).
    { rewrite E. discriminate. }
    rewrite Hq in H. unfold py_truediv in H.
    destruct (Qeq_bool _ 0); discriminate.
Qed.

(** The fields of an entry, read off the records of its query. *)
Lemma query_stats_inv qr s :
  query_stats TEST_DURATION qr = Ok (Some s) ->
  let sr := List.filter rec_success qr in
  let lat := latencies_of qr in
  sr <> [] /\ TEST_DURATION <> 0%Z /\
  total_requests s = length qr /\
  successful_requests s = length sr /\
  length lat = length sr /\
  error_rate s = (inject_Z (Z.of_nat (length qr) - Z.of_nat (length sr))
                  / inject_Z (Z.of_nat (length qr)) * 100)%Q /\
  avg_latency s = (py_sum lat / inject_Z (Z.of_nat (length lat)))%Q /\
  py_min lat = Ok (min_latency s) /\
  py_max lat = Ok (max_latency s) /\
  nth_error (sorted lat) (int_mul_0_95 (length lat)) = Some (p95_latency s) /\
  nth_error (sorted lat) (int_mul_0_99 (length lat)) = Some (p99_latency s) /\
  requests_per_second s = (inject_Z (Z.of_nat (length sr)) / inject_Z TEST_DURATION)%Q.
Proof.
  intros H sr lat.
  assert (Hsr : sr <> []).
  { intros E. apply query_stats_none in E. congruence. }
  destruct (query_stats_reduce TEST_DURATION qr Hsr)
    as (lo & hi & p95 & p99 & Hlo & Hhi & H95 & H99 & Hq).
  rewrite Hq in H. unfold py_truediv in H.
  destruct (Qeq_bool (inject_Z TEST_DURATION) 0) eqn:E; [discriminate |].
  cbn [bind] in H. injection H as <-. cbn.
  split; [exact Hsr |]. split.
  { intros ->. discriminate. }
  repeat (split; [first [reflexivity | assumption | apply length_latencies_of] |]).
  reflexivity.
Qed.

Lemma query_stats_total qr :
  TEST_DURATION <> 0%Z -> exists e, query_stats TEST_DURATION qr = Ok e.
Proof.
  intros HD.
  destruct (List.filter rec_success qr) as [| r0 sr0] eqn:E.
  - exists None. by apply query_stats_none.
  - destruct (query_stats_reduce TEST_DURATION qr) as (lo & hi & p95 & p99 & _ & _ & _ & _ & Hq).
    { rewrite E. discriminate. }
    rewrite Hq, py_truediv_ok by (by rewrite inject_Z_eq0). cbn [bind]. eauto.
Qed.

(** The only exception [query_stats] can raise is the division by a zero
    [TEST_DURATION]. *)
Lemma query_stats_raise qr e :
  query_stats TEST_DURATION qr = Raise e ->
  e = ZeroDivisionError /\ TEST_DURATION = 0%Z /\ List.filter rec_success qr <> [].
Proof.
  intros H.
  destruct (Z.eq_dec TEST_DURATION 0%Z) as [HD | HD].
  - destruct (List.filter rec_success qr) as [| r0 sr0] eqn:E.
    + apply query_stats_none in E. congruence.
    + destruct (query_stats_reduce TEST_DURATION qr)
        as (lo & hi & p95 & p99 & _ & _ & _ & _ & Hq).
      { rewrite E. discriminate. }
      rewrite Hq, py_truediv_zero in H by (by rewrite inject_Z_eq0).
      cbn [bind] in H. injection H as <-. split; [reflexivity |]. split; [exact HD | discriminate].
  - destruct (query_stats_total qr HD) as [e' He']. congruence.
Qed.

Lemma for_query_names_lookup names cr acc m :
  for_query_names TEST_DURATION names cr acc = Ok m ->
  forall q, m !! q = if decide (q ∈ names) then entry_or TEST_DURATION cr q (acc !! q) else acc !! q.
Proof.
  revert acc. induction names as [| n names IH]; intros acc H q; simpl in H.
  - injection H as <-. rewrite decide_False; [reflexivity | apply not_elem_of_nil].
  - destruct (query_stats TEST_DURATION (records_of_query cr n)) as [e | x] eqn:E;
      [| discriminate].
    cbn [bind] in H. rewrite (IH _ H q).
    unfold entry_or.
    destruct (decide (q = n)) as [-> | Hne].
    + rewrite (decide_True (P := n ∈ n :: names)) by apply list_elem_of_here.
      rewrite E. destruct e as [s |].
      * rewrite lookup_insert_eq. by destruct (decide (n ∈ names)).
      * by destruct (decide (n ∈ names)).
    + assert (Hacc : (match e with Some s => <[n:=s]> acc | None => acc end) !! q = acc !! q).
      { destruct e; [by rewrite lookup_insert_ne | reflexivity]. }
      rewrite Hacc.
      destruct (decide (q ∈ names)) as [Hin | Hin].
      * rewrite decide_True by (by apply list_elem_of_further). reflexivity.
      * rewrite decide_False; [reflexivity |].
        rewrite elem_of_cons. tauto.
Qed.

(** An entry of the result is the entry computed for a catalog query. *)
Lemma calculate_stats_lookup results cluster_name m q s :
  calculate_stats TEST_DURATION queries results cluster_name = Ok m ->
  (m !! q = Some s <->
   q ∈ map fst queries /\
   query_stats TEST_DURATION
     (records_of_query (records_of_cluster results cluster_name) q) = Ok (Some s)).
Proof.
  intros H. unfold calculate_stats in H.
  rewrite (for_query_names_lookup _ _ _ _ H q). unfold entry_or.
  rewrite lookup_empty.
  destruct (decide (q ∈ map fst queries)) as [Hin | Hin].
  - destruct (query_stats _ _) as [[s' |] | e]; split;
      first [ by intros [= ->] | by intros [_ [= ->]] | discriminate | intros [_ ?]; discriminate ].
  - split; [discriminate | tauto].
Qed.

Lemma for_query_names_total names cr acc :
  TEST_DURATION <> 0%Z -> exists m, for_query_names TEST_DURATION names cr acc = Ok m.
Proof.
  intros HD. revert acc. induction names as [| n names IH]; intros acc; simpl.
  - eauto.
  - destruct (query_stats_total (records_of_query cr n) HD) as [e ->]. cbn [bind].
    apply IH.
Qed.

Lemma calculate_stats_total results cluster_name :
  TEST_DURATION <> 0%Z ->
  exists m, calculate_stats TEST_DURATION queries results cluster_name = Ok m.
Proof. intros HD. by apply for_query_names_total. Qed.

Lemma for_query_names_raise names cr acc e :
  for_query_names TEST_DURATION names cr acc = Raise e ->
  e = ZeroDivisionError /\ TEST_DURATION = 0%Z.
Proof.
  revert acc. induction names as [| n names IH]; intros acc H; simpl in H; [discriminate |].
  destruct (query_stats TEST_DURATION (records_of_query cr n)) as [x | x] eqn:E.
  - cbn [bind] in H. eapply IH; eassumption.
  - cbn [bind] in H. injection H as <-. apply query_stats_raise in E. tauto.
Qed.

End Entries.

Lemma floor_index_0_95 n : Spec.floor_index 0.95 n = (19 * n / 20)%nat.
Proof.
  unfold Spec.floor_index, Qfloor, Qmult. cbn [Qnum Qden inject_Z].
  change (Z.pos (100 * 1)) with (5 * 20)%Z.
  replace (95 * Z.of_nat n)%Z with (5 * Z.of_nat (19 * n))%Z by lia.
  rewrite Z.div_mul_cancel_l by lia.
  change 20%Z with (Z.of_nat 20). rewrite <- Nat2Z.inj_div. apply Nat2Z.id.
Qed.

Lemma floor_index_0_99 n : Spec.floor_index 0.99 n = (99 * n / 100)%nat.
Proof.
  unfold Spec.floor_index, Qfloor, Qmult. cbn [Qnum Qden inject_Z].
  change (Z.pos (100 * 1)) with 100%Z.
  replace (99 * Z.of_nat n)%Z with (Z.of_nat (99 * n))%Z by lia.
  change 100%Z with (Z.of_nat 100). rewrite <- Nat2Z.inj_div. apply Nat2Z.id.
Qed.

Lemma floor_index_0_5 n : Spec.floor_index 0.5 n = (n / 2)%nat.
Proof.
  unfold Spec.floor_index, Qfloor, Qmult. cbn [Qnum Qden inject_Z].
  change (Z.pos (10 * 1)) with (5 * 2)%Z.
  rewrite Z.div_mul_cancel_l by lia.
  change 2%Z with (Z.of_nat 2). rewrite <- Nat2Z.inj_div. apply Nat2Z.id.
Qed.

End AggregatorFacts.

(** ** The load worker *)

Section WorkerFacts.
Import Py Benchmark PyFacts.
Variable INDEX_NAME : string.
Variable TEST_DURATION : Z.
Variable queries : list (string * json).
Variable time_at : nat -> Q.

Local Abbreviation run_query := (run_query INDEX_NAME time_at).
Local Abbreviation for_queries := (for_queries INDEX_NAME time_at).
Local Abbreviation while_loop := (while_loop INDEX_NAME TEST_DURATION queries time_at).
Local Abbreviation run_benchmark_worker :=
  (run_benchmark_worker INDEX_NAME TEST_DURATION queries time_at).

(** The three ways a query execution can end. *)
Lemma run_query_cases (client : Client) query_name query_body cluster_name w :
  let t0 := time_at (clock_reads w) in
  let t1 := time_at (S (clock_reads w)) in
  match client (search_calls w) INDEX_NAME query_body with
  | Raise e =>
      run_query client query_name query_body cluster_name w
      = (Failure cluster_name query_name (str_exc e),
         {| clock_reads := S (clock_reads w);
            search_calls := S (search_calls w);
            stdout := stdout w ++
              ["Error running query " +:+ query_name +:+ " on "
               +:+ cluster_name +:+ ": " +:+ str_exc e] |})
  | Ok response =>
      match hits_of response with
      | Ok hits =>
          run_query client query_name query_body cluster_name w
          = (Success cluster_name query_name ((t1 - t0) * 1000)%Q hits,
             {| clock_reads := S (S (clock_reads w));
                search_calls := S (search_calls w);
                stdout := stdout w |})
      | Raise e =>
          run_query client query_name query_body cluster_name w
          = (Failure cluster_name query_name (str_exc e),
             {| clock_reads := S (S (clock_reads w));
                search_calls := S (search_calls w);
                stdout := stdout w ++
                  ["Error running query " +:+ query_name +:+ " on "
                   +:+ cluster_name +:+ ": " +:+ str_exc e] |})
      end
  end.
Proof.
  cbv zeta. unfold Benchmark.run_query, time_time, search. cbn.
  destruct (client (search_calls w) INDEX_NAME query_body) as [response | e]; cbn.
  - destruct (hits_of response) as [hits | e]; reflexivity.
  - reflexivity.
Qed.

(** One execution: one record for the query asked, one call of the client,
    the clock only read forward. *)
Lemma run_query_once (client : Client) query_name query_body cluster_name w :
  exists r w',
    run_query client query_name query_body cluster_name w = (r, w') /\
    rec_cluster r = cluster_name /\ rec_query r = query_name /\
    search_calls w' = S (search_calls w) /\
    (clock_reads w < clock_reads w')%nat.
Proof.
  pose proof (run_query_cases client query_name query_body cluster_name w) as H.
  cbv zeta in H.
  destruct (client (search_calls w) INDEX_NAME query_body) as [response | e].
  - destruct (hits_of response) as [hits | e]; rewrite H;
      eexists _, _; (split; [reflexivity |]); cbn; repeat split; lia.
  - rewrite H. eexists _, _. split; [reflexivity |]. cbn. repeat split; lia.
Qed.

(** One pass: one record per catalog entry, in catalog order, appended to
    the records so far; one client call per entry. *)
Lemma for_queries_pass (client : Client) cluster_name items results w :
  exists rs w',
    for_queries client cluster_name items results w = (results ++ rs, w') /\
    map rec_query rs = map fst items /\
    Forall (fun r => rec_cluster r = cluster_name) rs /\
    search_calls w' = (search_calls w + length items)%nat /\
    (clock_reads w <= clock_reads w')%nat.
Proof.
  revert results w. induction items as [| [query_name query_body] items IH];
    intros results w; simpl.
  - exists [], w. rewrite app_nil_r. repeat split; [constructor | lia | lia].
  - destruct (run_query_once client query_name query_body cluster_name w)
      as (r & w1 & Hrun & Hc & Hq & Hcalls & Hreads).
    rewrite Hrun.
    destruct (IH (results ++ [r]) w1) as (rs & w' & Hfor & Hqs & Hcs & Hcalls' & Hreads').
    exists (r :: rs), w'. rewrite Hfor, <- app_assoc. simpl.
    split; [reflexivity |]. split; [by rewrite Hq, Hqs |].
    split; [by constructor |]. split; lia.
Qed.

(** Whatever the loop returns consists of whole passes. *)
Lemma while_loop_whole_passes fuel (client : Client) cluster_name start_time results w res w' :
  while_loop fuel client cluster_name start_time results w = Some (res, w') ->
  exists k rs,
    res = results ++ rs /\
    map rec_query rs = concat (replicate k (map fst queries)) /\
    search_calls w' = (search_calls w + k * length queries)%nat.
Proof.
  revert results w. induction fuel as [| fuel IH]; intros results w H; simpl in H;
    [discriminate |].
  destruct (py_lt (time_at (clock_reads w) - start_time) (inject_Z TEST_DURATION)).
  - destruct (for_queries_pass client cluster_name queries results
                {| clock_reads := S (clock_reads w);
                   search_calls := search_calls w;
                   stdout := stdout w |})
      as (rs & w1 & Hfor & Hqs & _ & Hcalls & _).
    unfold time_time in H. cbn in H. rewrite Hfor in H.
    destruct (IH _ _ H) as (k & rs' & -> & Hqs' & Hcalls').
    exists (S k), (rs ++ rs'). rewrite <- app_assoc. split; [reflexivity |].
    split; [simpl; by rewrite map_app, Hqs, Hqs' |].
    cbn in Hcalls. lia.
  - injection H as <- <-. exists 0%nat, []. rewrite app_nil_r. cbn.
    repeat split; lia.
Qed.

(** The loop ends as soon as a check sees the deadline: with the clock past
    the deadline from its [k0]-th reading on, [k0 + 1] units of fuel are
    enough from the start. *)
Lemma while_loop_terminates k0 fuel (client : Client) cluster_name start_time results w :
  (forall k, (k0 <= k)%nat ->
             py_lt (time_at k - start_time) (inject_Z TEST_DURATION) = false) ->
  (1 <= fuel)%nat -> (k0 <= clock_reads w + fuel - 1)%nat ->
  exists res w', while_loop fuel client cluster_name start_time results w = Some (res, w').
Proof.
  intros Hclock. revert results w.
  induction fuel as [| fuel IH]; intros results w Hfuel Hk0; [lia |]. simpl.
  destruct (py_lt (time_at (clock_reads w) - start_time) (inject_Z TEST_DURATION)) eqn:Hlt.
  - assert (Hw : (clock_reads w < k0)%nat).
    { destruct (Nat.lt_ge_cases (clock_reads w) k0) as [? | Hge]; [assumption |].
      rewrite (Hclock _ Hge) in Hlt. discriminate. }
    destruct (for_queries_pass client cluster_name queries results
                {| clock_reads := S (clock_reads w);
                   search_calls := search_calls w;
                   stdout := stdout w |})
      as (rs & w1 & Hfor & _ & _ & _ & Hreads).
    unfold time_time. cbn. rewrite Hfor. cbn in Hreads.
    apply IH; lia.
  - eauto.
Qed.

End WorkerFacts.

(** ** The report emitter *)

Module ReportFacts.
Import Py Benchmark Report ReportSpec PyFacts.

Lemma ess_rows_map q e : ess_rows q e = map (fun m => elasticsearch_row q m e) all_metrics.
Proof. reflexivity. Qed.

Lemma aws_rows_map q e a :
  aws_rows q e a = map (fun m => comparison_row q m e a) all_metrics.
Proof. reflexivity. Qed.

Lemma In_all_metrics m : In m all_metrics.
Proof. destruct m; simpl; tauto. Qed.

(** The per-query rows: an Elasticsearch row for every query with
    Elasticsearch statistics, a comparison row for every query with
    statistics on both sides, and nothing else. *)
Lemma In_per_query_rows (es os : gmap string QueryStats) r :
  In r (per_query_rows es os) <->
  exists q m,
    (exists e, es !! q = Some e /\ r = elasticsearch_row q m e) \/
    (exists e a, es !! q = Some e /\ os !! q = Some a /\ r = comparison_row q m e a).
Proof.
  unfold per_query_rows. rewrite in_flat_map. split.
  - intros (q & _ & Hr). unfold query_rows in Hr. apply in_app_or in Hr as [Hr | Hr].
    + destruct (es !! q) as [e |] eqn:He; [| contradiction].
      rewrite ess_rows_map in Hr. apply in_map_iff in Hr as (m & <- & _).
      exists q, m. left. eauto.
    + destruct (os !! q) as [a |] eqn:Ha; [| contradiction].
      destruct (es !! q) as [e |] eqn:He; [| contradiction].
      rewrite aws_rows_map in Hr. apply in_map_iff in Hr as (m & <- & _).
      exists q, m. right. eauto.
  - intros (q & m & H). exists q.
    assert (Hq : In q (elements (dom es ∪ dom os))).
    { apply list_elem_of_In, elem_of_elements, elem_of_union. left.
      apply elem_of_dom. destruct H as [(e & He & _) | (e & a & He & _)]; eauto. }
    split; [exact Hq |]. unfold query_rows.
    apply in_or_app.
    destruct H as [(e & He & ->) | (e & a & He & Ha & ->)]; rewrite He.
    + left. rewrite ess_rows_map. apply in_map_iff. exists m.
      split; [reflexivity | apply In_all_metrics].
    + right. rewrite Ha, aws_rows_map. apply in_map_iff. exists m.
      split; [reflexivity | apply In_all_metrics].
Qed.

(** The indicator is neutral exactly on equal values. *)
Lemma get_color_code_neutral x y b : get_color_code x y b = NEUTRAL <-> (x == y)%Q.
Proof.
  unfold get_color_code.
  destruct (py_lt x y) eqn:Hxy.
  - apply py_lt_true in Hxy. split; [destruct b; discriminate |].
    intros H. rewrite H in Hxy. by apply Qlt_irrefl in Hxy.
  - apply py_lt_false in Hxy. destruct (py_lt y x) eqn:Hyx.
    + apply py_lt_true in Hyx. split; [destruct b; discriminate |].
      intros H. rewrite H in Hyx. by apply Qlt_irrefl in Hyx.
    + apply py_lt_false in Hyx. split; [| reflexivity].
      intros _. by apply Qle_antisym.
Qed.

(** What the indicator shows on the OpenSearch row when the Elasticsearch
    value is the smaller one. *)
Lemma get_color_code_elasticsearch_smaller x y b :
  (x < y)%Q -> get_color_code x y b = if b then GREEN else RED.
Proof.
  intros H. unfold get_color_code. apply py_lt_true in H. by rewrite H.
Qed.

Lemma get_color_code_opensearch_smaller x y b :
  (y < x)%Q -> get_color_code x y b = if b then RED else GREEN.
Proof.
  intros H. unfold get_color_code.
  assert (Hxy : py_lt x y = false) by (apply py_lt_false; by apply Qlt_le_weak).
  apply py_lt_true in H. by rewrite Hxy, H.
Qed.

(** Sums: Python's left-to-right [sum] agrees with the sum over the map. *)
Lemma fold_left_Zadd_foldr l a : fold_left Z.add l a = (foldr Z.add 0 l + a)%Z.
Proof.
  revert a. induction l as [| x l IH]; intros a; simpl; [reflexivity |].
  rewrite IH. lia.
Qed.

Lemma fold_left_Qplus_foldr l a : (fold_left Qplus l a == foldr Qplus 0 l + a)%Q.
Proof.
  revert a. induction l as [| x l IH]; intros a; simpl; [ring |].
  rewrite IH. ring.
Qed.

Lemma sum_Z_values (f : QueryStats -> Z) (stats : gmap string QueryStats) :
  py_sum_int (map f (values stats)) = sum_Z f stats.
Proof.
  unfold py_sum_int, sum_Z, values. rewrite fold_left_Zadd_foldr, map_fold_foldr.
  rewrite Z.add_0_r.
  induction (map_to_list stats) as [| [k s] l IH]; simpl; [reflexivity |].
  by rewrite IH.
Qed.

(** The sum over the map is the sum of its entries, whatever the order. *)
Lemma sum_Z_insert f (stats : gmap string QueryStats) q s :
  stats !! q = None -> sum_Z f (<[q:=s]> stats) = (f s + sum_Z f stats)%Z.
Proof.
  intros H. unfold sum_Z.
  rewrite (map_fold_insert_L (fun _ s acc => (f s + acc)%Z) 0%Z q s stats);
    [reflexivity | intros; lia | exact H].
Qed.

Section Summary.
Variable float_add float_div : Q -> Q -> Q.

Lemma overall_error_rate_ok keys (stats : gmap string QueryStats) :
  stats <> ∅ ->
  overall_error_rate float_add float_div keys stats
  = Ok (float_div (float_sum float_add (map error_rate (values_in keys stats)))
                  (inject_Z (Z.of_nat (size stats)))).
Proof.
  intros Hne. unfold overall_error_rate, float_truediv.
  apply map_size_non_empty_iff in Hne.
  destruct (Z.eqb_spec (Z.of_nat (size stats)) 0) as [E | E]; [lia | reflexivity].
Qed.

Lemma overall_error_rate_empty keys :
  overall_error_rate float_add float_div keys ∅ = Raise ZeroDivisionError.
Proof. reflexivity. Qed.

Lemma overall_error_rate_raise keys stats e :
  overall_error_rate float_add float_div keys stats = Raise e -> e = ZeroDivisionError.
Proof.
  unfold overall_error_rate, float_truediv.
  destruct (Z.of_nat (size stats) =? 0)%Z; [| discriminate]. by intros [= <-].
Qed.

(** The report's table, when both backends have statistics. *)
Lemma report_metrics_ok (results : Artifact) :
  let es := default ∅ (elasticsearch_stats results) in
  let os := default ∅ (opensearch_stats results) in
  es <> ∅ -> os <> ∅ ->
  exists ess_error aws_error,
    overall_error_rate float_add float_div (elasticsearch_keys results) es
    = Ok ess_error /\
    overall_error_rate float_add float_div (opensearch_keys results) os
    = Ok aws_error /\
    report_metrics float_add float_div results
    = Ok (per_query_rows es os ++
          summary_table results es os ess_error aws_error
            (avg_requests_per_second float_add (elasticsearch_keys results) es)
            (avg_requests_per_second float_add (opensearch_keys results) os)).
Proof.
  intros es os Hes Hos.
  pose proof (overall_error_rate_ok (elasticsearch_keys results) es Hes) as Hx.
  pose proof (overall_error_rate_ok (opensearch_keys results) os Hos) as Hy.
  eexists _, _. split; [exact Hx |]. split; [exact Hy |].
  unfold report_metrics, summary_rows. fold es os. rewrite Hx, Hy. cbn [bind].
  unfold summary_table, sum_total_requests, sum_successful_requests.
  by rewrite !sum_Z_values.
Qed.

Lemma report_metrics_inv (results : Artifact) rows :
  report_metrics float_add float_div results = Ok rows ->
  let es := default ∅ (elasticsearch_stats results) in
  let os := default ∅ (opensearch_stats results) in
  es <> ∅ /\ os <> ∅.
Proof.
  intros H es os. unfold report_metrics, summary_rows in H. fold es os in H.
  split; intros E; rewrite E in H.
  - rewrite overall_error_rate_empty in H. discriminate.
  - destruct (overall_error_rate float_add float_div (elasticsearch_keys results) es);
      [| discriminate].
    cbn [bind] in H. rewrite overall_error_rate_empty in H. discriminate.
Qed.

End Summary.

Lemma summary_table_keys results es os x y u v r :
  In r (summary_table results es os x y u v) -> exists k, metric r = Summary k.
Proof.
  intros Hr. unfold summary_table in Hr. simpl in Hr.
  repeat (destruct Hr as [<- | Hr]; [by eexists |]). contradiction.
Qed.

(** Every per-query row of the report is an Elasticsearch row or a
    comparison row of a query that has Elasticsearch statistics. *)
Lemma report_rows_per_query float_add float_div (results : Artifact) rows r q m :
  report_metrics float_add float_div results = Ok rows ->
  In r rows -> metric r = PerQuery q m ->
  (exists e,
     default ∅ (elasticsearch_stats results) !! q = Some e /\
     r = elasticsearch_row q m e) \/
  (exists e a,
     default ∅ (elasticsearch_stats results) !! q = Some e /\
     default ∅ (opensearch_stats results) !! q = Some a /\
     r = comparison_row q m e a).
Proof.
  intros Hrows Hr Hmetric.
  destruct (report_metrics_inv float_add float_div results rows Hrows) as [Hes Hos].
  destruct (report_metrics_ok float_add float_div results Hes Hos)
    as (x & y & _ & _ & Heq).
  rewrite Heq in Hrows. injection Hrows as <-.
  revert Hr. generalize (default ∅ (elasticsearch_stats results)) as es.
  generalize (default ∅ (opensearch_stats results)) as os. intros os es Hr.
  apply in_app_or in Hr as [Hr | Hr].
  - apply In_per_query_rows in Hr as (q0 & m0 & [(e & He & ->) | (e & a & He & Ha & ->)]);
      cbn in Hmetric; injection Hmetric as -> ->; [left | right]; eauto.
  - apply summary_table_keys in Hr as [k Hk]. congruence.
Qed.

(** *** The rows of one query, metric and cluster *)

Lemma metric_eqb_refl m : metric_eqb m m = true.
Proof. by destruct m. Qed.

Lemma filter_none {A} (P : A -> bool) (l : list A) :
  (forall x, In x l -> P x = false) -> List.filter P l = [].
Proof.
  induction l as [| a l IH]; simpl; intros H; [reflexivity |].
  rewrite (H a) by (by left). apply IH. intros x Hx. apply H. by right.
Qed.

Lemma filter_flat_map_none {A B} (P : B -> bool) (f : A -> list B) (l : list A) :
  (forall a, a ∈ l -> List.filter P (f a) = []) ->
  List.filter P (flat_map f l) = [].
Proof.
  induction l as [| x l IH]; simpl; intros H; [reflexivity |].
  rewrite List.filter_app, (H x) by apply list_elem_of_here.
  apply IH. intros a Ha. apply H. by apply list_elem_of_further.
Qed.

(** In a list without duplicates, the rows selected from a [flat_map] come
    from the one element that contributes any. *)
Lemma filter_flat_map_one {A B} `{EqDecision A}
    (P : B -> bool) (f : A -> list B) (a : A) (l : list A) :
  NoDup l ->
  (forall a', a' <> a -> List.filter P (f a') = []) ->
  (a ∉ l -> List.filter P (f a) = []) ->
  List.filter P (flat_map f l) = List.filter P (f a).
Proof.
  intros Hnd Hother. induction Hnd as [| x l Hx Hnd IH]; intros Hout; simpl.
  - symmetry. apply Hout. apply not_elem_of_nil.
  - rewrite List.filter_app. destruct (decide (x = a)) as [-> | Hne].
    + rewrite filter_flat_map_none; [apply app_nil_r |].
      intros a' Ha'. apply Hother. intros ->. contradiction.
    + rewrite (Hother x Hne). simpl. apply IH.
      intros Hnot. apply Hout. rewrite elem_of_cons. intros [? | ?]; [congruence | contradiction].
Qed.

Lemma In_query_rows (es os : gmap string QueryStats) q r :
  In r (query_rows es os q) -> exists m, metric r = PerQuery q m.
Proof.
  unfold query_rows. intros H. apply in_app_or in H as [H | H].
  - destruct (es !! q); [| contradiction]. simpl in H.
    repeat (destruct H as [<- | H]; [by eexists |]). contradiction.
  - destruct (os !! q), (es !! q); try contradiction. simpl in H.
    repeat (destruct H as [<- | H]; [by eexists |]). contradiction.
Qed.

Lemma rows_of_other_query (es os : gmap string QueryStats) q q' m c :
  q' <> q -> rows_of q m c (query_rows es os q') = [].
Proof.
  intros Hne. apply filter_none. intros r Hr.
  apply In_query_rows in Hr as [m' Hm]. unfold is_row_of. rewrite Hm.
  apply String.eqb_neq in Hne. by rewrite Hne.
Qed.

Lemma rows_of_per_query_rows (es os : gmap string QueryStats) q m c :
  rows_of q m c (per_query_rows es os) = rows_of q m c (query_rows es os q).
Proof.
  unfold per_query_rows, rows_of. apply filter_flat_map_one.
  - apply NoDup_elements.
  - intros q' Hne. by apply rows_of_other_query.
  - intros Hout. rewrite elem_of_elements, elem_of_union, !elem_of_dom in Hout.
    unfold query_rows. destruct (es !! q) eqn:E.
    + exfalso. apply Hout. left. by eexists.
    + by destruct (os !! q).
Qed.

Lemma is_row_of_here q m c m' c' v u s :
  is_row_of q m c {| metric := PerQuery q m'; cluster := c'; value := v;
                     unit := u; status := s |}
  = metric_eqb m' m && String.eqb c' c.
Proof. unfold is_row_of. cbn [metric cluster]. by rewrite String.eqb_refl. Qed.

Lemma rows_of_cons q m c r rows :
  rows_of q m c (r :: rows)
  = if is_row_of q m c r then r :: rows_of q m c rows else rows_of q m c rows.
Proof. reflexivity. Qed.

Lemma rows_of_ess_rows q m e :
  rows_of q m "Elasticsearch" (ess_rows q e) = [elasticsearch_row q m e] /\
  rows_of q m "OpenSearch" (ess_rows q e) = [].
Proof.
  unfold ess_rows. cbv zeta. rewrite !rows_of_cons, !is_row_of_here.
  split; destruct m; reflexivity.
Qed.

Lemma rows_of_aws_rows q m e a :
  rows_of q m "OpenSearch" (aws_rows q e a) = [comparison_row q m e a] /\
  rows_of q m "Elasticsearch" (aws_rows q e a) = [].
Proof.
  unfold aws_rows. cbv zeta. rewrite !rows_of_cons, !is_row_of_here.
  split; destruct m; reflexivity.
Qed.

Lemma rows_of_app q m c l1 l2 :
  rows_of q m c (l1 ++ l2) = rows_of q m c l1 ++ rows_of q m c l2.
Proof. apply List.filter_app. Qed.

Lemma rows_of_query_rows (es os : gmap string QueryStats) q m :
  rows_of q m "Elasticsearch" (query_rows es os q)
  = match es !! q with
    | Some e => [elasticsearch_row q m e]
    | None => []
    end /\
  rows_of q m "OpenSearch" (query_rows es os q)
  = match es !! q, os !! q with
    | Some e, Some a => [comparison_row q m e a]
    | _, _ => []
    end.
Proof.
  unfold query_rows. rewrite !rows_of_app.
  destruct (es !! q) as [e |], (os !! q) as [a |]; cbv beta iota;
    rewrite ?(proj1 (rows_of_ess_rows q m e)), ?(proj2 (rows_of_ess_rows q m e)),
            ?(proj1 (rows_of_aws_rows q m e a)), ?(proj2 (rows_of_aws_rows q m e a));
    split; reflexivity.
Qed.

Lemma rows_of_summary_table q m c results es os x y u v :
  rows_of q m c (summary_table results es os x y u v) = [].
Proof. reflexivity. Qed.

(** The rows of a query, metric and cluster in the report. *)
Lemma rows_of_report float_add float_div (results : Artifact) rows q m :
  report_metrics float_add float_div results = Ok rows ->
  rows_of q m "Elasticsearch" rows
  = match default ∅ (elasticsearch_stats results) !! q with
    | Some e => [elasticsearch_row q m e]
    | None => []
    end /\
  rows_of q m "OpenSearch" rows
  = match default ∅ (elasticsearch_stats results) !! q,
          default ∅ (opensearch_stats results) !! q with
    | Some e, Some a => [comparison_row q m e a]
    | _, _ => []
    end.
Proof.
  intros Hrows.
  destruct (report_metrics_inv float_add float_div results rows Hrows) as [Hes Hos].
  destruct (report_metrics_ok float_add float_div results Hes Hos)
    as (x & y & _ & _ & Heq).
  rewrite Heq in Hrows. injection Hrows as <-.
  rewrite !rows_of_app, !rows_of_summary_table, !app_nil_r, !rows_of_per_query_rows.
  apply rows_of_query_rows.
Qed.

(** *** The entries of a dict in its order *)










(** The indicator against the legend: Elasticsearch answers faster on
    average (12 ms against 15 ms), yet the OpenSearch row is the one marked
    with the status the legend reads as "better than the other cluster". *)
Example opensearch_row_marked_better_when_slower :
  (avg_latency Fixtures.stats_one_error < avg_latency Fixtures.stats_no_error)%Q /\
  cluster (comparison_row "industry-search" AverageLatency
             Fixtures.stats_one_error Fixtures.stats_no_error) = "OpenSearch" /\
  status (comparison_row "industry-search" AverageLatency
            Fixtures.stats_one_error Fixtures.stats_no_error) = GREEN /\
  legend GREEN = "Better performance than the other cluster".
Proof. repeat split. Qed.

End ReportFacts.

(** * The claims *)

Section AggregatorClaims.
Import Py PyFloat Benchmark PyFloatFacts PyFacts AggregatorFacts.

Lemma latencies_nonempty_successes qr :
  latencies_of qr <> [] <-> List.filter rec_success qr <> [].
Proof.
  pose proof (length_latencies_of qr) as H.
  destruct (latencies_of qr), (List.filter rec_success qr); simpl in H;
    split; intros ?; congruence.
Qed.

(** A catalog query with at least one successful record has an entry,
    provided [TEST_DURATION] is not zero. *)
Lemma calculate_stats_entry TEST_DURATION queries results cluster_name q :
  TEST_DURATION <> 0%Z ->
  q ∈ map fst queries ->
  latencies_of (records_for results cluster_name q) <> [] ->
  exists m s,
    calculate_stats TEST_DURATION queries results cluster_name = Ok m /\
    m !! q = Some s /\
    query_stats TEST_DURATION (records_for results cluster_name q) = Ok (Some s).
Proof.
  intros HD Hq Hlat.
  destruct (calculate_stats_total TEST_DURATION queries results cluster_name HD) as [m Hm].
  destruct (query_stats_total TEST_DURATION (records_for results cluster_name q) HD)
    as [[s |] Hs].
  - exists m, s. split; [exact Hm |]. split; [| exact Hs].
    apply (calculate_stats_lookup _ _ _ _ _ _ _ Hm). by split.
  - apply query_stats_none in Hs. apply latencies_nonempty_successes in Hlat.
    contradiction.
Qed.

Lemma calculate_stats_inv TEST_DURATION queries results cluster_name m q s :
  calculate_stats TEST_DURATION queries results cluster_name = Ok m ->
  m !! q = Some s ->
  query_stats TEST_DURATION (records_for results cluster_name q) = Ok (Some s).
Proof.
  intros Hm Hs. by apply (calculate_stats_lookup _ _ _ _ _ _ _ Hm) in Hs as [_ Hs].
Qed.

Lemma length_filter_forallb {A} (f : A -> bool) l :
  length (List.filter f l) = length l <-> forallb f l = true.
Proof.
  induction l as [| x l IH]; simpl; [tauto |].
  pose proof (length_filter_le f l).
  destruct (f x); simpl; [rewrite <- IH; lia |].
  split; [lia | discriminate].
Qed.

(** C1 (as amended): a query whose records all failed has no entry in the
    aggregator's output, hence neither an error rate nor latency fields; and
    the aggregator does return a map whenever [TEST_DURATION] is not zero. *)
Theorem C1_all_failed_query_has_no_entry
    (TEST_DURATION : Z) (queries : list (string * json))
    (results : list OutcomeRecord) (cluster_name q : string) :
  List.filter rec_success (records_for results cluster_name q) = [] ->
  (forall m, calculate_stats TEST_DURATION queries results cluster_name = Ok m ->
             m !! q = None) /\
  (TEST_DURATION <> 0%Z ->
   exists m, calculate_stats TEST_DURATION queries results cluster_name = Ok m).
Proof.
  intros Hfail. split; [| apply calculate_stats_total].
  intros m Hm. destruct (m !! q) as [s |] eqn:Hs; [| reflexivity].
  apply (calculate_stats_inv _ _ _ _ _ _ _ Hm) in Hs.
  apply (query_stats_none TEST_DURATION) in Hfail. congruence.
Qed.

Lemma C1_witness :
  exists m,
    calculate_stats 20 catalog
      [Failure "Elasticsearch" "industry-search" "ConnectionTimeout"]
      "Elasticsearch" = Ok m /\
    m !! "industry-search" = None.
Proof.
  destruct (C1_all_failed_query_has_no_entry 20 catalog
              [Failure "Elasticsearch" "industry-search" "ConnectionTimeout"]
              "Elasticsearch" "industry-search" eq_refl) as [Hnone Hex].
  destruct (Hex ltac:(discriminate)) as [m Hm].
  exists m. split; [exact Hm | exact (Hnone m Hm)].
Defined.

(** C1 as stated fails: with one failed record for a query
    ([total_requests = 1], no success) the output has no entry for the
    query, so no [error_rate] equal to 100. *)
Lemma C1_counterexample :
  length (records_for [Failure "Elasticsearch" "industry-search" "ConnectionTimeout"]
            "Elasticsearch" "industry-search") = 1%nat /\
  List.filter rec_success
    (records_for [Failure "Elasticsearch" "industry-search" "ConnectionTimeout"]
       "Elasticsearch" "industry-search") = [] /\
  exists m,
    calculate_stats 20 catalog
      [Failure "Elasticsearch" "industry-search" "ConnectionTimeout"]
      "Elasticsearch" = Ok m /\
    ~ (exists s, m !! "industry-search" = Some s /\ (error_rate s == 100)%Q).
Proof.
  split; [reflexivity |]. split; [reflexivity |].
  exists ∅. split; [vm_compute; reflexivity |].
  intros (s & Hs & _). rewrite lookup_empty in Hs. discriminate.
Qed.

(** C4: for a non-empty collection of [n] successful latencies, [p95_latency]
    is the element at index [floor(0.95 * n)] of the ascending-sorted
    latencies and [p99_latency] the one at [floor(0.99 * n)], an index equal
    to [n] being clamped to [n - 1] (both indices are below [n], so the clamp
    never moves them).  [n < 2^46] bounds the length of a list in memory: up
    to there the binary64 product truncates to the exact floor. *)
Theorem C4_percentiles_by_index
    (TEST_DURATION : Z) (queries : list (string * json))
    (results : list OutcomeRecord) (cluster_name q : string) :
  TEST_DURATION <> 0%Z ->
  q ∈ map fst queries ->
  latencies_of (records_for results cluster_name q) <> [] ->
  (Z.of_nat (length (latencies_of (records_for results cluster_name q))) < 2 ^ 46)%Z ->
  exists m s,
    calculate_stats TEST_DURATION queries results cluster_name = Ok m /\
    m !! q = Some s /\
    let lat := latencies_of (records_for results cluster_name q) in
    let n := length lat in
    nth_error (sorted lat) (Spec.clamp n (Spec.floor_index 0.95 n))
      = Some (p95_latency s) /\
    nth_error (sorted lat) (Spec.clamp n (Spec.floor_index 0.99 n))
      = Some (p99_latency s) /\
    (Spec.floor_index 0.95 n < n)%nat /\ (Spec.floor_index 0.99 n < n)%nat.
Proof.
  intros HD Hq Hlat Hn.
  destruct (calculate_stats_entry _ _ _ _ _ HD Hq Hlat) as (m & s & Hm & Hs & Hqs).
  exists m, s. split; [exact Hm |]. split; [exact Hs |]. cbv zeta.
  apply query_stats_inv in Hqs as (_ & _ & _ & _ & _ & _ & _ & _ & _ & H95 & H99 & _).
  set (lat := latencies_of (records_for results cluster_name q)) in *.
  assert (Hpos : (0 < length lat)%nat) by (destruct lat; [congruence | simpl; lia]).
  rewrite floor_index_0_95, floor_index_0_99.
  rewrite <- int_mul_0_95_floor, <- int_mul_0_99_floor by exact Hn.
  pose proof (int_mul_0_95_lt (length lat) Hpos).
  pose proof (int_mul_0_99_lt (length lat) Hpos).
  unfold Spec.clamp. rewrite !Nat.min_l by lia. auto.
Qed.

Lemma C4_witness :
  exists m s,
    calculate_stats 20 catalog
      [Success "Elasticsearch" "industry-search" 12 JNull;
       Failure "Elasticsearch" "industry-search" "ConnectionTimeout";
       Success "Elasticsearch" "industry-search" 7 JNull]
      "Elasticsearch" = Ok m /\
    m !! "industry-search" = Some s /\
    nth_error (sorted [12; 7]%Q) 1 = Some (p95_latency s) /\
    nth_error (sorted [12; 7]%Q) 1 = Some (p99_latency s).
Proof.
  destruct (C4_percentiles_by_index 20 catalog
              [Success "Elasticsearch" "industry-search" 12 JNull;
               Failure "Elasticsearch" "industry-search" "ConnectionTimeout";
               Success "Elasticsearch" "industry-search" 7 JNull]
              "Elasticsearch" "industry-search")
    as (m & s & Hm & Hs & H95 & H99 & _).
  - discriminate.
  - apply list_elem_of_In. simpl. tauto.
  - discriminate.
  - reflexivity.
  - exists m, s. repeat split; assumption.
Defined.

(** C5: for a non-empty collection of successful latencies,
    [p95_latency >= median >= min_latency], where the median is the element
    at index [floor(0.5 * n)] of the sorted latencies, [p99_latency >=
    p95_latency], and [p99_latency == max_latency] when [n <= 100]. *)
Theorem C5_percentile_order
    (TEST_DURATION : Z) (queries : list (string * json))
    (results : list OutcomeRecord) (cluster_name q : string) :
  TEST_DURATION <> 0%Z ->
  q ∈ map fst queries ->
  latencies_of (records_for results cluster_name q) <> [] ->
  exists m s median,
    calculate_stats TEST_DURATION queries results cluster_name = Ok m /\
    m !! q = Some s /\
    let lat := latencies_of (records_for results cluster_name q) in
    let n := length lat in
    nth_error (sorted lat) (Spec.floor_index 0.5 n) = Some median /\
    (median <= p95_latency s)%Q /\
    (min_latency s <= median)%Q /\
    (p95_latency s <= p99_latency s)%Q /\
    ((n <= 100)%nat -> (p99_latency s == max_latency s)%Q).
Proof.
  intros HD Hq Hlat.
  destruct (calculate_stats_entry _ _ _ _ _ HD Hq Hlat) as (m & s & Hm & Hs & Hqs).
  apply query_stats_inv in Hqs
    as (_ & _ & _ & _ & _ & _ & _ & Hmin & Hmax & H95 & H99 & _).
  set (lat := latencies_of (records_for results cluster_name q)) in *.
  assert (Hpos : (0 < length lat)%nat) by (destruct lat; [congruence | simpl; lia]).
  destruct (nth_error (sorted lat) (length lat / 2)) as [median |] eqn:Hmed.
  2:{ apply nth_error_None in Hmed. rewrite sorted_length in Hmed.
      pose proof (Nat.div_lt (length lat) 2 Hpos ltac:(lia)). lia. }
  destruct (nth_error (sorted lat) 0) as [first |] eqn:Hfirst.
  2:{ apply nth_error_None in Hfirst. rewrite sorted_length in Hfirst. lia. }
  exists m, s, median. split; [exact Hm |]. split; [exact Hs |]. cbv zeta.
  rewrite floor_index_0_5. split; [exact Hmed |].
  split.
  { eapply sorted_nth_error_le; [| exact Hmed | exact H95].
    apply half_le_int_mul_0_95. }
  split.
  { rewrite (py_min_sorted _ _ _ Hmin Hfirst).
    eapply sorted_nth_error_le; [| exact Hfirst | exact Hmed]. lia. }
  split.
  { eapply sorted_nth_error_le; [| exact H95 | exact H99].
    apply int_mul_0_95_le_0_99. }
  intros Hsmall. symmetry. apply (py_max_sorted _ _ _ Hmax).
  rewrite <- H99. f_equal. symmetry. apply int_mul_0_99_last. lia.
Qed.

Lemma C5_witness :
  exists m s median,
    calculate_stats 20 catalog
      [Success "Elasticsearch" "industry-search" 12 JNull;
       Failure "Elasticsearch" "industry-search" "ConnectionTimeout";
       Success "Elasticsearch" "industry-search" 7 JNull;
       Success "Elasticsearch" "industry-search" 9 JNull]
      "Elasticsearch" = Ok m /\
    m !! "industry-search" = Some s /\
    nth_error (sorted [12; 7; 9]%Q) 1 = Some median /\
    (median <= p95_latency s)%Q /\
    (min_latency s <= median)%Q /\
    (p95_latency s <= p99_latency s)%Q /\
    (p99_latency s == max_latency s)%Q.
Proof.
  destruct (C5_percentile_order 20 catalog
              [Success "Elasticsearch" "industry-search" 12 JNull;
               Failure "Elasticsearch" "industry-search" "ConnectionTimeout";
               Success "Elasticsearch" "industry-search" 7 JNull;
               Success "Elasticsearch" "industry-search" 9 JNull]
              "Elasticsearch" "industry-search")
    as (m & s & median & Hm & Hs & Hmed & H1 & H2 & H3 & H4).
  - discriminate.
  - apply list_elem_of_In. simpl. tauto.
  - discriminate.
  - exists m, s, median. repeat (split; [assumption |]).
    apply H4. simpl. lia.
Defined.

Lemma records_for_app w1 w2 cluster_name q :
  records_for (w1 ++ w2) cluster_name q
  = records_for w1 cluster_name q ++ records_for w2 cluster_name q.
Proof.
  unfold records_for, records_of_query, records_of_cluster.
  by rewrite !List.filter_app.
Qed.

(** C7 (as amended): the merge keeps every record exactly once, and
    aggregating the concatenation of two workers' records gives, for each
    query that has an entry in the output, [total_requests] equal to the sum
    of the counts of that query's records in the two sequences.  A catalog
    query has an entry when one of the two sequences has a successful record
    of it (and [TEST_DURATION] is not zero); a query without a successful
    record in either sequence has no entry, whatever its counts. *)
Theorem C7_merge_preserves_counts
    (TEST_DURATION : Z) (queries : list (string * json))
    (w1 w2 : list OutcomeRecord) (cluster_name q : string) :
  records_for (extend_all [w1; w2]) cluster_name q
  = records_for w1 cluster_name q ++ records_for w2 cluster_name q /\
  (forall m s,
     calculate_stats TEST_DURATION queries (extend_all [w1; w2]) cluster_name = Ok m ->
     m !! q = Some s ->
     total_requests s
     = (length (records_for w1 cluster_name q)
        + length (records_for w2 cluster_name q))%nat) /\
  (TEST_DURATION <> 0%Z ->
   q ∈ map fst queries ->
   List.filter rec_success
     (records_for w1 cluster_name q ++ records_for w2 cluster_name q) <> [] ->
   exists m s,
     calculate_stats TEST_DURATION queries (extend_all [w1; w2]) cluster_name = Ok m /\
     m !! q = Some s /\
     total_requests s
     = (length (records_for w1 cluster_name q)
        + length (records_for w2 cluster_name q))%nat) /\
  (List.filter rec_success (records_for w1 cluster_name q) = [] ->
   List.filter rec_success (records_for w2 cluster_name q) = [] ->
   forall m,
     calculate_stats TEST_DURATION queries (extend_all [w1; w2]) cluster_name = Ok m ->
     m !! q = None).
Proof.
  assert (Hmerge : extend_all [w1; w2] = w1 ++ w2) by reflexivity.
  rewrite Hmerge.
  assert (Htotal : forall m s,
             calculate_stats TEST_DURATION queries (w1 ++ w2) cluster_name = Ok m ->
             m !! q = Some s ->
             total_requests s
             = (length (records_for w1 cluster_name q)
                + length (records_for w2 cluster_name q))%nat).
  { intros m s Hm Hs.
    apply (calculate_stats_inv _ _ _ _ _ _ _ Hm) in Hs.
    apply query_stats_inv in Hs as (_ & _ & Ht & _).
    by rewrite Ht, records_for_app, length_app. }
  split; [apply records_for_app |]. split; [exact Htotal |]. split.
  - intros HD Hq Hsucc.
    destruct (calculate_stats_entry TEST_DURATION queries (w1 ++ w2) cluster_name q)
      as (m & s & Hm & Hs & _); [exact HD | exact Hq | |].
    + apply latencies_nonempty_successes. by rewrite records_for_app.
    + exists m, s. split; [exact Hm |]. split; [exact Hs |]. exact (Htotal m s Hm Hs).
  - intros H1 H2 m Hm. destruct (m !! q) as [s |] eqn:Hs; [| reflexivity].
    apply (calculate_stats_inv _ _ _ _ _ _ _ Hm) in Hs.
    assert (Hnone : List.filter rec_success (records_for (w1 ++ w2) cluster_name q) = [])
      by (by rewrite records_for_app, List.filter_app, H1, H2).
    apply (query_stats_none TEST_DURATION) in Hnone. congruence.
Qed.

Lemma C7_witness :
  exists m s,
    calculate_stats 20 catalog
      (extend_all
         [[Success "OpenSearch" "complex-search" 15 JNull;
           Failure "OpenSearch" "complex-search" "ConnectionTimeout"];
          [Success "OpenSearch" "complex-search" 11 JNull;
           Success "OpenSearch" "industry-search" 3 JNull]])
      "OpenSearch" = Ok m /\
    m !! "complex-search" = Some s /\
    total_requests s = 3%nat.
Proof.
  destruct (calculate_stats_entry 20 catalog
              (extend_all
                 [[Success "OpenSearch" "complex-search" 15 JNull;
                   Failure "OpenSearch" "complex-search" "ConnectionTimeout"];
                  [Success "OpenSearch" "complex-search" 11 JNull;
                   Success "OpenSearch" "industry-search" 3 JNull]])
              "OpenSearch" "complex-search")
    as (m & s & Hm & Hs & _).
  - discriminate.
  - apply list_elem_of_In. simpl. tauto.
  - discriminate.
  - exists m, s. split; [exact Hm |]. split; [exact Hs |].
    exact (proj1 (proj2 (C7_merge_preserves_counts 20 catalog _ _ "OpenSearch"
                           "complex-search")) m s Hm Hs).
Defined.

(** C7 as stated fails: two workers with one failed record each for a query
    give counts that sum to 2, yet the output has no entry for the query,
    so no [total_requests] equal to 2. *)
Lemma C7_counterexample :
  (length (records_for [Failure "Elasticsearch" "industry-search" "ConnectionTimeout"]
             "Elasticsearch" "industry-search")
   + length (records_for [Failure "Elasticsearch" "industry-search" "ConnectionTimeout"]
               "Elasticsearch" "industry-search"))%nat = 2%nat /\
  exists m,
    calculate_stats 20 catalog
      (extend_all [[Failure "Elasticsearch" "industry-search" "ConnectionTimeout"];
                   [Failure "Elasticsearch" "industry-search" "ConnectionTimeout"]])
      "Elasticsearch" = Ok m /\
    ~ (exists s, m !! "industry-search" = Some s /\ total_requests s = 2%nat).
Proof.
  split; [reflexivity |].
  exists ∅. split; [vm_compute; reflexivity |].
  intros (s & Hs & _). rewrite lookup_empty in Hs. discriminate.
Qed.

Lemma error_rate_formula_range (t k : nat) :
  (1 <= k <= t)%nat ->
  let e := (inject_Z (Z.of_nat t - Z.of_nat k) / inject_Z (Z.of_nat t) * 100)%Q in
  (0 <= e <= 100)%Q /\ ((e == 0)%Q <-> k = t).
Proof.
  intros Hk.
  assert (Hb : (0 < inject_Z (Z.of_nat t))%Q).
  { change 0%Q with (inject_Z 0). rewrite <- Zlt_Qlt. lia. }
  assert (Ha : (0 <= inject_Z (Z.of_nat t - Z.of_nat k))%Q).
  { change 0%Q with (inject_Z 0). rewrite <- Zle_Qle. lia. }
  assert (Hab : (inject_Z (Z.of_nat t - Z.of_nat k) <= inject_Z (Z.of_nat t))%Q).
  { rewrite <- Zle_Qle. lia. }
  assert (Ha0 : (inject_Z (Z.of_nat t - Z.of_nat k) == 0)%Q <-> k = t).
  { rewrite inject_Z_eq0. lia. }
  revert Ha Hab Ha0. generalize (inject_Z (Z.of_nat t - Z.of_nat k)) as a.
  revert Hb. generalize (inject_Z (Z.of_nat t)) as b.
  intros b Hb a Ha Hab Ha0 e.
  assert (He : (e * b == a * 100)%Q).
  { unfold e. field. intros H0. rewrite H0 in Hb. by apply Qlt_irrefl in Hb. }
  assert (Hq0 : (0 <= a / b)%Q).
  { apply Qle_shift_div_l; [exact Hb |]. by rewrite Qmult_0_l. }
  assert (Hq1 : (a / b <= 1)%Q).
  { apply Qle_shift_div_r; [exact Hb |]. by rewrite Qmult_1_l. }
  split; [unfold e; lra |].
  rewrite <- Ha0. split.
  - intros H0. rewrite H0 in He. lra.
  - intros H0. unfold e. rewrite H0. unfold Qdiv. lra.
Qed.

(** C9: for every query in the aggregator's output, the error rate lies in
    [[0, 100]], and it is 0 exactly when all records of that query
    succeeded. *)
Theorem C9_error_rate_range
    (TEST_DURATION : Z) (queries : list (string * json))
    (results : list OutcomeRecord) (cluster_name q : string)
    (m : gmap string QueryStats) (s : QueryStats) :
  calculate_stats TEST_DURATION queries results cluster_name = Ok m ->
  m !! q = Some s ->
  (0 <= error_rate s <= 100)%Q /\
  ((error_rate s == 0)%Q <->
   forallb rec_success (records_for results cluster_name q) = true).
Proof.
  intros Hm Hs.
  apply (calculate_stats_inv _ _ _ _ _ _ _ Hm) in Hs.
  apply query_stats_inv in Hs as (Hsr & _ & _ & _ & _ & -> & _).
  set (qr := records_for results cluster_name q) in *.
  pose proof (length_filter_le rec_success qr) as Hle.
  assert (Hpos : (1 <= length (List.filter rec_success qr))%nat).
  { destruct (List.filter rec_success qr); [congruence | simpl; lia]. }
  destruct (error_rate_formula_range (length qr) (length (List.filter rec_success qr)))
    as [Hrange Hzero]; [lia |].
  split; [exact Hrange |].
  rewrite Hzero. apply length_filter_forallb.
Qed.

Lemma C9_witness :
  exists m s,
    calculate_stats 20 catalog
      [Success "Elasticsearch" "industry-search" 12 JNull;
       Failure "Elasticsearch" "industry-search" "ConnectionTimeout"]
      "Elasticsearch" = Ok m /\
    m !! "industry-search" = Some s /\
    (0 <= error_rate s <= 100)%Q /\
    ~ (error_rate s == 0)%Q.
Proof.
  destruct (calculate_stats_entry 20 catalog
              [Success "Elasticsearch" "industry-search" 12 JNull;
               Failure "Elasticsearch" "industry-search" "ConnectionTimeout"]
              "Elasticsearch" "industry-search")
    as (m & s & Hm & Hs & _).
  - discriminate.
  - apply list_elem_of_In. simpl. tauto.
  - discriminate.
  - exists m, s. split; [exact Hm |]. split; [exact Hs |].
    destruct (C9_error_rate_range 20 catalog _ "Elasticsearch" "industry-search" m s Hm Hs)
      as [Hrange Hzero].
    split; [exact Hrange |].
    intros H0. apply Hzero in H0. discriminate.
Defined.

(** C10: every entry of the map the aggregator returns has
    [1 <= successful_requests <= total_requests]; its latency fields are
    computed over a non-empty list, every denominator of its computation is
    non-zero and both percentile indices are within the sorted list. *)
Theorem C10_entry_well_defined
    (TEST_DURATION : Z) (queries : list (string * json))
    (results : list OutcomeRecord) (cluster_name q : string)
    (m : gmap string QueryStats) (s : QueryStats) :
  calculate_stats TEST_DURATION queries results cluster_name = Ok m ->
  m !! q = Some s ->
  let qr := records_for results cluster_name q in
  let lat := latencies_of qr in
  (1 <= successful_requests s <= total_requests s)%nat /\
  length lat = successful_requests s /\
  lat <> [] /\
  length qr <> 0%nat /\ length lat <> 0%nat /\ TEST_DURATION <> 0%Z /\
  (PyFloat.int_mul_0_95 (length lat) < length (sorted lat))%nat /\
  (PyFloat.int_mul_0_99 (length lat) < length (sorted lat))%nat /\
  py_min lat = Ok (min_latency s) /\
  py_max lat = Ok (max_latency s) /\
  py_getitem (sorted lat) (PyFloat.int_mul_0_95 (length lat)) = Ok (p95_latency s) /\
  py_getitem (sorted lat) (PyFloat.int_mul_0_99 (length lat)) = Ok (p99_latency s) /\
  py_truediv (py_sum lat) (inject_Z (Z.of_nat (length lat))) = Ok (avg_latency s) /\
  py_truediv (inject_Z (Z.of_nat (successful_requests s))) (inject_Z TEST_DURATION)
    = Ok (requests_per_second s).
Proof.
  intros Hm Hs qr lat.
  apply (calculate_stats_inv _ _ _ _ _ _ _ Hm) in Hs. fold qr in Hs.
  apply query_stats_inv in Hs
    as (Hsr & HD & Ht & Hk & Hlen & _ & Havg & Hmin & Hmax & H95 & H99 & Hrps).
  fold lat in Hlen, Havg, Hmin, Hmax, H95, H99.
  pose proof (length_filter_le rec_success qr) as Hle.
  assert (Hpos : (1 <= length (List.filter rec_success qr))%nat).
  { destruct (List.filter rec_success qr); [congruence | simpl; lia]. }
  rewrite Ht, Hk, Hlen, sorted_length.
  split; [lia |]. split; [reflexivity |].
  split; [intros E; rewrite E in Hlen; simpl in Hlen; lia |].
  split; [lia |]. split; [lia |]. split; [exact HD |].
  rewrite <- Hlen.
  split; [apply int_mul_0_95_lt; lia |].
  split; [apply int_mul_0_99_lt; lia |].
  split; [exact Hmin |]. split; [exact Hmax |].
  unfold py_getitem. rewrite H95, H99.
  split; [reflexivity |]. split; [reflexivity |].
  rewrite Havg, Hrps, Hlen.
  split; apply py_truediv_ok; rewrite inject_Z_eq0; lia.
Qed.

Lemma C10_witness :
  exists m s,
    calculate_stats 20 catalog
      [Success "Elasticsearch" "industry-search" 12 JNull;
       Failure "Elasticsearch" "industry-search" "ConnectionTimeout"]
      "Elasticsearch" = Ok m /\
    m !! "industry-search" = Some s /\
    (1 <= successful_requests s <= total_requests s)%nat.
Proof.
  destruct (calculate_stats_entry 20 catalog
              [Success "Elasticsearch" "industry-search" 12 JNull;
               Failure "Elasticsearch" "industry-search" "ConnectionTimeout"]
              "Elasticsearch" "industry-search")
    as (m & s & Hm & Hs & _).
  - discriminate.
  - apply list_elem_of_In. simpl. tauto.
  - discriminate.
  - exists m, s. split; [exact Hm |]. split; [exact Hs |].
    exact (proj1 (C10_entry_well_defined 20 catalog _ "Elasticsearch" "industry-search"
                    m s Hm Hs)).
Defined.

End AggregatorClaims.

Section WorkerClaims.
Import Py Benchmark PyFacts Fixtures.

(** C2 (as amended): the deadline is tested before every pass, the first
    included.  A worker whose deadline has already passed at that first test
    ([TEST_DURATION <= 0], the clock not running backwards) executes no
    catalog pass: it returns no record and never calls the backend. *)
Theorem C2_deadline_tested_before_first_pass
    (INDEX_NAME : string) (TEST_DURATION : Z) (queries : list (string * json))
    (time_at : nat -> Q) (client : Client) (cluster_name : string)
    (w : World) (fuel : nat) :
  (TEST_DURATION <= 0)%Z ->
  (time_at (clock_reads w) <= time_at (S (clock_reads w)))%Q ->
  run_benchmark_worker INDEX_NAME TEST_DURATION queries time_at (S fuel)
    client cluster_name w
  = Some ([], {| clock_reads := S (S (clock_reads w));
                 search_calls := search_calls w;
                 stdout := stdout w |}).
Proof.
  intros HD Hclock. unfold run_benchmark_worker, time_time. cbn.
  assert (Hlt : py_lt (time_at (S (clock_reads w)) - time_at (clock_reads w))
                      (inject_Z TEST_DURATION) = false).
  { apply py_lt_false.
    assert (inject_Z TEST_DURATION <= 0)%Q
      by (change 0%Q with (inject_Z 0); by rewrite <- Zle_Qle).
    lra. }
  by rewrite Hlt.
Qed.

Lemma C2_witness :
  run_benchmark_worker "sample-companies" 0 catalog steady_clock 1
    ok_client "Elasticsearch" world0
  = Some ([], {| clock_reads := 2; search_calls := 0; stdout := [] |}).
Proof.
  apply (C2_deadline_tested_before_first_pass
           "sample-companies" 0 catalog steady_clock ok_client "Elasticsearch" world0 0).
  - lia.
  - vm_compute. discriminate.
Defined.

(** C2 as stated fails: with the five-query catalog, a duration of 0 and a
    steady clock, the worker returns no record at all, not five. *)
Lemma C2_counterexample :
  length catalog = 5%nat /\
  forall fuel,
    exists res w',
      run_benchmark_worker "sample-companies" 0 catalog steady_clock (S fuel)
        ok_client "Elasticsearch" world0 = Some (res, w') /\
      length res <> length catalog.
Proof.
  split; [reflexivity |]. intros fuel.
  exists [], {| clock_reads := 2; search_calls := 0; stdout := [] |}.
  split; [reflexivity | discriminate].
Qed.

(** C8: a query execution returns exactly one record whatever the backend
    does: a [Success] record when the call and the reading of the hit count
    succeed, and otherwise a [Failure] record ([success] false) carrying
    [str(e)] of the exception; nothing is propagated.  The worker then goes
    on: a pass yields one record per catalog query, in order, with exactly
    one backend call each, every pass of a worker is complete, and the
    worker returns once the clock has passed the deadline, whatever the
    backend did. *)
Theorem C8_failures_recorded_not_propagated
    (INDEX_NAME : string) (TEST_DURATION : Z) (queries : list (string * json))
    (time_at : nat -> Q) (client : Client) (cluster_name : string) :
  (forall query_name query_body w,
     exists r w',
       run_query INDEX_NAME time_at client query_name query_body cluster_name w
         = (r, w') /\
       rec_cluster r = cluster_name /\ rec_query r = query_name /\
       search_calls w' = S (search_calls w) /\
       (forall e,
          client (search_calls w) INDEX_NAME query_body = Raise e ->
          r = Failure cluster_name query_name (str_exc e)) /\
       (forall response e,
          client (search_calls w) INDEX_NAME query_body = Ok response ->
          hits_of response = Raise e ->
          r = Failure cluster_name query_name (str_exc e)) /\
       (forall response hits,
          client (search_calls w) INDEX_NAME query_body = Ok response ->
          hits_of response = Ok hits ->
          r = Success cluster_name query_name
                ((time_at (S (clock_reads w)) - time_at (clock_reads w)) * 1000)%Q
                hits)) /\
  (forall results w,
     exists rs w',
       for_queries INDEX_NAME time_at client cluster_name queries results w
         = (results ++ rs, w') /\
       map rec_query rs = map fst queries /\
       search_calls w' = (search_calls w + length queries)%nat) /\
  (forall fuel w res w',
     run_benchmark_worker INDEX_NAME TEST_DURATION queries time_at fuel
       client cluster_name w = Some (res, w') ->
     exists k,
       map rec_query res = concat (replicate k (map fst queries)) /\
       search_calls w' = (search_calls w + length res)%nat) /\
  (forall k0 w,
     (forall k, (k0 <= k)%nat ->
        py_lt (time_at k - time_at (clock_reads w)) (inject_Z TEST_DURATION) = false) ->
     exists res w',
       run_benchmark_worker INDEX_NAME TEST_DURATION queries time_at (S k0)
         client cluster_name w = Some (res, w')).
Proof.
  split; [| split; [| split]].
  - intros query_name query_body w.
    pose proof (run_query_cases INDEX_NAME time_at client query_name query_body
                  cluster_name w) as H. cbv zeta in H.
    destruct (client (search_calls w) INDEX_NAME query_body) as [response | e].
    + destruct (hits_of response) as [hits | e] eqn:Hhits; rewrite H;
        eexists _, _; (split; [reflexivity |]); cbn;
        repeat split; try discriminate; congruence.
    + rewrite H. eexists _, _. split; [reflexivity |]. cbn.
      repeat split; try discriminate; congruence.
  - intros results w.
    destruct (for_queries_pass INDEX_NAME time_at client cluster_name queries results w)
      as (rs & w' & Hfor & Hqs & _ & Hcalls & _).
    eauto.
  - intros fuel w res w' H. unfold run_benchmark_worker, time_time in H. cbn in H.
    apply while_loop_whole_passes in H as (k & rs & -> & Hqs & Hcalls).
    exists k. rewrite app_nil_l. split; [exact Hqs |].
    cbn in Hcalls. rewrite Hcalls. f_equal.
    rewrite <- (length_map rec_query rs), Hqs.
    clear. induction k as [| k IH]; simpl; [reflexivity |].
    by rewrite length_app, length_map, IH.
  - intros k0 w Hclock.
    cbv beta iota zeta delta [run_benchmark_worker time_time].
    apply (while_loop_terminates INDEX_NAME TEST_DURATION queries time_at k0);
      [exact Hclock | lia | cbn; lia].
Qed.

Lemma C8_witness :
  exists r w',
    run_query "sample-companies" steady_clock failing_client
      "industry-search" JNull "OpenSearch" world0 = (r, w') /\
    r = Failure "OpenSearch" "industry-search" "ConnectionTimeout".
Proof.
  destruct (proj1 (C8_failures_recorded_not_propagated
                     "sample-companies" 0 catalog steady_clock failing_client "OpenSearch")
              "industry-search" JNull world0)
    as (r & w' & Hrun & _ & _ & _ & Hfail & _).
  exists r, w'. split; [exact Hrun |].
  exact (Hfail (OtherException "ConnectionTimeout") eq_refl).
Defined.

End WorkerClaims.

Section ReportClaims.
Import Py Benchmark Report ReportSpec PyFacts ReportFacts Fixtures.

(** C3 (as amended): when the report is produced, every query with
    Elasticsearch statistics gets one neutral Elasticsearch row per metric,
    and exactly the queries with statistics on both backends get one
    OpenSearch comparison row per metric, whose indicator is computed from
    the two values and is neutral exactly when they are equal.  A query with
    OpenSearch statistics only gets no row.  "One row" is exact: the rows of
    the table for a query, a metric and a cluster are that row alone, or
    none.  The float operations of the summary are arbitrary. *)
Theorem C3_comparison_rows_for_common_queries
    (float_add float_div : Q -> Q -> Q) (results : Artifact) (rows : list Row) :
  report_metrics float_add float_div results = Ok rows ->
  forall q m,
    (forall r, In r rows -> metric r = PerQuery q m ->
       (exists e,
          default ∅ (elasticsearch_stats results) !! q = Some e /\
          r = elasticsearch_row q m e) \/
       (exists e a,
          default ∅ (elasticsearch_stats results) !! q = Some e /\
          default ∅ (opensearch_stats results) !! q = Some a /\
          r = comparison_row q m e a)) /\
    (forall e,
       default ∅ (elasticsearch_stats results) !! q = Some e ->
       In (elasticsearch_row q m e) rows /\
       rows_of q m "Elasticsearch" rows = [elasticsearch_row q m e]) /\
    (forall e a,
       default ∅ (elasticsearch_stats results) !! q = Some e ->
       default ∅ (opensearch_stats results) !! q = Some a ->
       In (comparison_row q m e a) rows /\
       rows_of q m "OpenSearch" rows = [comparison_row q m e a] /\
       (status (comparison_row q m e a) = NEUTRAL <->
        (metric_value m e == metric_value m a)%Q)) /\
    (default ∅ (opensearch_stats results) !! q = None ->
     rows_of q m "OpenSearch" rows = []) /\
    (default ∅ (elasticsearch_stats results) !! q = None ->
     (forall r, In r rows -> metric r <> PerQuery q m) /\
     rows_of q m "Elasticsearch" rows = [] /\
     rows_of q m "OpenSearch" rows = []).
Proof.
  intros Hrows q m.
  destruct (report_metrics_inv float_add float_div results rows Hrows) as [Hes Hos].
  destruct (report_metrics_ok float_add float_div results Hes Hos)
    as (x & y & _ & _ & Heq).
  destruct (rows_of_report float_add float_div results rows q m Hrows) as [HE HO].
  split; [intros r Hr Hmetric;
          exact (report_rows_per_query float_add float_div results rows r q m
                   Hrows Hr Hmetric) |].
  assert (Hin : forall r, In r (per_query_rows
                                  (default ∅ (elasticsearch_stats results))
                                  (default ∅ (opensearch_stats results))) ->
                          In r rows).
  { intros r Hr. rewrite Heq in Hrows. injection Hrows as <-.
    apply in_or_app. by left. }
  split.
  { intros e He. split.
    - apply Hin, In_per_query_rows. exists q, m. left. eauto.
    - by rewrite HE, He. }
  split.
  { intros e a He Ha. split; [| split].
    - apply Hin, In_per_query_rows. exists q, m. right. eauto.
    - by rewrite HO, He, Ha.
    - apply get_color_code_neutral. }
  split.
  { intros Hnone. rewrite HO, Hnone.
    by destruct (default ∅ (elasticsearch_stats results) !! q). }
  intros Hnone. split; [| split].
  - intros r Hr Hmetric.
    destruct (report_rows_per_query float_add float_div results rows r q m
                Hrows Hr Hmetric)
      as [(e & He & _) | (e & a & He & _)]; congruence.
  - by rewrite HE, Hnone.
  - by rewrite HO, Hnone.
Qed.

Lemma C3_witness :
  exists rows,
    report_metrics exact_add exact_div common_artifact = Ok rows /\
    In (comparison_row "industry-search" ErrorRate stats_one_error stats_no_error) rows /\
    rows_of "industry-search" ErrorRate "OpenSearch" rows
    = [comparison_row "industry-search" ErrorRate stats_one_error stats_no_error].
Proof.
  destruct (report_metrics_ok exact_add exact_div common_artifact)
    as (x & y & _ & _ & Hrows).
  - apply insert_non_empty.
  - apply insert_non_empty.
  - eexists. split; [exact Hrows |].
    destruct (C3_comparison_rows_for_common_queries exact_add exact_div
                common_artifact _ Hrows "industry-search" ErrorRate)
      as (_ & _ & Hcmp & _).
    destruct (Hcmp stats_one_error stats_no_error) as (Hin & Hone & _).
    + apply lookup_singleton_eq.
    + apply lookup_singleton_eq.
    + split; [exact Hin | exact Hone].
Defined.

(** C3 as stated fails: a query that has statistics in the OpenSearch map
    only is in "either" map, yet the report has no row for it, whatever the
    float operations. *)
Lemma C3_counterexample :
  "complex-search" ∈ dom (default ∅ (elasticsearch_stats disjoint_artifact))
                     ∪ dom (default ∅ (opensearch_stats disjoint_artifact)) /\
  forall float_add float_div,
    exists rows,
      report_metrics float_add float_div disjoint_artifact = Ok rows /\
      forall r m, In r rows -> metric r <> PerQuery "complex-search" m.
Proof.
  assert (Hnone : default ∅ (elasticsearch_stats disjoint_artifact)
                    !! "complex-search" = None).
  { apply lookup_singleton_ne. discriminate. }
  split.
  { apply elem_of_union. right. apply elem_of_dom.
    exists stats_no_error. apply lookup_singleton_eq. }
  intros float_add float_div.
  destruct (report_metrics_ok float_add float_div disjoint_artifact)
    as (x & y & _ & _ & Hrows).
  - apply insert_non_empty.
  - apply insert_non_empty.
  - eexists. split; [exact Hrows |].
    intros r m Hr Hmetric.
    destruct (report_rows_per_query float_add float_div disjoint_artifact _ r
                "complex-search" m Hrows Hr Hmetric)
      as [(e & He & _) | (e & a & He & _)];
      rewrite Hnone in He; discriminate.
Qed.

End ReportClaims.

Section SummaryClaims.
Import Py Benchmark Report ReportSpec PyFacts ReportFacts Fixtures.



End SummaryClaims.

(** ** Configuration *)

Module SetupFacts.
Import Py Benchmark Setup Vocabulary.

Lemma append_cons a s t : String a s +:+ t = String a (s +:+ t).
Proof. reflexivity. Qed.

Lemma append_nil t : "" +:+ t = t.
Proof. reflexivity. Qed.

Lemma prefix_nil s : String.prefix "" s = true.
Proof. by destruct s. Qed.

Lemma prefix_cons a old b s :
  String.prefix (String a old) (String b s)
  = if Ascii.ascii_dec a b then String.prefix old s else false.
Proof. reflexivity. Qed.

Lemma prefix_cons_true a old b s :
  String.prefix (String a old) (String b s) = true -> a = b /\ String.prefix old s = true.
Proof.
  rewrite prefix_cons. destruct (Ascii.ascii_dec a b); [auto | discriminate].
Qed.

Lemma prefix_cons_same a old s :
  String.prefix (String a old) (String a s) = String.prefix old s.
Proof. rewrite prefix_cons. by destruct (Ascii.ascii_dec a a). Qed.

Lemma prefix_cons_diff a old b s :
  a <> b -> String.prefix (String a old) (String b s) = false.
Proof. intros H. rewrite prefix_cons. by destruct (Ascii.ascii_dec a b). Qed.

(** Deleting the slashes leaves none. *)
Lemma replace_slash_slash_free s : slash_free (replace_from "/" "" 0 s).
Proof.
  induction s as [| c s IH]; [exact I |].
  cbn [replace_from]. rewrite prefix_cons.
  destruct (Ascii.ascii_dec _ c) as [Heq | Hne].
  - rewrite prefix_nil. exact IH.
  - split; [| exact IH]. intros ->. by apply Hne.
Qed.

Lemma replace_slash_id s : slash_free s -> replace_from "/" "" 0 s = s.
Proof.
  induction s as [| c s IH]; [reflexivity |]. intros [Hc Hs].
  cbn [replace_from]. rewrite prefix_cons.
  destruct (Ascii.ascii_dec _ c) as [Heq | Hne].
  - exfalso. apply Hc. by rewrite <- Heq.
  - by rewrite IH.
Qed.

(** An occurrence of ["https://"] needs two slashes in a row. *)
Lemma prefix_scheme_slashes s :
  String.prefix "https://" s = true ->
  exists a b c d e f t, s = String a (String b (String c (String d (String e (String f
                          (String slash (String slash t))))))).
Proof.
  intros H.
  do 8 (destruct s as [| ? s]; [discriminate |];
        apply prefix_cons_true in H as [<- H]).
  repeat eexists.
Qed.

Lemma replace_scheme_id s : slash_free s -> replace_from "https://" "" 0 s = s.
Proof.
  induction s as [| c s IH]; [reflexivity |]. intros Hfree.
  cbn [replace_from].
  destruct (String.prefix "https://" (String c s)) eqn:Hp.
  - apply prefix_scheme_slashes in Hp as (a & b & c' & d & e & f & t & Heq).
    rewrite Heq in Hfree. simpl in Hfree. exfalso. tauto.
  - destruct Hfree as [_ Hs]. by rewrite IH.
Qed.

(** Nor is there one in a slash-free name followed by a single slash. *)
Lemma replace_scheme_trailing_slash s :
  slash_free s -> replace_from "https://" "" 0 (s +:+ "/") = s +:+ "/".
Proof.
  induction s as [| c s IH]; [reflexivity |]. intros Hfree.
  change (String c s +:+ "/") with (String c (s +:+ "/")).
  cbn [replace_from].
  destruct (String.prefix "https://" (String c (s +:+ "/"))) eqn:Hp.
  - exfalso. apply prefix_scheme_slashes in Hp as (a & b & c' & d & e & f & t & Heq).
    change (String c (s +:+ "/")) with (String c s +:+ "/") in Heq.
    revert Hfree Heq. generalize (String c s). clear. intros u Hfree Heq.
    do 6 (destruct u as [| ? u]; [discriminate |];
          injection Heq as <- Heq; destruct Hfree as [_ Hfree]).
    destruct u as [| x u]; [discriminate |].
    injection Heq as -> Heq. simpl in Hfree. tauto.
  - destruct Hfree as [_ Hs]. by rewrite IH.
Qed.

End SetupFacts.

Section SetupProperties.
Import Py Benchmark Setup Vocabulary SetupFacts.

Lemma replace_slash_trailing s :
  slash_free s -> replace_from "/" "" 0 (s +:+ "/") = s.
Proof.
  induction s as [| c s IH]; [reflexivity |]. intros [Hc Hs].
  change (String c s +:+ "/") with (String c (s +:+ "/")).
  cbn [replace_from]. rewrite prefix_cons.
  destruct (Ascii.ascii_dec _ c) as [Heq | Hne].
  - exfalso. apply Hc. by rewrite <- Heq.
  - by rewrite IH.
Qed.

(** X1: whatever [OPENSEARCH_HOSTS] is, the host handed to the OpenSearch
    client contains no ['/']. *)
Theorem opensearch_host_slash_free (OPENSEARCH_HOSTS : string) :
  slash_free (opensearch_host OPENSEARCH_HOSTS).
Proof. apply replace_slash_slash_free. Qed.

(** X2: for a host name [h] without ['/'], the URL forms [h],
    ["https://" h] and ["https://" h "/"] all give the host [h]; an
    ["http://"] scheme is not removed, only its slashes are. *)
Theorem opensearch_host_of_url (h : string) :
  slash_free h ->
  opensearch_host h = h /\
  opensearch_host ("https://" +:+ h) = h /\
  opensearch_host ("https://" +:+ h +:+ "/") = h /\
  opensearch_host ("http://" +:+ h) = "http:" +:+ h.
Proof.
  intros Hfree. unfold opensearch_host, str_replace.
  split; [by rewrite replace_scheme_id, replace_slash_id |].
  split.
  { rewrite !append_cons, append_nil. cbn [replace_from String.length Nat.sub].
    rewrite !prefix_cons_same, prefix_nil, append_nil.
    by rewrite replace_scheme_id, replace_slash_id. }
  split.
  { rewrite !append_cons, append_nil. cbn [replace_from String.length Nat.sub].
    rewrite !prefix_cons_same, prefix_nil, append_nil.
    by rewrite replace_scheme_trailing_slash, replace_slash_trailing. }
  rewrite !append_cons, !append_nil. cbn [replace_from].
  rewrite !prefix_cons_same.
  repeat (rewrite prefix_cons_diff by discriminate).
  rewrite replace_scheme_id by exact Hfree.
  cbn [replace_from String.length Nat.sub].
  rewrite !prefix_cons_same, !prefix_nil.
  repeat (rewrite prefix_cons_diff by discriminate).
  rewrite !append_nil. by rewrite replace_slash_id.
Qed.

Lemma opensearch_host_of_url_witness :
  opensearch_host ("https://" +:+ "your-opensearch-cluster.amazonaws.com")
  = "your-opensearch-cluster.amazonaws.com".
Proof.
  refine (proj1 (proj2 (opensearch_host_of_url
                          "your-opensearch-cluster.amazonaws.com" _))).
  cbn [slash_free]. repeat split; discriminate.
Defined.

End SetupProperties.

(** ** Further properties of the load worker *)

Section WorkerProperties.
Import Py Benchmark PyFacts Vocabulary Fixtures.
Variable INDEX_NAME : string.
Variable TEST_DURATION : Z.
Variable queries : list (string * json).
Variable time_at : nat -> Q.

(** X3: how the hit count is read once the backend has answered.  Without a
    ["hits"] key the record is a success with [hits = None]; with
    [hits.total.value] present it is a success carrying that value; but a
    ["hits"] object without ["total"], or whose ["total"] is a plain number,
    turns the answered query into a failure record whose error is the text
    of the [KeyError] or [TypeError]. *)
Theorem run_query_hit_count (client : Client) query_name query_body cluster_name w response :
  client (search_calls w) INDEX_NAME query_body = Ok response ->
  let latency :=
    ((time_at (S (clock_reads w)) - time_at (clock_reads w)) * 1000)%Q in
  let record :=
    fst (run_query INDEX_NAME time_at client query_name query_body cluster_name w) in
  (dict_get response "hits" = None ->
   record = Success cluster_name query_name latency JNull) /\
  (forall h t v,
     dict_get response "hits" = Some (JObj h) ->
     dict_get h "total" = Some (JObj t) ->
     dict_get t "value" = Some v ->
     record = Success cluster_name query_name latency v) /\
  (forall h,
     dict_get response "hits" = Some (JObj h) ->
     dict_get h "total" = None ->
     record = Failure cluster_name query_name "'total'") /\
  (forall h n,
     dict_get response "hits" = Some (JObj h) ->
     dict_get h "total" = Some (JNum n) ->
     record = Failure cluster_name query_name "'int' object is not subscriptable").
Proof.
  intros Hresp latency record.
  pose proof (run_query_cases INDEX_NAME time_at client query_name query_body
                cluster_name w) as H. cbv zeta in H. rewrite Hresp in H.
  assert (Hcase : forall x,
            hits_of response = x ->
            record = match x with
                     | Ok hits => Success cluster_name query_name latency hits
                     | Raise e => Failure cluster_name query_name (str_exc e)
                     end).
  { intros x Hx. unfold record.
    destruct (hits_of response) as [hits | e]; subst x; by rewrite H. }
  unfold hits_of, dict_contains in Hcase. simpl json_getitem in Hcase.
  split; [| split; [| split]].
  - intros H0. apply (Hcase (Ok JNull)). by rewrite H0.
  - intros h t v H0 H1 H2. apply (Hcase (Ok v)).
    rewrite H0. cbn. rewrite H1. cbn. by rewrite H2.
  - intros h H0 H1. apply (Hcase (Raise (KeyError "total"))).
    rewrite H0. cbn. by rewrite H1.
  - intros h n H0 H1.
    apply (Hcase (Raise (TypeError "'int' object is not subscriptable"))).
    rewrite H0. cbn. by rewrite H1.
Qed.

(** One execution prints its diagnostic exactly when it fails, keeps the
    cluster name and, if the clock did not step back, measures a
    non-negative latency. *)
Lemma run_query_effects (client : Client) query_name query_body cluster_name w r w' :
  run_query INDEX_NAME time_at client query_name query_body cluster_name w = (r, w') ->
  stdout w' = stdout w ++ diagnostic r /\
  rec_cluster r = cluster_name /\
  ((forall k, (time_at k <= time_at (S k))%Q) -> latency_nonneg r).
Proof.
  intros Hrun.
  pose proof (run_query_cases INDEX_NAME time_at client query_name query_body
                cluster_name w) as H. cbv zeta in H.
  destruct (client (search_calls w) INDEX_NAME query_body) as [response | e].
  - destruct (hits_of response) as [hits | e]; rewrite H in Hrun;
      injection Hrun as <- <-; cbn.
    + rewrite app_nil_r. repeat split. intros Hmono.
      specialize (Hmono (clock_reads w)). lra.
    + repeat split.
  - rewrite H in Hrun. injection Hrun as <- <-. cbn. repeat split.
Qed.

Lemma for_queries_effects (client : Client) cluster_name items results w res w' :
  for_queries INDEX_NAME time_at client cluster_name items results w = (res, w') ->
  exists rs,
    res = results ++ rs /\
    map rec_query rs = map fst items /\
    stdout w' = stdout w ++ diagnostics rs /\
    Forall (fun r => rec_cluster r = cluster_name) rs /\
    ((forall k, (time_at k <= time_at (S k))%Q) -> Forall latency_nonneg rs).
Proof.
  revert results w. induction items as [| [query_name query_body] items IH];
    intros results w H; simpl in H.
  - injection H as <- <-. exists []. rewrite !app_nil_r.
    repeat split; constructor.
  - destruct (run_query INDEX_NAME time_at client query_name query_body cluster_name w)
      as [r w1] eqn:Hrun.
    destruct (run_query_once INDEX_NAME time_at client query_name query_body
                cluster_name w) as (r0 & w0 & Hrun0 & _ & Hq & _).
    rewrite Hrun in Hrun0. injection Hrun0 as <- <-.
    apply run_query_effects in Hrun as (Hout & Hc & Hlat).
    apply IH in H as (rs & -> & Hqs & Hout' & Hcs & Hlats).
    exists (r :: rs). rewrite <- app_assoc. split; [reflexivity |].
    split; [simpl; by rewrite Hq, Hqs |].
    split; [rewrite Hout', Hout, <- app_assoc; reflexivity |].
    split; [by constructor |].
    intros Hmono. constructor; auto.
Qed.

Lemma while_loop_effects fuel (client : Client) cluster_name start_time results w res w' :
  while_loop INDEX_NAME TEST_DURATION queries time_at fuel client cluster_name
    start_time results w = Some (res, w') ->
  exists k rs,
    res = results ++ rs /\
    map rec_query rs = concat (replicate k (map fst queries)) /\
    stdout w' = stdout w ++ diagnostics rs /\
    Forall (fun r => rec_cluster r = cluster_name) rs /\
    ((forall k, (time_at k <= time_at (S k))%Q) -> Forall latency_nonneg rs).
Proof.
  revert results w. induction fuel as [| fuel IH]; intros results w H; simpl in H;
    [discriminate |].
  destruct (py_lt (time_at (clock_reads w) - start_time) (inject_Z TEST_DURATION)).
  - unfold time_time in H. cbn in H.
    destruct (for_queries INDEX_NAME time_at client cluster_name queries results _)
      as [res1 w1] eqn:Hfor.
    apply for_queries_effects in Hfor as (rs & -> & Hqs & Hout & Hcs & Hlats).
    apply IH in H as (k & rs' & -> & Hqs' & Hout' & Hcs' & Hlats').
    exists (S k), (rs ++ rs'). rewrite <- app_assoc. split; [reflexivity |].
    split; [simpl; by rewrite map_app, Hqs, Hqs' |].
    split.
    { rewrite Hout', Hout. cbn. unfold diagnostics.
      by rewrite flat_map_app, <- app_assoc. }
    split; [by apply Forall_app |].
    intros Hmono. apply Forall_app; auto.
  - injection H as <- <-. exists 0%nat, []. rewrite !app_nil_r. cbn.
    repeat split; constructor.
Qed.

(** X4: everything a worker prints is the diagnostics of its failed records,
    one line per failure in execution order, and nothing for a success. *)
Theorem worker_prints_one_line_per_failure
    fuel (client : Client) cluster_name w res w' :
  run_benchmark_worker INDEX_NAME TEST_DURATION queries time_at fuel
    client cluster_name w = Some (res, w') ->
  stdout w' = stdout w ++ diagnostics res /\
  length (diagnostics res) = length (List.filter (fun r => negb (rec_success r)) res).
Proof.
  intros H. unfold run_benchmark_worker, time_time in H. cbn in H.
  apply while_loop_effects in H as (k & rs & -> & _ & Hout & _).
  rewrite app_nil_l. split; [exact Hout |].
  clear. induction rs as [| [c q l h | c q e] rs IH]; simpl; auto.
Qed.

(** X5: every record of a worker carries the worker's cluster name, and on a
    clock that never steps back no measured latency is negative. *)
Theorem worker_records_cluster_and_latency
    fuel (client : Client) cluster_name w res w' :
  run_benchmark_worker INDEX_NAME TEST_DURATION queries time_at fuel
    client cluster_name w = Some (res, w') ->
  Forall (fun r => rec_cluster r = cluster_name) res /\
  ((forall k, (time_at k <= time_at (S k))%Q) -> Forall latency_nonneg res).
Proof.
  intros H. unfold run_benchmark_worker, time_time in H. cbn in H.
  apply while_loop_effects in H as (k & rs & -> & _ & _ & Hc & Hlat).
  by rewrite app_nil_l.
Qed.

End WorkerProperties.

(** ** Sorting and order statistics under reordering *)

Module OrderFacts.
Import Py PyFacts.

Lemma Qle_bool_Qeq x x' y y' :
  (x == x')%Q -> (y == y')%Q -> Qle_bool x y = Qle_bool x' y'.
Proof.
  intros Hx Hy. destruct (Qle_bool x y) eqn:E, (Qle_bool x' y') eqn:E'; try reflexivity.
  - apply Qle_bool_iff in E. rewrite Hx, Hy in E. apply Qle_bool_iff in E. congruence.
  - apply Qle_bool_iff in E'. rewrite <- Hx, <- Hy in E'. apply Qle_bool_iff in E'.
    congruence.
Qed.

Lemma Forall2_Qeq_refl l : Forall2 Qeq l l.
Proof. induction l; constructor; [reflexivity | assumption]. Qed.

Lemma Forall2_Qeq_trans l1 l2 l3 :
  Forall2 Qeq l1 l2 -> Forall2 Qeq l2 l3 -> Forall2 Qeq l1 l3.
Proof.
  intros H. revert l3. induction H as [| x y l1 l2 Hxy H IH]; intros l3 H3.
  - inversion H3. constructor.
  - inversion H3 as [| y' z l2' l3' Hyz H3']; subst. constructor.
    + by rewrite Hxy.
    + by apply IH.
Qed.

Lemma insert_sorted_Qeq x x' l l' :
  (x == x')%Q -> Forall2 Qeq l l' ->
  Forall2 Qeq (insert_sorted x l) (insert_sorted x' l').
Proof.
  intros Hx H. induction H as [| y y' l l' Hy H IH]; simpl.
  - by repeat constructor.
  - rewrite (Qle_bool_Qeq x x' y y' Hx Hy).
    destruct (Qle_bool x' y'); repeat constructor; assumption.
Qed.

Lemma insert_sorted_swap x y l :
  Forall2 Qeq (insert_sorted x (insert_sorted y l)) (insert_sorted y (insert_sorted x l)).
Proof.
  induction l as [| z l IH]; simpl.
  - destruct (Qle_bool x y) eqn:Exy, (Qle_bool y x) eqn:Eyx; simpl;
      try apply Forall2_Qeq_refl.
    + apply Qle_bool_iff in Exy, Eyx.
      assert (x == y)%Q by (by apply Qle_antisym).
      repeat constructor; [assumption | by symmetry].
    + exfalso.
      assert (~ (x <= y)%Q) by (rewrite <- Qle_bool_iff; congruence).
      assert (~ (y <= x)%Q) by (rewrite <- Qle_bool_iff; congruence).
      destruct (Qlt_le_dec x y) as [Hlt | Hle]; [apply Qlt_le_weak in Hlt |]; tauto.
  - destruct (Qle_bool y z) eqn:Eyz, (Qle_bool x z) eqn:Exz; simpl;
      rewrite ?Eyz, ?Exz.
    + destruct (Qle_bool x y) eqn:Exy, (Qle_bool y x) eqn:Eyx; simpl;
        rewrite ?Eyz, ?Exz; try apply Forall2_Qeq_refl.
      * apply Qle_bool_iff in Exy, Eyx.
        assert (x == y)%Q by (by apply Qle_antisym).
        constructor; [assumption |]. constructor; [by symmetry |].
        apply Forall2_Qeq_refl.
      * exfalso.
        assert (~ (x <= y)%Q) by (rewrite <- Qle_bool_iff; congruence).
        assert (~ (y <= x)%Q) by (rewrite <- Qle_bool_iff; congruence).
        destruct (Qlt_le_dec x y) as [Hlt | Hle]; [apply Qlt_le_weak in Hlt |]; tauto.
    + assert (Hxy : Qle_bool x y = false).
      { destruct (Qle_bool x y) eqn:Exy; [| reflexivity].
        apply Qle_bool_iff in Exy, Eyz.
        assert (Qle_bool x z = true)
          by (apply Qle_bool_iff; eapply Qle_trans; eassumption).
        congruence. }
      rewrite Hxy. simpl. rewrite ?Exz. apply Forall2_Qeq_refl.
    + assert (Hyx : Qle_bool y x = false).
      { destruct (Qle_bool y x) eqn:Eyx; [| reflexivity].
        apply Qle_bool_iff in Eyx, Exz.
        assert (Qle_bool y z = true)
          by (apply Qle_bool_iff; eapply Qle_trans; eassumption).
        congruence. }
      rewrite Hyx. simpl. rewrite ?Eyz. apply Forall2_Qeq_refl.
    + constructor; [reflexivity | exact IH].
Qed.

(** Sorting forgets the order of its input, up to numeric equality of the
    elements. *)
Lemma sorted_Permutation l l' :
  l ≡ₚ l' -> Forall2 Qeq (sorted l) (sorted l').
Proof.
  induction 1 as [| x l l' _ IH | x y l | l1 l2 l3 _ IH1 _ IH2]; simpl.
  - constructor.
  - by apply insert_sorted_Qeq.
  - apply insert_sorted_swap.
  - eapply Forall2_Qeq_trans; eassumption.
Qed.

Lemma Forall2_Qeq_nth_error l l' i x x' :
  Forall2 Qeq l l' ->
  nth_error l i = Some x -> nth_error l' i = Some x' -> (x == x')%Q.
Proof.
  intros H. revert i. induction H as [| y y' l l' Hy H IH]; intros [| i] Hx Hx';
    simpl in *; try discriminate.
  - injection Hx as <-. injection Hx' as <-. exact Hy.
  - eapply IH; eassumption.
Qed.

Lemma sorted_Permutation_nth_error l l' i x x' :
  l ≡ₚ l' ->
  nth_error (sorted l) i = Some x -> nth_error (sorted l') i = Some x' -> (x == x')%Q.
Proof. intros H. apply Forall2_Qeq_nth_error. by apply sorted_Permutation. Qed.

Lemma py_min_Permutation l l' m m' :
  l ≡ₚ l' -> py_min l = Ok m -> py_min l' = Ok m' -> (m == m')%Q.
Proof.
  intros H Hm Hm'.
  assert (Hlen : length l = length l') by (by apply Permutation_length).
  destruct (nth_error (sorted l) 0) as [x |] eqn:Hx.
  2:{ apply nth_error_None in Hx. rewrite sorted_length in Hx.
      destruct l; [discriminate | simpl in Hx; lia]. }
  destruct (nth_error (sorted l') 0) as [x' |] eqn:Hx'.
  2:{ apply nth_error_None in Hx'. rewrite sorted_length in Hx'.
      destruct l'; [discriminate | simpl in Hx'; lia]. }
  rewrite (py_min_sorted _ _ _ Hm Hx), (py_min_sorted _ _ _ Hm' Hx').
  eapply sorted_Permutation_nth_error; eassumption.
Qed.

Lemma py_max_Permutation l l' m m' :
  l ≡ₚ l' -> py_max l = Ok m -> py_max l' = Ok m' -> (m == m')%Q.
Proof.
  intros H Hm Hm'.
  assert (Hlen : length l = length l') by (by apply Permutation_length).
  destruct (nth_error (sorted l) (length l - 1)) as [x |] eqn:Hx.
  2:{ apply nth_error_None in Hx. rewrite sorted_length in Hx.
      destruct l; [discriminate | simpl in Hx; lia]. }
  destruct (nth_error (sorted l') (length l' - 1)) as [x' |] eqn:Hx'.
  2:{ apply nth_error_None in Hx'. rewrite sorted_length in Hx'.
      destruct l'; [discriminate | simpl in Hx'; lia]. }
  rewrite (py_max_sorted _ _ _ Hm Hx), (py_max_sorted _ _ _ Hm' Hx').
  rewrite <- Hlen in Hx'.
  eapply sorted_Permutation_nth_error; eassumption.
Qed.

End OrderFacts.

(** ** Further properties of the aggregator *)

Module AggregatorMore.
Import Py PyFloat Benchmark PyFloatFacts PyFacts AggregatorFacts OrderFacts Vocabulary.

Lemma filter_Permutation {A} (f : A -> bool) l l' :
  l ≡ₚ l' -> List.filter f l ≡ₚ List.filter f l'.
Proof.
  induction 1 as [| x l l' _ IH | x y l | l1 l2 l3 _ IH1 _ IH2]; simpl.
  - constructor.
  - destruct (f x); [by constructor | exact IH].
  - destruct (f x), (f y); try reflexivity. apply perm_swap.
  - etransitivity; eassumption.
Qed.

Lemma latencies_of_Permutation rs rs' :
  rs ≡ₚ rs' -> latencies_of rs ≡ₚ latencies_of rs'.
Proof. apply Permutation_flat_map. Qed.

Lemma records_for_Permutation results results' cluster_name q :
  results ≡ₚ results' ->
  records_for results cluster_name q ≡ₚ records_for results' cluster_name q.
Proof. intros H. by do 2 apply filter_Permutation. Qed.

Lemma successes_exist qr :
  List.filter rec_success qr <> [] <-> exists r, In r qr /\ rec_success r = true.
Proof.
  split.
  - destruct (List.filter rec_success qr) as [| r l] eqn:E; [congruence |]. intros _.
    assert (Hr : In r (List.filter rec_success qr)) by (rewrite E; by left).
    apply filter_In in Hr. eauto.
  - intros (r & Hr & Hs) E.
    assert (Hin : In r (List.filter rec_success qr)) by (apply filter_In; auto).
    rewrite E in Hin. contradiction.
Qed.

Lemma In_records_for results cluster_name q r :
  In r (records_for results cluster_name q) <->
  In r results /\ rec_cluster r = cluster_name /\ rec_query r = q.
Proof.
  unfold records_for, records_of_query, records_of_cluster.
  rewrite !filter_In, !String.eqb_eq. tauto.
Qed.

Lemma length_filter_partition {A} (f : A -> bool) l :
  length l = (length (List.filter f l)
              + length (List.filter (fun x => negb (f x)) l))%nat.
Proof.
  induction l as [| x l IH]; simpl; [reflexivity |].
  destruct (f x); simpl; lia.
Qed.

Section Entries.
Variable TEST_DURATION : Z.
Variable queries : list (string * json).

(** The entry of a query does not depend on the order of its records: the
    counts are the same and the order statistics compare equal. *)
Lemma query_stats_Permutation qr qr' :
  qr ≡ₚ qr' ->
  match query_stats TEST_DURATION qr, query_stats TEST_DURATION qr' with
  | Ok (Some s), Ok (Some s') => same_but_avg s s'
  | Ok None, Ok None => True
  | Raise e, Raise e' => e = e'
  | _, _ => False
  end.
Proof.
  intros Hperm.
  pose proof (filter_Permutation rec_success _ _ Hperm) as Hsr.
  pose proof (latencies_of_Permutation _ _ Hperm) as Hlat.
  pose proof (Permutation_length Hperm) as Hlen.
  pose proof (Permutation_length Hsr) as Hlensr.
  pose proof (Permutation_length Hlat) as Hlenlat.
  assert (Hcase : List.filter rec_success qr = [] \/ List.filter rec_success qr <> []).
  { destruct (List.filter rec_success qr); [by left | by right]. }
  destruct Hcase as [E | E].
  - assert (E' : List.filter rec_success qr' = []).
    { rewrite E in Hsr. by apply Permutation_nil in Hsr. }
    apply (query_stats_none TEST_DURATION) in E, E'. by rewrite E, E'.
  - assert (E' : List.filter rec_success qr' <> []).
    { intros E'. rewrite E' in Hlensr. destruct (List.filter rec_success qr);
        [congruence | discriminate]. }
    destruct (query_stats_reduce TEST_DURATION qr E)
      as (lo & hi & p95 & p99 & Hlo & Hhi & H95 & H99 & Hq).
    destruct (query_stats_reduce TEST_DURATION qr' E')
      as (lo' & hi' & p95' & p99' & Hlo' & Hhi' & H95' & H99' & Hq').
    rewrite Hq, Hq'. rewrite <- Hlen, <- Hlenlat, <- Hlensr.
    unfold py_truediv. destruct (Qeq_bool (inject_Z TEST_DURATION) 0); cbn [bind];
      [reflexivity |].
    rewrite <- Hlenlat in H95', H99'.
    repeat split; cbn; try reflexivity.
    + eapply py_min_Permutation; eassumption.
    + eapply py_max_Permutation; eassumption.
    + eapply sorted_Permutation_nth_error; eassumption.
    + eapply sorted_Permutation_nth_error; eassumption.
Qed.

End Entries.

End AggregatorMore.

Section AggregatorProperties.
Import Py PyFloat Benchmark PyFloatFacts PyFacts AggregatorFacts OrderFacts
       AggregatorMore Vocabulary.
Variable TEST_DURATION : Z.
Variable queries : list (string * json).

Lemma for_query_names_Permutation names cr cr' acc acc' :
  cr ≡ₚ cr' ->
  (forall q, match acc !! q, acc' !! q with
             | Some s, Some s' => same_but_avg s s'
             | None, None => True
             | _, _ => False
             end) ->
  match for_query_names TEST_DURATION names cr acc,
        for_query_names TEST_DURATION names cr' acc' with
  | Ok m, Ok m' =>
      forall q, match m !! q, m' !! q with
                | Some s, Some s' => same_but_avg s s'
                | None, None => True
                | _, _ => False
                end
  | Raise e, Raise e' => e = e'
  | _, _ => False
  end.
Proof.
  intros Hperm. revert acc acc'.
  induction names as [| n names IH]; intros acc acc' Hacc; simpl; [exact Hacc |].
  pose proof (query_stats_Permutation TEST_DURATION
                (records_of_query cr n) (records_of_query cr' n)
                (filter_Permutation _ _ _ Hperm)) as Hn.
  destruct (query_stats TEST_DURATION (records_of_query cr n)) as [[s |] | e],
           (query_stats TEST_DURATION (records_of_query cr' n)) as [[s' |] | e'];
    try contradiction; cbn [bind]; [| by apply IH | exact Hn].
  apply IH. intros q. destruct (decide (q = n)) as [-> | Hne].
  - by rewrite !lookup_insert_eq.
  - rewrite !lookup_insert_ne by done. apply Hacc.
Qed.

(** X7: the statistics do not depend on the order of the records, hence not
    on the order in which the workers finish: for a reordered collection the
    aggregator fails or succeeds alike and gives each query the same counts
    and numerically equal error rate, minimum, maximum, percentiles and
    throughput.  (The mean is left out: it is a floating-point sum.) *)
Theorem calculate_stats_order_independent results results' cluster_name :
  results ≡ₚ results' ->
  match calculate_stats TEST_DURATION queries results cluster_name,
        calculate_stats TEST_DURATION queries results' cluster_name with
  | Ok m, Ok m' =>
      forall q, match m !! q, m' !! q with
                | Some s, Some s' => same_but_avg s s'
                | None, None => True
                | _, _ => False
                end
  | Raise e, Raise e' => e = e'
  | _, _ => False
  end.
Proof.
  intros Hperm. unfold calculate_stats.
  apply for_query_names_Permutation.
  - by apply filter_Permutation.
  - intros q. by rewrite lookup_empty.
Qed.

Lemma for_query_names_ext names cr cr' acc :
  (forall q, q ∈ names -> records_of_query cr q = records_of_query cr' q) ->
  for_query_names TEST_DURATION names cr acc
  = for_query_names TEST_DURATION names cr' acc.
Proof.
  revert acc. induction names as [| n names IH]; intros acc H; simpl; [reflexivity |].
  rewrite (H n) by apply list_elem_of_here.
  destruct (query_stats TEST_DURATION (records_of_query cr' n)) as [e | x];
    cbn [bind]; [| reflexivity].
  apply IH. intros q Hq. apply H. by apply list_elem_of_further.
Qed.

Lemma filter_nil_iff {A} (f : A -> bool) l :
  List.filter f l = [] <-> forall x, In x l -> f x = false.
Proof.
  induction l as [| x l IH]; simpl; [tauto |].
  destruct (f x) eqn:E.
  - split; [discriminate |]. intros H. specialize (H x (or_introl eq_refl)). congruence.
  - rewrite IH. split; [intros H y [<- | Hy]; auto | auto].
Qed.

(** X8: records of another cluster, and records of a query that is not in
    the catalog, never influence the statistics of a cluster. *)
Theorem calculate_stats_ignores_foreign_records results extra cluster_name :
  (forall r, In r extra ->
     rec_cluster r <> cluster_name \/ rec_query r ∉ map fst queries) ->
  calculate_stats TEST_DURATION queries (results ++ extra) cluster_name
  = calculate_stats TEST_DURATION queries results cluster_name.
Proof.
  intros Hextra. unfold calculate_stats. apply for_query_names_ext.
  intros q Hq. unfold records_of_cluster, records_of_query.
  rewrite !List.filter_app.
  assert (Hnil : List.filter (fun r => String.eqb (rec_query r) q)
                   (List.filter (fun r => String.eqb (rec_cluster r) cluster_name)
                      extra) = []).
  { apply filter_nil_iff. intros r Hr. apply filter_In in Hr as [Hr Hc].
    apply String.eqb_eq in Hc. apply String.eqb_neq. intros Heq. subst q.
    destruct (Hextra r Hr) as [Hne | Hnotin]; contradiction. }
  by rewrite Hnil, app_nil_r.
Qed.

Lemma for_query_names_zero_duration names cr acc q :
  TEST_DURATION = 0%Z -> q ∈ names ->
  List.filter rec_success (records_of_query cr q) <> [] ->
  for_query_names TEST_DURATION names cr acc = Raise ZeroDivisionError.
Proof.
  intros HD. revert acc. induction names as [| n names IH]; intros acc Hq Hs; simpl.
  - by apply elem_of_nil in Hq.
  - destruct (query_stats TEST_DURATION (records_of_query cr n)) as [e | x] eqn:E;
      cbn [bind].
    + apply elem_of_cons in Hq as [-> | Hq]; [| by apply IH].
      destruct (query_stats_reduce TEST_DURATION (records_of_query cr n) Hs)
        as (lo & hi & p95 & p99 & _ & _ & _ & _ & Hred).
      rewrite Hred, py_truediv_zero in E by (by rewrite inject_Z_eq0).
      discriminate.
    + apply query_stats_raise in E as [-> _]. reflexivity.
Qed.

(** X9: the only way the aggregator fails is the division by a zero
    [TEST_DURATION], and it does fail then as soon as one catalog query has
    a successful record of the cluster. *)
Theorem calculate_stats_raises_iff results cluster_name e :
  calculate_stats TEST_DURATION queries results cluster_name = Raise e <->
  e = ZeroDivisionError /\ TEST_DURATION = 0%Z /\
  exists r, In r results /\ rec_cluster r = cluster_name /\
            rec_query r ∈ map fst queries /\ rec_success r = true.
Proof.
  split.
  - intros H.
    destruct (for_query_names_raise _ _ _ _ _ H) as [-> HD].
    split; [reflexivity |]. split; [exact HD |].
    assert (Hex : exists q, q ∈ map fst queries /\
              List.filter rec_success (records_for results cluster_name q) <> []).
    { unfold calculate_stats in H. revert H.
      generalize (∅ : gmap string QueryStats).
      induction (map fst queries) as [| n names IH]; intros acc H; simpl in H;
        [discriminate |].
      destruct (query_stats TEST_DURATION
                  (records_of_query (records_of_cluster results cluster_name) n))
        as [x | x] eqn:E; cbn [bind] in H.
      - destruct (IH _ H) as (q & Hq & Hs). exists q.
        split; [by apply list_elem_of_further | exact Hs].
      - apply query_stats_raise in E as (_ & _ & Hs). exists n.
        split; [apply list_elem_of_here | exact Hs]. }
    destruct Hex as (q & Hq & Hs).
    apply successes_exist in Hs as (r & Hr & Hsucc).
    apply In_records_for in Hr as (Hr & Hc & <-). eauto 10.
  - intros (-> & HD & r & Hr & Hc & Hq & Hs).
    apply (for_query_names_zero_duration _ _ _ (rec_query r) HD Hq).
    apply successes_exist. exists r. split; [| exact Hs].
    by apply In_records_for.
Qed.

Lemma success_of_entry results cluster_name m q :
  calculate_stats TEST_DURATION queries results cluster_name = Ok m ->
  is_Some (m !! q) ->
  q ∈ map fst queries /\
  exists r, In r results /\ rec_cluster r = cluster_name /\
            rec_query r = q /\ rec_success r = true.
Proof.
  intros Hm [s Hs]. apply (calculate_stats_lookup _ _ _ _ _ _ _ Hm) in Hs as [Hq Hs].
  split; [exact Hq |].
  apply query_stats_inv in Hs as (Hsr & _).
  apply successes_exist in Hsr as (r & Hr & Hsucc).
  apply In_records_for in Hr as (Hr & Hc & Hrq). eauto 10.
Qed.

Lemma entry_of_success results cluster_name m r :
  calculate_stats TEST_DURATION queries results cluster_name = Ok m ->
  In r results -> rec_cluster r = cluster_name ->
  rec_query r ∈ map fst queries -> rec_success r = true ->
  is_Some (m !! rec_query r).
Proof.
  intros Hm Hr Hc Hq Hsucc.
  assert (Hsr : List.filter rec_success
                  (records_for results cluster_name (rec_query r)) <> []).
  { apply successes_exist. exists r. split; [| exact Hsucc].
    by apply In_records_for. }
  assert (HD : TEST_DURATION <> 0%Z).
  { intros HD.
    pose proof (for_query_names_zero_duration (map fst queries)
                  (records_of_cluster results cluster_name) ∅ (rec_query r)
                  HD Hq Hsr) as Hraise.
    unfold calculate_stats in Hm. congruence. }
  destruct (query_stats_total TEST_DURATION
              (records_for results cluster_name (rec_query r)) HD) as [[s |] Hs].
  - exists s. apply (calculate_stats_lookup _ _ _ _ _ _ _ Hm). by split.
  - apply query_stats_none in Hs. contradiction.
Qed.

(** X10: which queries have an entry: exactly the catalog queries with at
    least one successful record of the cluster. *)
Theorem calculate_stats_domain results cluster_name m q :
  calculate_stats TEST_DURATION queries results cluster_name = Ok m ->
  (is_Some (m !! q) <->
   q ∈ map fst queries /\
   exists r, In r results /\ rec_cluster r = cluster_name /\
             rec_query r = q /\ rec_success r = true).
Proof.
  intros Hm. split.
  - by apply success_of_entry.
  - intros (Hq & r & Hr & Hc & <- & Hsucc). by eapply entry_of_success.
Qed.

(** X11: in every entry [successful_requests] counts the successful records
    of the query and [total_requests - successful_requests] the failed
    ones. *)
Theorem entry_counts_partition results cluster_name m q s :
  calculate_stats TEST_DURATION queries results cluster_name = Ok m ->
  m !! q = Some s ->
  successful_requests s
  = length (List.filter rec_success (records_for results cluster_name q)) /\
  (total_requests s
   = successful_requests s
     + length (List.filter (fun r => negb (rec_success r))
                 (records_for results cluster_name q)))%nat.
Proof.
  intros Hm Hs. apply (calculate_stats_lookup _ _ _ _ _ _ _ Hm) in Hs as [_ Hs].
  apply query_stats_inv in Hs as (_ & _ & Ht & Hk & _).
  split; [exact Hk |]. rewrite Ht, Hk. apply length_filter_partition.
Qed.

(** X12: the order statistics of an entry are nested,
    [min <= p95 <= p99 <= max], and every successful latency of the query
    lies between [min_latency] and [max_latency]. *)
Theorem entry_latency_bounds results cluster_name m q s :
  calculate_stats TEST_DURATION queries results cluster_name = Ok m ->
  m !! q = Some s ->
  (min_latency s <= p95_latency s)%Q /\
  (p95_latency s <= p99_latency s)%Q /\
  (p99_latency s <= max_latency s)%Q /\
  Forall (fun l => (min_latency s <= l)%Q /\ (l <= max_latency s)%Q)
         (latencies_of (records_for results cluster_name q)).
Proof.
  intros Hm Hs. apply (calculate_stats_lookup _ _ _ _ _ _ _ Hm) in Hs as [_ Hs].
  apply query_stats_inv in Hs
    as (_ & _ & _ & _ & _ & _ & _ & Hmin & Hmax & H95 & H99 & _).
  apply py_min_spec in Hmin as [_ Hmin]. apply py_max_spec in Hmax as [_ Hmax].
  rewrite Forall_forall in Hmin, Hmax.
  split.
  { apply Hmin, list_elem_of_In, In_sorted. eapply nth_error_In; eassumption. }
  split.
  { eapply sorted_nth_error_le; [| exact H95 | exact H99].
    apply int_mul_0_95_le_0_99. }
  split.
  { apply Hmax, list_elem_of_In, In_sorted. eapply nth_error_In; eassumption. }
  apply Forall_forall. intros l Hl. split; [by apply Hmin | by apply Hmax].
Qed.

(** X13: with at most twenty successful samples the 95th percentile is the
    maximum. *)
Theorem p95_is_max_up_to_20 results cluster_name m q s :
  calculate_stats TEST_DURATION queries results cluster_name = Ok m ->
  m !! q = Some s ->
  (successful_requests s <= 20)%nat ->
  (p95_latency s == max_latency s)%Q.
Proof.
  intros Hm Hs Hsmall.
  apply (calculate_stats_lookup _ _ _ _ _ _ _ Hm) in Hs as [_ Hs].
  apply query_stats_inv in Hs
    as (Hsr & _ & _ & Hk & Hlen & _ & _ & _ & Hmax & H95 & _).
  set (lat := latencies_of
                (records_of_query (records_of_cluster results cluster_name) q)) in *.
  assert (Hpos : (1 <= length lat)%nat).
  { rewrite Hlen. destruct (List.filter rec_success _); [congruence | simpl; lia]. }
  assert (Hidx : int_mul_0_95 (length lat) = (length lat - 1)%nat).
  { rewrite int_mul_0_95_floor by lia.
    assert (H : (19 * length lat
                 = (length lat - 1) * 20 + (20 - length lat))%nat) by lia.
    rewrite H, Nat.div_add_l by lia. rewrite Nat.div_small by lia. lia. }
  rewrite Hidx in H95. symmetry. exact (py_max_sorted _ _ _ Hmax H95).
Qed.

End AggregatorProperties.

(** ** The runner's merge and the balance of the load *)

Section RunnerProperties.
Import Py Benchmark PyFacts AggregatorFacts AggregatorMore Vocabulary.

Lemma extend_all_from (completed : list (list OutcomeRecord)) acc :
  fold_left (fun results r => results ++ r) completed acc = acc ++ concat completed.
Proof.
  revert acc. induction completed as [| r rs IH]; intros acc; simpl.
  - by rewrite app_nil_r.
  - by rewrite IH, app_assoc.
Qed.

Lemma concat_Permutation {A} (ls ls' : list (list A)) :
  ls ≡ₚ ls' -> concat ls ≡ₚ concat ls'.
Proof.
  induction 1 as [| x l l' _ IH | x y l | l1 l2 l3 _ IH1 _ IH2]; simpl.
  - constructor.
  - by apply Permutation_app_head.
  - rewrite !app_assoc. apply Permutation_app_tail, Permutation_app_comm.
  - etransitivity; eassumption.
Qed.

Lemma extend_all_eq_concat (completed : list (list OutcomeRecord)) :
  extend_all completed = concat completed.
Proof. unfold extend_all. by rewrite extend_all_from. Qed.

(** X14: the merged collection is the concatenation of the workers' records
    in completion order: no record is lost or repeated, and another
    completion order only permutes the collection. *)
Theorem extend_all_concat (completed completed' : list (list OutcomeRecord)) :
  extend_all completed = concat completed /\
  length (extend_all completed) = list_sum (map (@length _) completed) /\
  (completed ≡ₚ completed' -> extend_all completed ≡ₚ extend_all completed').
Proof.
  rewrite !extend_all_eq_concat. split; [reflexivity |]. split.
  - clear. induction completed as [| r rs IH]; simpl; [reflexivity |].
    by rewrite length_app, IH.
  - apply concat_Permutation.
Qed.

Lemma extend_all_concat_witness :
  extend_all [[Failure "OpenSearch" "complex-search" "ConnectionTimeout"];
              [Success "OpenSearch" "complex-search" 11 JNull]]
  ≡ₚ extend_all [[Success "OpenSearch" "complex-search" 11 JNull];
                 [Failure "OpenSearch" "complex-search" "ConnectionTimeout"]].
Proof.
  refine (proj2 (proj2 (extend_all_concat _ _)) _). apply perm_swap.
Defined.

Lemma length_filter_query_map (rs : list OutcomeRecord) q :
  length (List.filter (fun r => String.eqb (rec_query r) q) rs)
  = length (List.filter (fun n => String.eqb n q) (map rec_query rs)).
Proof.
  induction rs as [| r rs IH]; simpl; [reflexivity |].
  destruct (String.eqb (rec_query r) q); simpl; by rewrite IH.
Qed.

Lemma length_filter_concat_replicate (names : list string) q k :
  length (List.filter (fun n => String.eqb n q) (concat (replicate k names)))
  = (k * length (List.filter (fun n => String.eqb n q) names))%nat.
Proof.
  induction k as [| k IH]; simpl; [reflexivity |].
  by rewrite List.filter_app, length_app, IH.
Qed.

Lemma length_filter_NoDup (names : list string) q :
  NoDup names -> q ∈ names ->
  length (List.filter (fun n => String.eqb n q) names) = 1%nat.
Proof.
  induction 1 as [| n names Hn Hnd IH]; intros Hq.
  - by apply elem_of_nil in Hq.
  - simpl. destruct (String.eqb n q) eqn:E.
    + apply String.eqb_eq in E. subst n. simpl. f_equal.
      assert (Hnil : List.filter (fun n => String.eqb n q) names = []).
      { apply filter_nil_iff. intros x Hx. apply String.eqb_neq. intros ->.
        apply Hn. by apply list_elem_of_In. }
      by rewrite Hnil.
    + apply String.eqb_neq in E. apply elem_of_cons in Hq as [-> | Hq];
        [congruence | by apply IH].
Qed.

Lemma filter_cluster_id (rs : list OutcomeRecord) cluster_name :
  Forall (fun r => rec_cluster r = cluster_name) rs ->
  records_of_cluster rs cluster_name = rs.
Proof.
  induction 1 as [| r rs Hr _ IH]; [reflexivity |].
  unfold records_of_cluster in *. cbn [List.filter].
  rewrite Hr, String.eqb_refl. f_equal. exact IH.
Qed.

Lemma worker_counts INDEX_NAME TEST_DURATION queries cluster_name res :
  NoDup (map fst queries) ->
  produced_by_worker INDEX_NAME TEST_DURATION queries cluster_name res ->
  exists k, forall q, q ∈ map fst queries ->
                      length (records_for res cluster_name q) = k.
Proof.
  intros Hnd (time_at & fuel & client & w & w' & H).
  unfold run_benchmark_worker, time_time in H. cbn in H.
  apply while_loop_effects in H as (k & rs & -> & Hqs & _ & Hc & _).
  rewrite app_nil_l. exists k. intros q Hq.
  unfold records_for. rewrite (filter_cluster_id _ _ Hc).
  unfold records_of_query.
  rewrite length_filter_query_map, Hqs, length_filter_concat_replicate.
  rewrite (length_filter_NoDup _ _ Hnd Hq). lia.
Qed.

(** X15: the load is balanced.  Workers execute whole passes only, so in
    the merged records of a run every catalog query has the same number of
    records; hence all entries of that backend's statistics show the same
    [total_requests]. *)
Theorem merged_load_is_balanced
    INDEX_NAME TEST_DURATION queries cluster_name
    (completed : list (list OutcomeRecord)) q1 q2 :
  NoDup (map fst queries) ->
  Forall (produced_by_worker INDEX_NAME TEST_DURATION queries cluster_name) completed ->
  q1 ∈ map fst queries -> q2 ∈ map fst queries ->
  length (records_for (extend_all completed) cluster_name q1)
  = length (records_for (extend_all completed) cluster_name q2) /\
  forall m s1 s2,
    calculate_stats TEST_DURATION queries (extend_all completed) cluster_name = Ok m ->
    m !! q1 = Some s1 -> m !! q2 = Some s2 ->
    total_requests s1 = total_requests s2.
Proof.
  intros Hnd Hall Hq1 Hq2.
  assert (Hlen : length (records_for (extend_all completed) cluster_name q1)
                 = length (records_for (extend_all completed) cluster_name q2)).
  { rewrite extend_all_eq_concat.
    induction Hall as [| res rest Hres _ IH]; [reflexivity |].
    simpl. rewrite !records_for_app, !length_app, IH. f_equal.
    destruct (worker_counts _ _ _ _ _ Hnd Hres) as [k Hk].
    by rewrite (Hk q1 Hq1), (Hk q2 Hq2). }
  split; [exact Hlen |].
  intros m s1 s2 Hm Hs1 Hs2.
  apply (calculate_stats_lookup _ _ _ _ _ _ _ Hm) in Hs1 as [_ Hs1].
  apply (calculate_stats_lookup _ _ _ _ _ _ _ Hm) in Hs2 as [_ Hs2].
  apply query_stats_inv in Hs1 as (_ & _ & Ht1 & _).
  apply query_stats_inv in Hs2 as (_ & _ & Ht2 & _).
  rewrite Ht1, Ht2. exact Hlen.
Qed.

End RunnerProperties.

(** ** Further properties of the report *)

Section ReportProperties.
Import Py Benchmark Report ReportSpec PyFacts ReportFacts AggregatorFacts
       AggregatorMore Setup Vocabulary.

Lemma report_metrics_raise float_add float_div (results : Artifact) :
  default ∅ (elasticsearch_stats results) = ∅ \/
  default ∅ (opensearch_stats results) = ∅ ->
  report_metrics float_add float_div results = Raise ZeroDivisionError.
Proof.
  intros H. unfold report_metrics, summary_rows.
  destruct (overall_error_rate float_add float_div (elasticsearch_keys results)
              (default ∅ (elasticsearch_stats results)))
    as [x | e] eqn:Ex.
  - destruct H as [H | H].
    + rewrite H, overall_error_rate_empty in Ex. discriminate.
    + cbn [bind]. rewrite H, overall_error_rate_empty. reflexivity.
  - cbn [bind]. by rewrite (overall_error_rate_raise _ _ _ _ _ Ex).
Qed.

Lemma stats_maps_cases (results : Artifact) :
  (default ∅ (elasticsearch_stats results) = ∅ \/
   default ∅ (opensearch_stats results) = ∅) \/
  (default ∅ (elasticsearch_stats results) <> ∅ /\
   default ∅ (opensearch_stats results) <> ∅).
Proof.
  destruct (decide (default ∅ (elasticsearch_stats results) = ∅));
    destruct (decide (default ∅ (opensearch_stats results) = ∅)); tauto.
Qed.

Lemma report_metrics_raise_inv float_add float_div (results : Artifact) :
  report_metrics float_add float_div results = Raise ZeroDivisionError ->
  default ∅ (elasticsearch_stats results) = ∅ \/
  default ∅ (opensearch_stats results) = ∅.
Proof.
  intros H. destruct (stats_maps_cases results) as [Hc | [Hes Hos]]; [exact Hc |].
  destruct (report_metrics_ok float_add float_div results Hes Hos)
    as (x & y & _ & _ & Hok).
  rewrite Hok in H. discriminate.
Qed.

(** X16: the report script aborts exactly when one of the two statistics
    maps is empty or missing, and then with the division by zero of the
    overall error rate; otherwise it produces its table.  This holds
    whatever the float operations of the summary round to. *)
Theorem report_aborts_iff_empty_stats
    (float_add float_div : Q -> Q -> Q) (results : Artifact) :
  (report_metrics float_add float_div results = Raise ZeroDivisionError <->
   default ∅ (elasticsearch_stats results) = ∅ \/
   default ∅ (opensearch_stats results) = ∅) /\
  (forall e, report_metrics float_add float_div results = Raise e ->
             e = ZeroDivisionError) /\
  ((exists rows, report_metrics float_add float_div results = Ok rows) <->
   default ∅ (elasticsearch_stats results) <> ∅ /\
   default ∅ (opensearch_stats results) <> ∅).
Proof.
  split; [| split].
  - split; [apply report_metrics_raise_inv | apply report_metrics_raise].
  - intros e H. destruct (stats_maps_cases results) as [Hc | [Hes Hos]].
    + rewrite (report_metrics_raise float_add float_div results Hc) in H.
      by injection H as <-.
    + destruct (report_metrics_ok float_add float_div results Hes Hos)
        as (x & y & _ & _ & Hok).
      rewrite Hok in H. discriminate.
  - split.
    + intros [rows H]. exact (report_metrics_inv float_add float_div results rows H).
    + intros [Hes Hos].
      destruct (report_metrics_ok float_add float_div results Hes Hos)
        as (x & y & _ & _ & Hok). eauto.
Qed.

Lemma stats_empty_iff TEST_DURATION queries results cluster_name m :
  calculate_stats TEST_DURATION queries results cluster_name = Ok m ->
  (m = ∅ <->
   ~ exists r, In r results /\ rec_cluster r = cluster_name /\
               rec_query r ∈ map fst queries /\ rec_success r = true).
Proof.
  intros Hm. split.
  - intros -> (r & Hr & Hc & Hq & Hs).
    pose proof (entry_of_success _ _ _ _ _ _ Hm Hr Hc Hq Hs) as His.
    rewrite lookup_empty in His. by destruct His.
  - intros Hno. apply map_empty. intros q.
    destruct (m !! q) as [s |] eqn:Hs; [| reflexivity].
    exfalso. apply Hno.
    assert (His : is_Some (m !! q)) by (by eexists).
    apply (success_of_entry _ _ _ _ _ _ Hm) in His
      as (Hq & r & Hr & Hc & <- & Hsucc). eauto 10.
Qed.

(** The keys written by the benchmark script are the order of the dict:
    what the report script loads is a dict with its keys in order. *)
Lemma stats_keys_key_order TEST_DURATION queries results cluster_name m :
  NoDup (map fst queries) ->
  calculate_stats TEST_DURATION queries results cluster_name = Ok m ->
  key_order (stats_keys queries m) m.
Proof.
  intros Hnd Hm. unfold stats_keys. split.
  - apply NoDup_ListNoDup, List.NoDup_filter. by apply NoDup_ListNoDup.
  - intros k. rewrite list_elem_of_In, filter_In, bool_decide_eq_true, <- list_elem_of_In.
    split; [tauto |]. intros His. split; [| exact His].
    by apply (success_of_entry _ _ _ _ _ _ Hm) in His as (Hq & _).
Qed.

(** X17: end to end.  When the benchmark script gets as far as writing its
    results, the report script aborts on them exactly when one of the two
    backends has not a single successful record of a catalog query (the
    backend was down, or no pass was run). *)
Theorem report_aborts_without_success
    (float_add float_div : Q -> Q -> Q)
    (TEST_DURATION NUM_CLIENTS : Z) (queries : list (string * json))
    (elasticsearch_results opensearch_results : list OutcomeRecord)
    (results : Artifact) :
  combined_benchmark_results TEST_DURATION NUM_CLIENTS queries
    elasticsearch_results opensearch_results = Ok results ->
  (report_metrics float_add float_div results = Raise ZeroDivisionError <->
   (~ exists r, In r elasticsearch_results /\ rec_cluster r = "Elasticsearch" /\
                rec_query r ∈ map fst queries /\ rec_success r = true) \/
   (~ exists r, In r opensearch_results /\ rec_cluster r = "OpenSearch" /\
                rec_query r ∈ map fst queries /\ rec_success r = true)).
Proof.
  unfold combined_benchmark_results. intros H.
  destruct (calculate_stats TEST_DURATION queries elasticsearch_results "Elasticsearch")
    as [es | e] eqn:Hes; [| discriminate].
  destruct (calculate_stats TEST_DURATION queries opensearch_results "OpenSearch")
    as [os | e] eqn:Hos; [| discriminate].
  cbn [bind] in H. injection H as <-.
  rewrite <- (stats_empty_iff _ _ _ _ _ Hes), <- (stats_empty_iff _ _ _ _ _ Hos).
  split.
  - intros H. exact (report_metrics_raise_inv _ _ _ H).
  - intros H. by apply report_metrics_raise.
Qed.

(** X18: the indicator is antisymmetric: exchanging the two values, or
    switching between "lower is better" and "higher is better", turns green
    into red and red into green and keeps neutral. *)
Theorem get_color_code_opposite (x y : Q) (lower_is_better : bool) :
  get_color_code y x lower_is_better = opposite (get_color_code x y lower_is_better) /\
  get_color_code x y (negb lower_is_better)
  = opposite (get_color_code x y lower_is_better).
Proof.
  unfold get_color_code.
  destruct (py_lt x y) eqn:Hxy, (py_lt y x) eqn:Hyx; destruct lower_is_better;
    try (split; reflexivity).
  all: apply py_lt_true in Hxy, Hyx; exfalso;
    apply (Qlt_irrefl x); eapply Qlt_trans; eassumption.
Qed.

(** X19: only OpenSearch rows ever carry an indicator: every Elasticsearch
    row and both rows of the test parameters are neutral. *)
Theorem only_opensearch_rows_are_marked
    (float_add float_div : Q -> Q -> Q) (results : Artifact) rows r :
  report_metrics float_add float_div results = Ok rows ->
  In r rows ->
  status r <> NEUTRAL ->
  cluster r = "OpenSearch".
Proof.
  intros Hrows Hr Hstatus.
  destruct (report_metrics_inv float_add float_div results rows Hrows) as [Hes Hos].
  destruct (report_metrics_ok float_add float_div results Hes Hos)
    as (x & y & _ & _ & Heq).
  rewrite Heq in Hrows. injection Hrows as <-.
  apply in_app_or in Hr as [Hr | Hr].
  - apply In_per_query_rows in Hr
      as (q & m & [(e & _ & ->) | (e & a & _ & _ & ->)]); [| reflexivity].
    by destruct Hstatus.
  - unfold summary_table in Hr. simpl in Hr.
    repeat (destruct Hr as [<- | Hr];
            [first [reflexivity | by destruct Hstatus] |]).
    contradiction.
Qed.

End ReportProperties.

(** ** Instances of the further properties *)

Section Instances.
Import Py PyFloat Benchmark Report ReportSpec PyFacts PyFloatFacts ReportFacts
       AggregatorFacts AggregatorMore Setup Vocabulary Fixtures.

Lemma run_query_hit_count_witness :
  fst (run_query "sample-companies" steady_clock
         (fun _ _ _ => Ok [("took", JNum 3); ("hits", JObj [("hits", JArr [])])])
         "industry-search" JNull "Elasticsearch" world0)
  = Failure "Elasticsearch" "industry-search" "'total'".
Proof.
  refine (proj1 (proj2 (proj2
    (run_query_hit_count "sample-companies" steady_clock
       (fun _ _ _ => Ok [("took", JNum 3); ("hits", JObj [("hits", JArr [])])])
       "industry-search" JNull "Elasticsearch" world0 _ eq_refl)))
    [("hits", JArr [])] eq_refl eq_refl).
Defined.

Lemma worker_prints_one_line_per_failure_witness :
  exists res w',
    run_benchmark_worker "sample-companies" 1 catalog coarse_clock 5
      failing_client "OpenSearch" world0 = Some (res, w') /\
    stdout w' = stdout world0 ++ diagnostics res.
Proof.
  destruct (run_benchmark_worker "sample-companies" 1 catalog coarse_clock 5
              failing_client "OpenSearch" world0) as [[res w'] |] eqn:H.
  - exists res, w'. split; [reflexivity |].
    exact (proj1 (worker_prints_one_line_per_failure _ _ _ _ _ _ _ _ _ _ H)).
  - vm_compute in H. discriminate.
Defined.

Lemma worker_records_cluster_and_latency_witness :
  exists res w',
    run_benchmark_worker "sample-companies" 1 catalog coarse_clock 5
      ok_client "Elasticsearch" world0 = Some (res, w') /\
    Forall (fun r => rec_cluster r = "Elasticsearch") res.
Proof.
  destruct (run_benchmark_worker "sample-companies" 1 catalog coarse_clock 5
              ok_client "Elasticsearch" world0) as [[res w'] |] eqn:H.
  - exists res, w'. split; [reflexivity |].
    exact (proj1 (worker_records_cluster_and_latency _ _ _ _ _ _ _ _ _ _ H)).
  - vm_compute in H. discriminate.
Defined.

Lemma calculate_stats_order_independent_witness :
  match calculate_stats 20 catalog sample_results "Elasticsearch",
        calculate_stats 20 catalog (rev sample_results) "Elasticsearch" with
  | Ok m, Ok m' =>
      forall q, match m !! q, m' !! q with
                | Some s, Some s' => same_but_avg s s'
                | None, None => True
                | _, _ => False
                end
  | Raise e, Raise e' => e = e'
  | _, _ => False
  end.
Proof.
  exact (calculate_stats_order_independent 20 catalog sample_results
           (rev sample_results) "Elasticsearch" (Permutation_rev sample_results)).
Defined.

Lemma calculate_stats_ignores_foreign_records_witness :
  calculate_stats 20 catalog
    (sample_results ++ [Success "OpenSearch" "industry-search" 3 JNull])
    "Elasticsearch"
  = calculate_stats 20 catalog sample_results "Elasticsearch".
Proof.
  apply (calculate_stats_ignores_foreign_records 20 catalog sample_results
           [Success "OpenSearch" "industry-search" 3 JNull] "Elasticsearch").
  intros r [<- | []]. left. discriminate.
Defined.

Lemma calculate_stats_raises_iff_witness :
  calculate_stats 0 catalog sample_results "Elasticsearch" = Raise ZeroDivisionError.
Proof.
  apply (calculate_stats_raises_iff 0 catalog sample_results "Elasticsearch").
  split; [reflexivity |]. split; [reflexivity |].
  exists (Success "Elasticsearch" "industry-search" 12 JNull).
  split; [by left |]. split; [reflexivity |]. split; [| reflexivity].
  apply list_elem_of_In. simpl. tauto.
Defined.

Lemma sample_entry :
  exists m s,
    calculate_stats 20 catalog sample_results "Elasticsearch" = Ok m /\
    m !! "industry-search" = Some s.
Proof.
  destruct (calculate_stats_entry 20 catalog sample_results
              "Elasticsearch" "industry-search") as (m & s & Hm & Hs & _).
  - discriminate.
  - apply list_elem_of_In. simpl. tauto.
  - discriminate.
  - eauto.
Defined.

Lemma calculate_stats_domain_witness :
  exists m,
    calculate_stats 20 catalog sample_results "Elasticsearch" = Ok m /\
    ~ is_Some (m !! "complex-search").
Proof.
  destruct sample_entry as (m & s & Hm & _).
  exists m. split; [exact Hm |]. intros His.
  apply (calculate_stats_domain 20 catalog sample_results "Elasticsearch" m
           "complex-search" Hm) in His as (_ & r & Hr & _ & Hq & _).
  simpl in Hr. destruct Hr as [<- | [<- | [<- | []]]]; discriminate.
Defined.

Lemma entry_counts_partition_witness :
  exists m s,
    calculate_stats 20 catalog sample_results "Elasticsearch" = Ok m /\
    m !! "industry-search" = Some s /\
    successful_requests s = 2%nat /\ total_requests s = (successful_requests s + 1)%nat.
Proof.
  destruct sample_entry as (m & s & Hm & Hs).
  exists m, s. split; [exact Hm |]. split; [exact Hs |].
  exact (entry_counts_partition 20 catalog sample_results "Elasticsearch" m
           "industry-search" s Hm Hs).
Defined.

Lemma entry_latency_bounds_witness :
  exists m s,
    calculate_stats 20 catalog sample_results "Elasticsearch" = Ok m /\
    m !! "industry-search" = Some s /\
    (min_latency s <= p95_latency s)%Q /\ (p99_latency s <= max_latency s)%Q.
Proof.
  destruct sample_entry as (m & s & Hm & Hs).
  exists m, s. split; [exact Hm |]. split; [exact Hs |].
  destruct (entry_latency_bounds 20 catalog sample_results "Elasticsearch" m
              "industry-search" s Hm Hs) as (H1 & _ & H3 & _).
  split; assumption.
Defined.

Lemma p95_is_max_up_to_20_witness :
  exists m s,
    calculate_stats 20 catalog sample_results "Elasticsearch" = Ok m /\
    m !! "industry-search" = Some s /\
    (p95_latency s == max_latency s)%Q.
Proof.
  destruct sample_entry as (m & s & Hm & Hs).
  exists m, s. split; [exact Hm |]. split; [exact Hs |].
  apply (p95_is_max_up_to_20 20 catalog sample_results "Elasticsearch" m
           "industry-search" s Hm Hs).
  pose proof (calculate_stats_inv 20 catalog sample_results "Elasticsearch" m
                "industry-search" s Hm Hs) as Hq.
  apply query_stats_inv in Hq as (_ & _ & _ & Hk & _). rewrite Hk. simpl. lia.
Defined.

End Instances.

Section MoreInstances.
Import Py PyFloat Benchmark Report ReportSpec PyFacts PyFloatFacts ReportFacts
       AggregatorFacts AggregatorMore Setup Vocabulary Fixtures.

Lemma catalog_names_NoDup : NoDup (map fst catalog).
Proof.
  cbn [map fst catalog].
  repeat (apply NoDup_cons_2;
          [rewrite ?elem_of_cons, elem_of_nil;
           intros H; repeat (destruct H as [H | H]; [discriminate |]); exact H |]).
  apply NoDup_nil_2.
Qed.

Lemma merged_load_is_balanced_witness :
  exists res,
    produced_by_worker "sample-companies" 1 catalog "Elasticsearch" res /\
    length (records_for (extend_all [res; res]) "Elasticsearch" "industry-search")
    = length (records_for (extend_all [res; res]) "Elasticsearch" "complex-search").
Proof.
  destruct (run_benchmark_worker "sample-companies" 1 catalog coarse_clock 5
              ok_client "Elasticsearch" world0) as [[res w'] |] eqn:H.
  - assert (Hres : produced_by_worker "sample-companies" 1 catalog "Elasticsearch" res).
    { exists coarse_clock, 5%nat, ok_client, world0, w'. exact H. }
    exists res. split; [exact Hres |].
    refine (proj1 (merged_load_is_balanced "sample-companies" 1 catalog "Elasticsearch"
                     [res; res] "industry-search" "complex-search"
                     catalog_names_NoDup _ _ _)).
    + repeat constructor; exact Hres.
    + apply list_elem_of_In. simpl. tauto.
    + apply list_elem_of_In. simpl. tauto.
  - vm_compute in H. discriminate.
Defined.

Lemma report_aborts_iff_empty_stats_witness :
  report_metrics exact_add exact_div opensearch_only_artifact
  = Raise ZeroDivisionError.
Proof.
  exact (proj2 (proj1 (report_aborts_iff_empty_stats exact_add exact_div
                         opensearch_only_artifact))
               (or_introl eq_refl)).
Defined.

Lemma report_aborts_without_success_witness :
  exists results,
    combined_benchmark_results 20 10 catalog sample_results
      [Failure "OpenSearch" "industry-search" "ConnectionTimeout"] = Ok results /\
    report_metrics exact_add exact_div results = Raise ZeroDivisionError.
Proof.
  destruct (combined_benchmark_results 20 10 catalog sample_results
              [Failure "OpenSearch" "industry-search" "ConnectionTimeout"])
    as [results | e] eqn:H.
  - exists results. split; [reflexivity |].
    refine (proj2 (report_aborts_without_success exact_add exact_div
                     20 10 catalog sample_results
                     [Failure "OpenSearch" "industry-search" "ConnectionTimeout"]
                     results H) (or_intror _)).
    intros (r & [<- | []] & _ & _ & Hs). discriminate.
  - vm_compute in H. discriminate.
Defined.

Lemma only_opensearch_rows_are_marked_witness :
  exists rows,
    report_metrics exact_add exact_div common_artifact = Ok rows /\
    In (comparison_row "industry-search" ErrorRate stats_one_error stats_no_error) rows /\
    cluster (comparison_row "industry-search" ErrorRate stats_one_error stats_no_error)
    = "OpenSearch".
Proof.
  destruct (report_metrics_ok exact_add exact_div common_artifact)
    as (x & y & _ & _ & Hrows).
  - apply insert_non_empty.
  - apply insert_non_empty.
  - eexists. split; [exact Hrows |].
    assert (Hin : In (comparison_row "industry-search" ErrorRate
                        stats_one_error stats_no_error)
                     (per_query_rows
                        (default ∅ (elasticsearch_stats common_artifact))
                        (default ∅ (opensearch_stats common_artifact)) ++
                      summary_table common_artifact
                        (default ∅ (elasticsearch_stats common_artifact))
                        (default ∅ (opensearch_stats common_artifact)) x y
                        (avg_requests_per_second exact_add
                           (elasticsearch_keys common_artifact)
                           (default ∅ (elasticsearch_stats common_artifact)))
                        (avg_requests_per_second exact_add
                           (opensearch_keys common_artifact)
                           (default ∅ (opensearch_stats common_artifact))))).
    { apply in_or_app. left.
      refine (proj2 (In_per_query_rows _ _ _) _).
      exists "industry-search", ErrorRate. right.
      exists stats_one_error, stats_no_error.
      split; [apply lookup_singleton_eq |]. split; [apply lookup_singleton_eq |].
      reflexivity. }
    split; [exact Hin |].
    refine (only_opensearch_rows_are_marked exact_add exact_div
              common_artifact _ _ Hrows Hin _).
    vm_compute. discriminate.
Defined.

(** X20: beyond twenty samples the index of the 95th percentile, and beyond
    a hundred samples the index of the 99th percentile, is strictly below the
    last index, so the largest sample is no longer the reported value. *)
Theorem percentile_index_below_last (n : nat) :
  (Z.of_nat n < 2 ^ 46)%Z ->
  ((20 < n)%nat -> (int_mul_0_95 n <= n - 2)%nat) /\
  ((100 < n)%nat -> (int_mul_0_99 n <= n - 2)%nat).
Proof.
  intros Hn. rewrite int_mul_0_95_floor, int_mul_0_99_floor by exact Hn.
  split; intros Hbig.
  - apply Nat.lt_succ_r. apply Nat.Div0.div_lt_upper_bound. lia.
  - apply Nat.lt_succ_r. apply Nat.Div0.div_lt_upper_bound. lia.
Qed.

Lemma percentile_index_below_last_witness :
  (int_mul_0_95 21 <= 19)%nat /\ (int_mul_0_99 101 <= 99)%nat.
Proof.
  destruct (percentile_index_below_last 21 ltac:(reflexivity)) as [H95 _].
  destruct (percentile_index_below_last 101 ltac:(reflexivity)) as [_ H99].
  split; [apply H95 | apply H99]; lia.
Defined.

End MoreInstances.

(** ** From the records to the summary of the report *)

Section SummaryProperties.
Import Py Benchmark Report ReportSpec PyFacts ReportFacts AggregatorFacts
       AggregatorMore Vocabulary Fixtures.

Lemma filter_filter {A} (f g : A -> bool) l :
  List.filter f (List.filter g l) = List.filter (fun x => g x && f x) l.
Proof.
  induction l as [| x l IH]; simpl; [reflexivity |].
  destruct (g x); simpl; [destruct (f x) |]; by rewrite IH.
Qed.

Lemma length_filter_orb {A} (a b : A -> bool) l :
  (forall x, a x = true -> b x = true -> False) ->
  length (List.filter (fun x => a x || b x) l)
  = (length (List.filter a l) + length (List.filter b l))%nat.
Proof.
  intros Hdisj. induction l as [| x l IH]; simpl; [reflexivity |].
  destruct (a x) eqn:Ea, (b x) eqn:Eb; simpl; rewrite IH; try lia.
  exfalso. eauto.
Qed.

Lemma filter_ext_length {A} (f g : A -> bool) l :
  (forall x, f x = g x) -> length (List.filter f l) = length (List.filter g l).
Proof.
  intros H. induction l as [| x l IH]; simpl; [reflexivity |].
  rewrite H. destruct (g x); simpl; by rewrite IH.
Qed.

(** The successful records of the catalog queries, counted query by query. *)
Lemma successes_by_query (names : list string) (cr : list OutcomeRecord) :
  NoDup names ->
  list_sum (map (fun n => length (List.filter rec_success (records_of_query cr n))) names)
  = length (List.filter
              (fun r => rec_success r && existsb (String.eqb (rec_query r)) names) cr).
Proof.
  induction 1 as [| n names Hn Hnd IH]; simpl.
  - induction cr as [| r cr IHcr]; simpl; [reflexivity |].
    rewrite andb_false_r. exact IHcr.
  - rewrite IH. unfold records_of_query. rewrite filter_filter.
    rewrite <- length_filter_orb.
    + apply filter_ext_length. intros r.
      destruct (rec_success r), (String.eqb (rec_query r) n); reflexivity.
    + intros r Ha Hb.
      apply andb_true_iff in Ha as [Ha _]. apply String.eqb_eq in Ha.
      apply andb_true_iff in Hb as [_ Hb]. apply existsb_exists in Hb as (x & Hx & Hxe).
      apply String.eqb_eq in Hxe. apply Hn. rewrite <- Ha, Hxe.
      by apply list_elem_of_In.
Qed.

Lemma for_query_names_successes TEST_DURATION names cr acc m :
  NoDup names ->
  (forall n, n ∈ names -> acc !! n = None) ->
  for_query_names TEST_DURATION names cr acc = Ok m ->
  sum_Z (fun s => Z.of_nat (successful_requests s)) m
  = (sum_Z (fun s => Z.of_nat (successful_requests s)) acc
     + Z.of_nat (list_sum (map (fun n => length (List.filter rec_success
                                                  (records_of_query cr n))) names)))%Z.
Proof.
  intros Hnd. revert acc. induction Hnd as [| n names Hn Hnd IH]; intros acc Hacc H;
    simpl in H.
  - injection H as <-. simpl. lia.
  - destruct (query_stats TEST_DURATION (records_of_query cr n)) as [e | x] eqn:E;
      [| discriminate].
    cbn [bind] in H. apply IH in H.
    + rewrite H. simpl. destruct e as [s |].
      * rewrite sum_Z_insert by (apply Hacc, list_elem_of_here).
        apply query_stats_inv in E as (_ & _ & _ & -> & _). lia.
      * apply query_stats_none in E. rewrite E. simpl. lia.
    + intros n' Hn'. assert (n' <> n).
      { intros ->. by apply Hn. }
      destruct e; [rewrite lookup_insert_ne by done |];
        apply Hacc; by apply list_elem_of_further.
Qed.

(** X21: the "Successful Requests" line of the report is the number of
    successful records the backend produced for catalog queries. *)
Theorem summary_successful_requests
    (TEST_DURATION : Z) (queries : list (string * json))
    (results : list OutcomeRecord) (cluster_name : string)
    (m : gmap string QueryStats) :
  NoDup (map fst queries) ->
  calculate_stats TEST_DURATION queries results cluster_name = Ok m ->
  sum_successful_requests m
  = Z.of_nat (length (List.filter
                        (fun r => rec_success r
                                  && existsb (String.eqb (rec_query r)) (map fst queries))
                        (records_of_cluster results cluster_name))).
Proof.
  intros Hnd Hm. unfold sum_successful_requests. rewrite sum_Z_values.
  unfold calculate_stats in Hm.
  rewrite (for_query_names_successes _ _ _ _ _ Hnd (fun n _ => lookup_empty n) Hm).
  rewrite (successes_by_query _ _ Hnd).
  unfold sum_Z. rewrite map_fold_empty. lia.
Qed.

Lemma summary_successful_requests_witness :
  exists m,
    calculate_stats 20 catalog sample_results "Elasticsearch" = Ok m /\
    sum_successful_requests m = 2%Z.
Proof.
  destruct sample_entry as (m & s & Hm & _).
  exists m. split; [exact Hm |].
  exact (summary_successful_requests 20 catalog sample_results "Elasticsearch" m
           catalog_names_NoDup Hm).
Defined.

End SummaryProperties.
